(** * EmotionSense backend: preprocessing pipeline and history store

    A shallow embedding of [app/services/preprocessing.py],
    [app/services/storage.py] and the parts of [app/config.py] they read,
    followed by the properties of the specification that concern them.

    Conventions.
    - Python [int] is [Z]; Python [float] is IEEE binary64 and
      [numpy.float32] is IEEE binary32, both through [SpecFloat] with the
      precision and exponent range written out.
    - A Python [dict] with string keys whose order is never observed is a
      [gmap string _]; the one dict whose iteration order is observed
      ([emotion_counts]) is an association list in insertion order.
    - [try]/[except] is an error monad [res]: [Raise e] is a raised
      exception, [catch] is a handler that matches on the exception class.
      An exception is its class and its message; the exception that Python
      chains to it as [__context__] is not part of the model.
    - The wall clock ([datetime.utcnow()]) is an explicit argument [now].
    - Third-party libraries that are not part of the repository are
      parameters: the PIL codec and resampler are variables of a section,
      the tensor library's softmax and the interpreter's
      [datetime.fromisoformat] are the one method of a class each
      ([Softmax], [IsoParser]), with what is relied on from them stated as
      a hypothesis where it is used. *)

From Stdlib Require Import ZArith List Ascii String Lia Bool.
From Stdlib Require Import Strings.Byte.
From Stdlib Require Import Reals Lra.
From Stdlib Require Import Floats.SpecFloat.
From Stdlib Require Import Sorting.Sorted.
From stdpp Require Import base option list strings gmap pretty.

Local Open Scope Z_scope.

(** ** Python runtime: exceptions, values, floats *)

Module Py.

Inductive exn_class :=
| KeyError | ValueError | TypeError | AttributeError | OverflowError
| BinasciiError | UnidentifiedImageError | OSError | IndexError.

Record exn := Exn { exn_cls : exn_class; exn_msg : string }.

Inductive res (A : Type) :=
| Ok (a : A)
| Raise (e : exn).
Arguments Ok {A} a.
Arguments Raise {A} e.

Definition bind {A B} (m : res A) (k : A → res B) : res B :=
  match m with
  | Ok a => k a
  | Raise e => Raise e
  end.

(** [try m except <classes matched by h>: handler] *)
Definition catch {A} (m : res A) (h : exn → option (res A)) : res A :=
  match m with
  | Ok a => Ok a
  | Raise e => match h e with Some r => r | None => Raise e end
  end.

Definition raise {A} (c : exn_class) (msg : string) : res A := Raise (Exn c msg).

#[global] Instance res_ret : MRet res := @Ok.
#[global] Instance res_bind : MBind res := λ A B k m, bind m k.

(** IEEE binary64 (Python [float]) and binary32 ([numpy.float32]). *)
Abbreviation float64 := spec_float.
Abbreviation float32 := spec_float.

Definition f64_of_Z (z : Z) : float64 := binary_normalize 53 1024 z 0 false.
Definition f64_add : float64 → float64 → float64 := SFadd 53 1024.
Definition f64_div : float64 → float64 → float64 := SFdiv 53 1024.
Definition f64_zero : float64 := S754_zero false.

Definition f32_of_Z (z : Z) : float32 := binary_normalize 24 128 z 0 false.
Definition f32_div : float32 → float32 → float32 := SFdiv 24 128.
Definition f32_zero : float32 := S754_zero false.
Definition f32_one : float32 := f32_of_Z 1.

(** Values that a prediction dictionary can hold: what [json.loads]
    produces and what the inference service writes.  [VList] stands for
    the unhashable containers (lists and nested dicts). *)
#[warnings="-register-all"] Inductive pyval :=
| VNone
| VInt (z : Z)
| VFloat (f : float64)
| VStr (s : string)
| VList (l : list pyval).

Definition hashable (v : pyval) : bool :=
  match v with VList _ => false | _ => true end.

(** Exact comparison of an [int] with a [float], as Python does it. *)
Definition int_eq_float (z : Z) (f : float64) : bool :=
  match f with
  | S754_zero _ => z =? 0
  | S754_finite s m e =>
      let sm := if s then Z.neg m else Z.pos m in
      if 0 <=? e then z =? sm * 2 ^ e else z * 2 ^ (- e) =? sm
  | _ => false
  end.

(** Key equality of a dict ([==] on hashable values).  Two NaN keys are
    different keys: every stored entry holds its own float object. *)
Definition key_eqb (a b : pyval) : bool :=
  match a, b with
  | VNone, VNone => true
  | VInt x, VInt y => x =? y
  | VFloat x, VFloat y => SFeqb x y
  | VInt x, VFloat y | VFloat y, VInt x => int_eq_float x y
  | VStr x, VStr y => String.eqb x y
  | _, _ => false
  end.

(** [int -> float] conversion raises when the integer is out of range. *)
Definition float_of_int (z : Z) : res float64 :=
  match f64_of_Z z with
  | S754_infinity _ => raise OverflowError "int too large to convert to float"
  | f => Ok f
  end.

(** [acc + v] for a float accumulator [acc]. *)
Definition float_add_val (acc : float64) (v : pyval) : res float64 :=
  match v with
  | VInt z => bind (float_of_int z) (λ f, Ok (f64_add acc f))
  | VFloat f => Ok (f64_add acc f)
  | _ => raise TypeError "unsupported operand type(s) for +"
  end.

(** [round(x, ndigits)] for a float [x] and [ndigits >= 0]: the exact value
    is rounded half-to-even to [ndigits] decimals and the decimal is then
    converted back to the nearest float. *)
Definition round_half_even_div (num den : Z) : Z :=
  let q := num / den in
  let r := num mod den in
  match 2 * r ?= den with
  | Lt => q
  | Gt => q + 1
  | Eq => if Z.even q then q else q + 1
  end.

Definition py_round (x : float64) (ndigits : Z) : float64 :=
  match x with
  | S754_finite s m e =>
      if 0 <=? e then x
      else
        let scale := 10 ^ ndigits in
        match round_half_even_div (Z.pos m * scale) (2 ^ (- e)), scale with
        | Z.pos n, Z.pos d =>
            f64_div (S754_finite s n 0) (S754_finite false d 0)
        | _, _ => S754_zero s
        end
  | _ => x
  end.

(** [lst[start:]] *)
Definition slice_from {A} (l : list A) (start : Z) : list A :=
  let len := Z.of_nat (length l) in
  let start := if start <? 0 then Z.max 0 (start + len) else Z.min start len in
  drop (Z.to_nat start) l.

(** [s.replace(old, new)] for a one-character [old]. *)
Fixpoint str_replace_char (old : ascii) (new : string) (s : string) : string :=
  match s with
  | EmptyString => EmptyString
  | String c rest =>
      if Ascii.eqb c old then new +:+ str_replace_char old new rest
      else String c (str_replace_char old new rest)
  end.

End Py.
Import Py.

(** ** The [datetime] library, as far as the history store uses it *)

Module Datetime.

(** A [datetime] object keeps its broken-down fields; [tzinfo] is the UTC
    offset in microseconds of an aware object and [None] for a naive one. *)
Record datetime := {
  year : Z; month : Z; day : Z;
  hour : Z; minute : Z; second : Z; microsecond : Z;
  tzinfo : option Z
}.

Definition is_leap (y : Z) : bool :=
  (y mod 4 =? 0) && (negb (y mod 100 =? 0) || (y mod 400 =? 0)).

Definition days_in_month (y m : Z) : Z :=
  if m =? 2 then (if is_leap y then 29 else 28)
  else if (m =? 4) || (m =? 6) || (m =? 9) || (m =? 11) then 30
  else 31.

Definition days_before_year (y : Z) : Z :=
  let y := y - 1 in y * 365 + y / 4 - y / 100 + y / 400.

Definition days_before_month (y m : Z) : Z :=
  fold_right (λ k acc, days_in_month y k + acc) 0
             (map Z.of_nat (seq 1 (Z.to_nat (m - 1)))).

(** [date.toordinal()]: 0001-01-01 is day 1. *)
Definition toordinal (d : datetime) : Z :=
  days_before_year (year d) + days_before_month (year d) (month d) + day d.

(** Position of the wall-clock fields on the time line, in microseconds
    since 0001-01-01T00:00:00. *)
Definition to_micros (d : datetime) : Z :=
  ((((toordinal d - 1) * 24 + hour d) * 60 + minute d) * 60 + second d)
    * 1000000 + microsecond d.

Definition max_micros : Z := 3652059 * 86400 * 1000000 - 1.

(** Field checks of the constructor. *)
Definition valid_fields (d : datetime) : bool :=
  (1 <=? year d) && (year d <=? 9999) &&
  (1 <=? month d) && (month d <=? 12) &&
  (1 <=? day d) && (day d <=? days_in_month (year d) (month d)) &&
  (0 <=? hour d) && (hour d <=? 23) &&
  (0 <=? minute d) && (minute d <=? 59) &&
  (0 <=? second d) && (second d <=? 59) &&
  (0 <=? microsecond d) && (microsecond d <=? 999999).

(** *** [isoformat] *)

Definition digit_char (n : Z) : ascii := pretty_N_char (Z.to_N n).

Fixpoint zero_pad (width : nat) (n : Z) : string :=
  match width with
  | O => EmptyString
  | S w => zero_pad w (n / 10) +:+ String (digit_char (n mod 10)) EmptyString
  end.

(** [d.isoformat()] of a naive datetime. *)
Definition isoformat (d : datetime) : string :=
  zero_pad 4 (year d) +:+ "-" +:+ zero_pad 2 (month d) +:+ "-" +:+
  zero_pad 2 (day d) +:+ "T" +:+ zero_pad 2 (hour d) +:+ ":" +:+
  zero_pad 2 (minute d) +:+ ":" +:+ zero_pad 2 (second d) +:+
  (if microsecond d =? 0 then "" else "." +:+ zero_pad 6 (microsecond d)).

(** *** [fromisoformat] in Python 3.7 to 3.10

    The grammar is the one [isoformat] writes,
    [YYYY-MM-DD[*HH[:MM[:SS[.fff[fff]]]][+HH:MM[:SS[.ffffff]]]]],
    which is all that the function accepts in the Python versions that need
    the ["Z"] rewriting done by [get_predictions] (3.7 to 3.10).  From 3.11
    on the function reads more forms of ISO 8601. *)

Definition digit_of (c : ascii) : option Z :=
  let n := Z.of_N (N_of_ascii c) in
  if (48 <=? n) && (n <=? 57) then Some (n - 48) else None.

(** [int(s)] for a string of decimal digits. *)
Fixpoint parse_digits_acc (s : string) (acc : Z) : option Z :=
  match s with
  | EmptyString => Some acc
  | String c rest =>
      match digit_of c with
      | Some d => parse_digits_acc rest (acc * 10 + d)
      | None => None
      end
  end.

Definition parse_int (s : string) : option Z :=
  match s with
  | EmptyString => None
  | _ => parse_digits_acc s 0
  end.

Definition str_len (s : string) : nat := String.length s.
Definition str_sub (start len : nat) (s : string) : string := substring start len s.
Definition str_from (start : nat) (s : string) : string :=
  substring start (str_len s - start) s.

Definition parse_isoformat_date (dstr : string) : option (Z * Z * Z) :=
  if negb (str_len dstr =? 10)%nat then None else
  y ← parse_int (str_sub 0 4 dstr);
  _ ← guard (str_sub 4 1 dstr = "-");
  m ← parse_int (str_sub 5 2 dstr);
  _ ← guard (str_sub 7 1 dstr = "-");
  d ← parse_int (str_sub 8 2 dstr);
  Some (y, m, d).

(** Parses [HH[:MM[:SS[.fff[fff]]]]]; the components left out are 0. *)
Definition parse_hh_mm_ss_ff (tstr : string) : option (Z * Z * Z * Z) :=
  let len := str_len tstr in
  hh ← parse_int (str_sub 0 2 tstr);
  _ ← guard (2 ≤ len)%nat;
  if (len =? 2)%nat then Some (hh, 0, 0, 0) else
  _ ← guard (str_sub 2 1 tstr = ":");
  mm ← parse_int (str_sub 3 2 tstr);
  _ ← guard (5 ≤ len)%nat;
  if (len =? 5)%nat then Some (hh, mm, 0, 0) else
  _ ← guard (str_sub 5 1 tstr = ":");
  ss ← parse_int (str_sub 6 2 tstr);
  _ ← guard (8 ≤ len)%nat;
  if (len =? 8)%nat then Some (hh, mm, ss, 0) else
  _ ← guard (str_sub 8 1 tstr = ".");
  let rem := (len - 9)%nat in
  _ ← guard (rem = 3 ∨ rem = 6)%nat;
  ff ← parse_int (str_from 9 tstr);
  Some (hh, mm, ss, if (rem =? 3)%nat then ff * 1000 else ff).

(** [s.find(c)] *)
Fixpoint str_find (c : ascii) (s : string) : option nat :=
  match s with
  | EmptyString => None
  | String a rest =>
      if Ascii.eqb a c then Some O else S <$> str_find c rest
  end.

(** Returns the time fields and the UTC offset (microseconds) if any. *)
Definition parse_isoformat_time (tstr : string) : option (Z * Z * Z * Z * option Z) :=
  _ ← guard (2 ≤ str_len tstr)%nat;
  let tz_pos :=
    match str_find "-" tstr with
    | Some i => Some i
    | None => str_find "+" tstr
    end in
  match tz_pos with
  | None => t ← parse_hh_mm_ss_ff tstr; Some (t, None)
  | Some i =>
      t ← parse_hh_mm_ss_ff (str_sub 0 i tstr);
      let tzstr := str_from (S i) tstr in
      let n := str_len tzstr in
      _ ← guard (n = 5 ∨ n = 8 ∨ n = 15)%nat;
      '(h, m, s, us) ← parse_hh_mm_ss_ff tzstr;
      let sign := if bool_decide (str_sub i 1 tstr = "-") then -1 else 1 in
      let off := sign * (((h * 60 + m) * 60 + s) * 1000000 + us) in
      _ ← guard (-86400000000 < off < 86400000000);
      Some (t, Some off)
  end.

(** [datetime.fromisoformat(s)] of Python 3.7 to 3.10; [None] is
    [ValueError]. *)
Definition fromisoformat_py37 (s : string) : option datetime :=
  '(y, mo, d) ← parse_isoformat_date (str_sub 0 10 s);
  '(h, mi, sec, us, tz) ←
     (if (str_len s <=? 10)%nat then Some (0, 0, 0, 0, None)
      else parse_isoformat_time (str_from 11 s));
  let dt := {| year := y; month := mo; day := d; hour := h; minute := mi;
               second := sec; microsecond := us; tzinfo := tz |} in
  if valid_fields dt then Some dt else None.

(** *** [fromisoformat] of the interpreter that runs the code

    Which strings are read depends on the Python version, which the
    repository does not fix: the function is a parameter, [None] standing
    for [ValueError]. *)
Class IsoParser := fromisoformat : string → option datetime.

(** The parser of Python 3.7 to 3.10. *)
Definition py37_parser : IsoParser := fromisoformat_py37.

(** The same datetime with UTC as its time zone. *)
Definition as_utc (d : datetime) : datetime :=
  {| year := year d; month := month d; day := day d; hour := hour d;
     minute := minute d; second := second d; microsecond := microsecond d;
     tzinfo := Some 0 |}.

(** What every version of [fromisoformat] does: it reads back what
    [isoformat] writes, for a naive datetime and for one in UTC, whose
    text ends in ["+00:00"]. *)
Definition reads_isoformat `{IsoParser} : Prop :=
  ∀ d, valid_fields d = true → tzinfo d = None →
    fromisoformat (isoformat d) = Some d
    ∧ fromisoformat (isoformat d +:+ "+00:00") = Some (as_utc d).

(** [now - timedelta(hours=h)] for a naive [now], as a point of the time
    line.  [timedelta] refuses more than 999999999 days and the
    subtraction refuses a result outside years 1..9999. *)
Definition sub_hours (now : datetime) (hours : Z) : res Z :=
  if Z.abs (hours / 24) >? 999999999
  then raise OverflowError "days out of range for timedelta"
  else
    let c := to_micros now - hours * 3600 * 1000000 in
    if (c <? 0) || (max_micros <? c)
    then raise OverflowError "date value out of range"
    else Ok c.

(** [ts > cutoff] where [cutoff] is naive: an aware left operand cannot be
    ordered against it. *)
Definition gt_naive (ts : datetime) (cutoff : Z) : res bool :=
  match tzinfo ts with
  | Some _ => raise TypeError "can't compare offset-naive and offset-aware datetimes"
  | None => Ok (cutoff <? to_micros ts)
  end.

End Datetime.

(** ** [app/services/storage.py] *)

Module Storage.
Import Datetime.

(** [UserStats]: the dictionary returned by [get_emotion_stats].
    [dominant_emotion] is a Python value ([VNone] is [None]);
    [by_emotion] is absent from the zeroed dictionary. *)
Record stats := {
  st_user_id : string;
  st_total : Z;
  st_emotion_counts : list (pyval * Z);
  st_dominant_emotion : pyval;
  st_average_confidence : float64;
  st_by_emotion : option (list (pyval * Z))
}.

(** The two module-level dictionaries [_predictions_store] and
    [_stats_cache].  A stored entry is a dict with string keys. *)
Record state := {
  predictions_store : gmap string (list (gmap string pyval));
  stats_cache : gmap string stats
}.

Definition empty_state : state :=
  {| predictions_store := ∅; stats_cache := ∅ |}.

(** [{**prediction, "stored_at": utcnow().isoformat() + "Z"}] *)
Definition stored_entry (now : datetime) (prediction : gmap string pyval)
  : gmap string pyval :=
  <["stored_at" := VStr (isoformat now +:+ "Z")]> prediction.

Definition store_prediction (now : datetime) (st : state) (user_id : string)
    (prediction : gmap string pyval) : state :=
  let l := default [] (predictions_store st !! user_id) in
  let l := l ++ [stored_entry now prediction] in
  let l := if 1000 <? Z.of_nat (length l) then slice_from l (-1000) else l in
  {| predictions_store := <[user_id := l]> (predictions_store st);
     stats_cache := stats_cache st |}.

Section WithParser.
Context {parser : IsoParser}.

(** Body of the inner [try] of [get_predictions]: does [p] fall in the
    window? *)
Definition entry_in_window (cutoff_time : Z) (p : gmap string pyval) : res bool :=
  v ← match p !! "timestamp" with
      | Some v => Ok v
      | None => raise KeyError "timestamp"
      end;
  s ← match v with
      | VStr s => Ok (str_replace_char "Z" "+00:00" s)
      | _ => raise AttributeError "object has no attribute 'replace'"
      end;
  timestamp ← match fromisoformat s with
              | Some d => Ok d
              | None => raise ValueError "Invalid isoformat string"
              end;
  gt_naive timestamp cutoff_time.

(** The [for p in predictions] loop with its [except (ValueError, KeyError):
    continue]. *)
Fixpoint filter_window (cutoff_time : Z) (predictions filtered : list (gmap string pyval))
  : res (list (gmap string pyval)) :=
  match predictions with
  | [] => Ok filtered
  | p :: rest =>
      filtered' ←
        catch (b ← entry_in_window cutoff_time p;
               Ok (if b : bool then filtered ++ [p] else filtered))
              (λ e, match exn_cls e with
                    | ValueError | KeyError => Some (Ok filtered)
                    | _ => None
                    end);
      filter_window cutoff_time rest filtered'
  end.

Definition get_predictions (now : datetime) (st : state) (user_id : string)
    (limit hours : Z) : list (gmap string pyval) :=
  let body : res (list (gmap string pyval)) :=
    match predictions_store st !! user_id with
    | None => Ok []
    | Some predictions =>
        cutoff_time ← sub_hours now hours;
        filtered ← filter_window cutoff_time predictions [];
        Ok (slice_from filtered (- limit))
    end in
  match body with
  | Ok r => r
  | Raise _ => []          (* except Exception: return [] *)
  end.

Definition zero_stats (user_id : string) : stats :=
  {| st_user_id := user_id; st_total := 0; st_emotion_counts := [];
     st_dominant_emotion := VNone; st_average_confidence := f64_zero;
     st_by_emotion := None |}.

(** [p.get(key, default)] *)
Definition dict_get (p : gmap string pyval) (key : string) (dflt : pyval) : pyval :=
  default dflt (p !! key).

(** [counts[k] = counts.get(k, 0) + 1] on an insertion-ordered dict: an
    existing key keeps its place, a new key goes last. *)
Fixpoint counts_incr (counts : list (pyval * Z)) (k : pyval) : list (pyval * Z) :=
  match counts with
  | [] => [(k, 1)]
  | (k', c) :: rest =>
      if key_eqb k' k then (k', c + 1) :: rest
      else (k', c) :: counts_incr rest k
  end.

(** The [for p in predictions] loop of [get_emotion_stats]. *)
Fixpoint accumulate (predictions : list (gmap string pyval))
    (emotion_counts : list (pyval * Z)) (total_confidence : float64)
  : res (list (pyval * Z) * float64) :=
  match predictions with
  | [] => Ok (emotion_counts, total_confidence)
  | p :: rest =>
      let emotion := dict_get p "emotion" (VStr "Unknown") in
      _ ← (if hashable emotion then Ok tt else raise TypeError "unhashable type");
      let emotion_counts := counts_incr emotion_counts emotion in
      total_confidence ← float_add_val total_confidence (dict_get p "confidence" (VInt 0));
      accumulate rest emotion_counts total_confidence
  end.

(** [max(items, key=lambda x: x[1])]: the first of the maximal items. *)
Fixpoint max_by_count (best : pyval * Z) (items : list (pyval * Z)) : pyval * Z :=
  match items with
  | [] => best
  | it :: rest => max_by_count (if snd best <? snd it then it else best) rest
  end.

Definition dominant_of (emotion_counts : list (pyval * Z)) : pyval :=
  match emotion_counts with
  | [] => VNone
  | it :: rest => fst (max_by_count it rest)
  end.

(** [sorted(items, key=lambda x: x[1], reverse=True)] (stable). *)
Fixpoint insert_desc (x : pyval * Z) (l : list (pyval * Z)) : list (pyval * Z) :=
  match l with
  | [] => [x]
  | y :: rest => if snd y <? snd x then x :: l else y :: insert_desc x rest
  end.

Definition sorted_desc (l : list (pyval * Z)) : list (pyval * Z) :=
  fold_left (λ acc x, insert_desc x acc) l [].

Definition get_emotion_stats (now : datetime) (st : state) (user_id : string)
    (hours : Z) : stats * state :=
  let predictions := get_predictions now st user_id 10000 hours in
  match predictions with
  | [] => (zero_stats user_id, st)
  | _ :: _ =>
      match accumulate predictions [] f64_zero with
      | Raise _ => (zero_stats user_id, st)   (* except Exception *)
      | Ok (emotion_counts, total_confidence) =>
          let total := Z.of_nat (length predictions) in
          let avg_confidence :=
            if 0 <? total then f64_div total_confidence (f64_of_Z total)
            else f64_zero in
          let stats :=
            {| st_user_id := user_id;
               st_total := total;
               st_emotion_counts := emotion_counts;
               st_dominant_emotion := dominant_of emotion_counts;
               st_average_confidence := py_round avg_confidence 4;
               st_by_emotion := Some (sorted_desc emotion_counts) |} in
          (stats, {| predictions_store := predictions_store st;
                     stats_cache := <[user_id := stats]> (stats_cache st) |})
      end
  end.

End WithParser.

(** [clear_predictions] *)
Definition clear_predictions (st : state) (user_id : string) : bool * state :=
  (true, {| predictions_store := delete user_id (predictions_store st);
            stats_cache := delete user_id (stats_cache st) |}).

End Storage.

(** ** [app/config.py] *)

Module Config.

Record Settings := {
  CONFIDENCE_THRESHOLD : float64;
  MAX_FRAME_SIZE : Z
}.

Definition settings : Settings :=
  {| CONFIDENCE_THRESHOLD := f64_div (f64_of_Z 3) (f64_of_Z 10);
     MAX_FRAME_SIZE := 512 * 512 |}.

End Config.

(** ** [base64.b64decode] in its default, non-validating mode *)

Module Base64.

Definition byte_of_Z (z : Z) : byte :=
  default x00 (Byte.of_N (Z.to_N (z mod 256))).

(** The decoding table: [None] for a character outside the alphabet. *)
Definition b64_value (c : ascii) : option Z :=
  let n := Z.of_N (N_of_ascii c) in
  if (65 <=? n) && (n <=? 90) then Some (n - 65)
  else if (97 <=? n) && (n <=? 122) then Some (n - 71)
  else if (48 <=? n) && (n <=? 57) then Some (n + 4)
  else if n =? 43 then Some 62
  else if n =? 47 then Some 63
  else None.

(** The scanning loop of [binascii.a2b_base64]: characters outside the
    alphabet are dropped, a complete pad sequence ends the input, and data
    left in an unfinished quad is an error. *)
Fixpoint a2b_loop (s : string) (quad_pos leftchar pads : Z) (out : list byte)
  : res (list byte) :=
  match s with
  | EmptyString =>
      if quad_pos =? 0 then Ok out
      else if quad_pos =? 1 then
        raise BinasciiError
          ("Invalid base64-encoded string: number of data characters ("
           +:+ pretty (Z.of_nat (length out) / 3 * 4 + 1)
           +:+ ") cannot be 1 more than a multiple of 4")
      else raise BinasciiError "Incorrect padding"
  | String c rest =>
      if Ascii.eqb c "=" then
        if 2 <=? quad_pos then
          if 4 <=? quad_pos + (pads + 1) then Ok out
          else a2b_loop rest quad_pos leftchar (pads + 1) out
        else a2b_loop rest quad_pos leftchar pads out
      else
        match b64_value c with
        | None => a2b_loop rest quad_pos leftchar pads out
        | Some v =>
            if quad_pos =? 0 then a2b_loop rest 1 v 0 out
            else if quad_pos =? 1 then
              a2b_loop rest 2 (Z.land v 15) 0
                       (out ++ [byte_of_Z (Z.lor (Z.shiftl leftchar 2) (Z.shiftr v 4))])
            else if quad_pos =? 2 then
              a2b_loop rest 3 (Z.land v 3) 0
                       (out ++ [byte_of_Z (Z.lor (Z.shiftl leftchar 4) (Z.shiftr v 2))])
            else
              a2b_loop rest 0 0 0
                       (out ++ [byte_of_Z (Z.lor (Z.shiftl leftchar 6) v)])
        end
  end.

Fixpoint is_ascii_str (s : string) : bool :=
  match s with
  | EmptyString => true
  | String c rest => (N_of_ascii c <? 128)%N && is_ascii_str rest
  end.

(** [base64.b64decode(s)] for a [str] argument. *)
Definition b64decode (s : string) : res (list byte) :=
  if is_ascii_str s then a2b_loop s 0 0 0 []
  else raise ValueError "string argument should contain only ASCII characters".

End Base64.

(** ** [app/services/preprocessing.py] *)

Module Preprocessing.
Import Config Base64.

(** [PIL.Image.Resampling] *)
Inductive Resampling := NEAREST | LANCZOS | BILINEAR | BICUBIC | BOX | HAMMING.

(** A raster image: its mode, its size and, for an 8-bit single-band
    image (mode ["L"]), one byte per pixel in row-major order. *)
Record Image := {
  mode : string;
  width : Z;
  height : Z;
  data : list byte
}.

(** A dense array of binary32 numbers ([numpy.ndarray] of dtype float32,
    [torch.Tensor]): the shape and the elements in row-major order. *)
Record ndarray := {
  shape : list Z;
  values : list float32
}.

(** Calls into libraries, in the order in which they are made. *)
Inductive libcall :=
| CallB64decode
| CallImageOpen
| CallConvert (mode : string)
| CallResize (size : Z * Z) (resample : Resampling)
| CallNpArray
| CallDivide
| CallFromNumpy
| CallUnsqueeze (dim : nat).

(** Computations that may raise and that log their library calls. *)
Definition M (A : Type) : Type := list libcall → res A * list libcall.

#[global] Instance M_ret : MRet M := λ A a log, (Ok a, log).
#[global] Instance M_bind : MBind M := λ A B k m log,
  match m log with
  | (Ok a, log') => k a log'
  | (Raise e, log') => (Raise e, log')
  end.

(** A library call [c] whose outcome is [r]. *)
Definition call {A} (c : libcall) (r : res A) : M A := λ log, (r, log ++ [c]).

Definition lift {A} (r : res A) : M A := λ log, (r, log).

(** [try m except Exception: h] *)
Definition try_except {A} (m : M A) (h : exn → M A) : M A := λ log,
  match m log with
  | (Ok a, log') => (Ok a, log')
  | (Raise e, log') => h e log'
  end.

Definition run {A} (m : M A) : res A * list libcall := m [].

Definition TARGET_SIZE : Z * Z := (48, 48).
Definition EMOTIONS : list string :=
  ["Angry"; "Disgust"; "Fear"; "Happy"; "Neutral"; "Sad"; "Surprise"].

Definition validate_image_size (image : Image) : res bool :=
  let pixels := width image * height image in
  if MAX_FRAME_SIZE settings <? pixels then
    raise ValueError ("Image too large: " +:+ pretty pixels +:+ " pixels > "
                      +:+ pretty (MAX_FRAME_SIZE settings) +:+ " max")
  else Ok true.

(** [np.array(image, dtype=np.float32)] of a mode-["L"] image: an array of
    shape (height, width) holding the pixel bytes as floats. *)
Definition f32_of_byte (b : byte) : float32 := f32_of_Z (Z.of_N (Byte.to_N b)).

Definition np_array_float32 (image : Image) : ndarray :=
  {| shape := [height image; width image];
     values := map f32_of_byte (data image) |}.

(** [arr / c] for a Python float [c] that binary32 holds exactly. *)
Definition divide (arr : ndarray) (c : Z) : ndarray :=
  {| shape := shape arr;
     values := map (λ x, f32_div x (f32_of_Z c)) (values arr) |}.

Definition from_numpy (arr : ndarray) : ndarray := arr.

Definition unsqueeze (dim : nat) (t : ndarray) : ndarray :=
  {| shape := take dim (shape t) ++ 1 :: drop dim (shape t);
     values := values t |}.

Section WithPIL.

(** The image library.  [Image_open] identifies and parses the file;
    [Image_convert] and [Image_resize] work on its pixel data and raise
    when that data cannot be read. *)
Variable Image_open : list byte → res Image.
Variable Image_convert : string → Image → res Image.
Variable Image_resize : Z * Z → Resampling → Image → res Image.

Definition decode_base64_frame (frame_base64 : string) : M Image :=
  try_except
    (image_data ← call CallB64decode (b64decode frame_base64);
     image ← call CallImageOpen (Image_open image_data);
     mret image)
    (λ e, lift (raise ValueError "Invalid base64 image format")).

Definition preprocess_frame (frame_base64 : string) : M ndarray :=
  try_except
    (image ← decode_base64_frame frame_base64;
     _ ← lift (validate_image_size image);
     image ← (if bool_decide (mode image ≠ "L")
              then call (CallConvert "L") (Image_convert "L" image)
              else mret image);
     image ← call (CallResize TARGET_SIZE LANCZOS)
                  (Image_resize TARGET_SIZE LANCZOS image);
     arr ← call CallNpArray (Ok (np_array_float32 image));
     img_array ← call CallDivide (Ok (divide arr 255));
     t ← call CallFromNumpy (Ok (from_numpy img_array));
     t ← call (CallUnsqueeze 0) (Ok (unsqueeze 0 t));
     img_tensor ← call (CallUnsqueeze 0) (Ok (unsqueeze 0 t));
     mret img_tensor)
    (λ e, lift (Raise e)).

End WithPIL.

End Preprocessing.

(** ** [postprocess_predictions]

    The scores and the probabilities are binary32 numbers, the values of
    the returned dictionary are Python floats.  [torch.max] is modelled;
    [torch.nn.functional.softmax] is a parameter, since its result depends,
    bit for bit, on the kernel and the device that the tensor library
    picks. *)

Module Postprocessing.
Import Preprocessing.

(** [torch.nn.functional.softmax(t, dim)] along one row of scores. *)
Class Softmax := softmax : list float32 → list float32.

Definition is_nan (x : float32) : bool :=
  match x with S754_nan => true | _ => false end.

(** [torch.max(t, dim=0)] of a one-axis tensor: the scan keeps the current
    maximum while [value <= max] and stops at a NaN, so the index returned
    is that of the first maximal element. *)
Fixpoint max_scan (l : list float32) (i : nat) (best : float32) (best_i : nat)
  : float32 * nat :=
  match l with
  | [] => (best, best_i)
  | v :: rest =>
      if is_nan best then (best, best_i)
      else if SFleb v best then max_scan rest (S i) best best_i
      else max_scan rest (S i) v i
  end.

Definition torch_max (t : list float32) : res (float32 * nat) :=
  match t with
  | [] => raise IndexError "max(): Expected reduction dim 0 to have non-zero size"
  | x :: rest => Ok (max_scan rest 1 x 0)
  end.

(** [seq[i]] *)
Definition index {A} (l : list A) (i : nat) : res A :=
  match l !! i with
  | Some x => Ok x
  | None => raise IndexError "index out of range"
  end.

(** [{f(i) for i in range(...)}] with pairwise different keys, in
    insertion order. *)
Fixpoint dict_comprehension {K V} (f : nat → res (K * V)) (range : list nat)
  : res (list (K * V)) :=
  match range with
  | [] => Ok []
  | i :: rest =>
      kv ← f i;
      d ← dict_comprehension f rest;
      Ok (kv :: d)
  end.

(** [x.item()]: the element as a Python float.  Every binary32 number is a
    binary64 number; sign, mantissa and exponent are kept as they are. *)
Definition item (x : float32) : float64 := x.

Record prediction := {
  emotion : string;
  confidence : float64;
  all_emotions : list (string * float64)
}.

Section WithSoftmax.
Context {library : Softmax}.

(** [softmax(logits, dim=1)] of a two-axis tensor given by its rows. *)
Definition softmax_dim1 (logits : list (list float32)) : list (list float32) :=
  map softmax logits.

Definition postprocess_predictions (logits : list (list float32)) : res prediction :=
  probabilities ← index (softmax_dim1 logits) 0;
  '(confidence, emotion_idx) ← torch_max probabilities;
  emotion_label ← index EMOTIONS emotion_idx;
  let confidence_score := item confidence in
  all_emotions ←
    dict_comprehension
      (λ i, label ← index EMOTIONS i;
            p ← index probabilities i;
            Ok (label, item p))
      (seq 0 (length EMOTIONS));
  Ok {| emotion := emotion_label;
        confidence := confidence_score;
        all_emotions := all_emotions |}.

End WithSoftmax.

(** *** What softmax is, and how close the library's result is to it *)

Definition is_finite (x : spec_float) : bool :=
  match x with
  | S754_zero _ | S754_finite _ _ _ => true
  | _ => false
  end.

(** The real number that a finite float stands for. *)
Definition F2R (x : spec_float) : R :=
  match x with
  | S754_finite s m e =>
      ((if s then -1 else 1) * IZR (Z.pos m) * powerRZ 2 e)%R
  | _ => 0%R
  end.

(** [e^x] for a score [x]; it is 0 for [-inf]. *)
Definition weight (x : float32) : R :=
  match x with
  | S754_infinity true => 0%R
  | _ => exp (F2R x)
  end.

Definition Rsum (l : list R) : R := foldr Rplus 0%R l.

(** The documented formula, [exp(x_i) / sum_j exp(x_j)], in real numbers. *)
Definition softmax_exact (row : list float32) : list R :=
  let total := Rsum (map weight row) in
  map (λ x, (weight x / total)%R) row.

(** The rows on which the formula has a value: no NaN, no [+inf], and a
    finite score at least. *)
Definition well_scored (row : list float32) : Prop :=
  Forall (λ x, x ≠ S754_nan ∧ x ≠ S754_infinity false) row
  ∧ Exists (λ x, is_finite x = true) row.

(** On the row, the library returns one binary32 number for each score,
    finite and within [t] of the exact value. *)
Definition softmax_accurate `{Softmax} (t : R) (row : list float32) : Prop :=
  Forall2 (λ p s, valid_binary 24 128 p = true
                  ∧ is_finite p = true
                  ∧ (Rabs (F2R p - s) <= t)%R)
          (softmax row) (softmax_exact row).

(** One millionth, which is more than the rounding of a softmax computed
    in binary32 amounts to. *)
Definition binary32_tolerance : R := (1 / 1000000)%R.

(** The sum of the values, as a real number. *)
Definition exact_sum (values : list float64) : R := Rsum (map F2R values).

(** The values are numbers that add up to 1 within 0.01:
    [0.99 <= total <= 1.01]. *)
Definition sums_to_one (values : list float64) : Prop :=
  Forall (λ v, is_finite v = true) values
  ∧ (99 / 100 <= exact_sum values <= 101 / 100)%R.

(** Rows of scores: seven zeros, a NaN among zeros, and zeros with one
    score masked by [-inf]. *)
Definition zero_row : list float32 := replicate 7 (S754_zero false).

Definition nan_row : list float32 :=
  S754_nan :: replicate 6 (S754_zero false).

Definition masked_row : list float32 :=
  [S754_zero false; S754_infinity true; S754_zero false; S754_zero false;
   S754_zero false; S754_zero false; S754_zero false].

End Postprocessing.

(** ** A softmax to run the examples

    It gives equal shares to the greatest scores and nothing to the others,
    which is the exact result, rounded to binary32, on the rows whose
    scores are all equal apart from some [-inf]; as in the library's
    kernel, which subtracts the greatest score first, every entry is NaN
    when a score is NaN or [+inf] or when all are [-inf]. *)

Module RefSoftmax.
Import Postprocessing.

Definition greatest (x : float32) (rest : list float32) : float32 :=
  fold_left (λ m v, if SFleb v m then m else v) rest x.

Fixpoint count (m : float32) (row : list float32) : Z :=
  match row with
  | [] => 0
  | v :: rest => (if SFeqb v m then 1 else 0) + count m rest
  end.

Definition softmax (row : list float32) : list float32 :=
  match row with
  | [] => []
  | x :: rest =>
      let m := greatest x rest in
      if existsb is_nan row || negb (is_finite m)
      then map (λ _, S754_nan) row
      else map (λ v, if SFeqb v m then f32_div f32_one (f32_of_Z (count m row))
                     else f32_zero) row
  end.

End RefSoftmax.

Definition ref_softmax : Postprocessing.Softmax := RefSoftmax.softmax.

Module StorageSpec.
Import Datetime Storage.

(** The last [n] elements of a list, in order. *)
Definition lastn {A} (n : nat) (l : list A) : list A := drop (length l - n) l.

(** One call of [store_prediction]: who, when, what. *)
Record store_call := {
  call_user : string;
  call_now : datetime;
  call_prediction : gmap string pyval
}.

Definition run_stores (st : state) (calls : list store_call) : state :=
  fold_left (λ st c, store_prediction (call_now c) st (call_user c) (call_prediction c))
            calls st.

(** The entries appended for [user_id] by a sequence of calls, oldest first. *)
Definition entries_for (user_id : string) (calls : list store_call)
  : list (gmap string pyval) :=
  map (λ c, stored_entry (call_now c) (call_prediction c))
      (filter (λ c, call_user c = user_id) calls).




(** [_predictions_store[user_id] = l] *)
Definition set_user (st : state) (user_id : string) (l : list (gmap string pyval)) : state :=
  {| predictions_store := <[user_id := l]> (predictions_store st);
     stats_cache := stats_cache st |}.

(** [sum(emotion_counts.values())] *)
Definition sum_counts (counts : list (pyval * Z)) : Z :=
  foldr (λ kc acc, snd kc + acc) 0 counts.

(** The label under which [get_emotion_stats] counts an entry. *)
Definition label_of (p : gmap string pyval) : pyval :=
  dict_get p "emotion" (VStr "Unknown").

(** The labels of a sequence in the order in which each is first met. *)
Definition first_seen (labels : list pyval) : list pyval :=
  fold_left (λ acc k, if existsb (λ k', key_eqb k' k) acc then acc else acc ++ [k])
            labels [].


(** [emotion_counts.get(k, 0)] *)
Definition counts_get (counts : list (pyval * Z)) (k : pyval) : Z :=
  match find (λ kc, key_eqb (fst kc) k) counts with
  | Some kc => snd kc
  | None => 0
  end.

(** How many of the labels are the string [s]. *)
Definition occurrences (s : string) (labels : list pyval) : Z :=
  foldr (λ l acc, (if key_eqb l (VStr s) then 1 else 0) + acc) 0 labels.

(** Sample data: the request example of [app/schemas.py]. *)
Definition sample_now : datetime :=
  {| year := 2025; month := 10; day := 18; hour := 12; minute := 35;
     second := 0; microsecond := 0; tzinfo := None |}.

Definition sample_prediction_at (timestamp : string) : gmap string pyval :=
  <["emotion" := VStr "Happy"]>
  (<["confidence" := VFloat (f64_div (f64_of_Z 92) (f64_of_Z 100))]>
  (<["timestamp" := VStr timestamp]>
  (<["processing_time_ms" := VFloat (f64_div (f64_of_Z 452) (f64_of_Z 10))]> ∅))).

(** Timestamp in the form the inference service writes
    ([utcnow().isoformat() + "Z"]). *)
Definition sample_prediction : gmap string pyval :=
  sample_prediction_at "2025-10-18T12:34:56Z".

Definition sample_prediction_naive : gmap string pyval :=
  sample_prediction_at "2025-10-18T12:34:56".

Definition sample_prediction_no_timestamp : gmap string pyval :=
  <["emotion" := VStr "Sad"]> ∅.

Definition sample_calls : list store_call :=
  replicate 1001 {| call_user := "user_123"; call_now := sample_now;
                    call_prediction := sample_prediction |}.

End StorageSpec.

(** ** The normalisation pipeline in the words of the specification *)

Module PreprocessingSpec.
Import Config Base64 Preprocessing.

Section Steps.
Variable Image_convert : string → Image → res Image.
Variable Image_resize : Z * Z → Resampling → Image → res Image.

(** 1. Convert to single-channel grayscale if not already. *)
Definition step_grayscale (image : Image) : res Image :=
  if bool_decide (mode image = "L") then Ok image else Image_convert "L" image.

(** 2. Resize to exactly 48x48 with the Lanczos filter. *)
Definition step_resize (image : Image) : res Image :=
  Image_resize (48, 48) LANCZOS image.

(** 3. Rescale the integer pixel values [0,255] to float by dividing by 255.0. *)
Definition step_rescale (image : Image) : list float32 :=
  map (λ b, f32_div (f32_of_byte b) (f32_of_Z 255)) (data image).

(** 4. Reshape to (batch=1, channel=1, height=48, width=48). *)
Definition step_reshape (xs : list float32) : ndarray :=
  {| shape := [1; 1; 48; 48]; values := xs |}.

Definition normalize (image : Image) : res ndarray :=
  gray ← step_grayscale image;
  resized ← step_resize gray;
  Ok (step_reshape (step_rescale resized)).

(** The library calls of the pipeline after decoding, in order. *)
Definition normalize_calls (image : Image) : list libcall :=
  (if bool_decide (mode image = "L") then [] else [CallConvert "L"]) ++
  [CallResize (48, 48) LANCZOS; CallNpArray; CallDivide; CallFromNumpy;
   CallUnsqueeze 0; CallUnsqueeze 0].

End Steps.

(** [0 <= x <= 1] on binary32. *)
Definition in_unit_interval (x : float32) : bool :=
  SFleb f32_zero x && SFleb x f32_one.

(** What the pipeline relies on from the image library: on an image whose
    pixel data can be read ([readable]), conversion to ["L"] and resizing
    succeed, conversion yields the requested mode, resizing keeps the mode
    and yields the requested size with one byte per pixel in mode ["L"]. *)
Record pil_contract (readable : Image → Prop)
    (Image_convert : string → Image → res Image)
    (Image_resize : Z * Z → Resampling → Image → res Image) : Prop := {
  convert_ok : ∀ image, readable image →
    ∃ image', Image_convert "L" image = Ok image'
            ∧ mode image' = "L" ∧ readable image';
  resize_ok : ∀ size resample image, readable image → 0 < fst size → 0 < snd size →
    ∃ image', Image_resize size resample image = Ok image'
            ∧ mode image' = mode image
            ∧ width image' = fst size ∧ height image' = snd size
            ∧ (mode image' = "L" →
               length (data image') = Z.to_nat (fst size * snd size))
}.

(** The two failure cases of decoding as the specification distinguishes
    them: one message when base64 decoding fails, another one when the
    codec rejects the decoded bytes. *)
Definition decode_failures_distinguished (Image_open : list byte → res Image) : Prop :=
  ∀ frame1 frame2 image_data e1 e2,
    (∃ e, b64decode frame1 = Raise e) →
    b64decode frame2 = Ok image_data →
    (∃ e, Image_open image_data = Raise e) →
    fst (run (decode_base64_frame Image_open frame1)) = Raise e1 →
    fst (run (decode_base64_frame Image_open frame2)) = Raise e2 →
    exn_msg e1 = "invalid encoding"
    ∧ exn_msg e2 = "unsupported/corrupt image"
    ∧ e1 ≠ e2.

End PreprocessingSpec.

(** ** A minimal raster library, to run the pipeline on examples

    Files are a five-byte header (width and height as 16-bit big-endian
    numbers, then 0 for mode ["L"] or 1 for mode ["RGB"]) followed by the
    samples.  Opening reads the header only. *)

Module RawCodec.
Import Preprocessing.

Definition bands (m : string) : Z :=
  if bool_decide (m = "L") then 1 else 3.

Definition Image_open (image_data : list byte) : res Image :=
  match image_data with
  | w1 :: w0 :: h1 :: h0 :: m :: rest =>
      let num hi lo := Z.of_N (Byte.to_N hi) * 256 + Z.of_N (Byte.to_N lo) in
      match Byte.to_N m with
      | 0%N => Ok {| mode := "L"; width := num w1 w0; height := num h1 h0; data := rest |}
      | 1%N => Ok {| mode := "RGB"; width := num w1 w0; height := num h1 h0; data := rest |}
      | _ => raise UnidentifiedImageError "cannot identify image file"
      end
  | _ => raise UnidentifiedImageError "cannot identify image file"
  end.

Definition readableb (image : Image) : bool :=
  (bool_decide (mode image = "L") || bool_decide (mode image = "RGB"))
  && (0 <? width image) && (0 <? height image)
  && (Z.of_nat (length (data image)) =? width image * height image * bands (mode image)).

Definition readable (image : Image) : Prop := readableb image = true.

(** ITU-R 601-2 luma of an RGB pixel. *)
Fixpoint luma (samples : list byte) : list byte :=
  match samples with
  | r :: g :: b :: rest =>
      let v c := Z.of_N (Byte.to_N c) in
      Base64.byte_of_Z ((v r * 19595 + v g * 38470 + v b * 7471 + 32768) / 65536)
      :: luma rest
  | _ => []
  end.

Definition Image_convert (m : string) (image : Image) : res Image :=
  if negb (readableb image) then raise OSError "image file is truncated"
  else if negb (bool_decide (m = "L")) then raise ValueError "conversion not supported"
  else Ok {| mode := "L"; width := width image; height := height image;
             data := if bool_decide (mode image = "L") then data image
                     else luma (data image) |}.

(** Nearest-neighbour sampling, whatever the requested filter. *)
Definition Image_resize (size : Z * Z) (resample : Resampling) (image : Image)
  : res Image :=
  if negb (readableb image) then raise OSError "image file is truncated"
  else if negb ((0 <? fst size) && (0 <? snd size)) then
    raise ValueError "height and width must be > 0"
  else
    let n := bands (mode image) in
    let pick (i : nat) : list byte :=
      let y := Z.of_nat i / fst size in
      let x := Z.of_nat i mod fst size in
      let sy := y * height image / snd size in
      let sx := x * width image / fst size in
      map (λ k, default x00
                  (data image !! Z.to_nat ((sy * width image + sx) * n + Z.of_nat k)))
          (seq 0 (Z.to_nat n)) in
    Ok {| mode := mode image; width := fst size; height := snd size;
          data := concat (map pick (seq 0 (Z.to_nat (fst size * snd size)))) |}.

(** Example frames: the base64 text of a 2x1 gray image with pixels 0 and
    255, of a 1x1 red RGB image, of the header of a 52429x5 image (262145
    pixels), a text that is not base64, and a text that decodes to bytes
    that are no image. *)
Definition frame_2x1 : string := "AAIAAQAA/w==".
Definition frame_rgb_1x1 : string := "AAEAAQH/AAA=".
Definition frame_oversize : string := "zM0ABQA=".
Definition frame_bad_base64 : string := "A".
Definition frame_not_an_image : string := "".

End RawCodec.

(** ** The rest of [app/services/storage.py] that works on the store as modelled *)

Module StorageGlobal.
Import Datetime Storage StorageSpec.

(** The dictionary returned by [get_all_stats]. *)
Record all_stats := {
  total_users : Z;
  total_predictions : Z;
  emotion_distribution : list (pyval * Z)
}.

Definition zero_all_stats : all_stats :=
  {| total_users := 0; total_predictions := 0; emotion_distribution := [] |}.

(** The inner loop [for p in preds] of [get_all_stats]. *)
Fixpoint count_labels (preds : list (gmap string pyval))
    (all_emotions : list (pyval * Z)) : res (list (pyval * Z)) :=
  match preds with
  | [] => Ok all_emotions
  | p :: rest =>
      let emotion := dict_get p "emotion" (VStr "Unknown") in
      _ ← (if hashable emotion then Ok tt else raise TypeError "unhashable type");
      count_labels rest (counts_incr all_emotions emotion)
  end.

(** The outer loop [for preds in _predictions_store.values()]. *)
Fixpoint count_all (lists : list (list (gmap string pyval)))
    (all_emotions : list (pyval * Z)) : res (list (pyval * Z)) :=
  match lists with
  | [] => Ok all_emotions
  | preds :: rest =>
      all_emotions ← count_labels preds all_emotions;
      count_all rest all_emotions
  end.

(** [get_all_stats].  The store is a finite map, which does not record the
    order in which users were first seen: the users are visited in the
    order of [map_to_list], so the keys of [emotion_distribution] may come
    in another order than in the dictionary the code builds. *)
Definition get_all_stats (st : state) : all_stats :=
  let lists := map snd (map_to_list (predictions_store st)) in
  let total_users := Z.of_nat (size (predictions_store st)) in
  let total_predictions :=
    foldr (λ preds acc, Z.of_nat (length preds) + acc) 0 lists in
  match count_all lists [] with
  | Ok all_emotions =>
      {| total_users := total_users;
         total_predictions := total_predictions;
         emotion_distribution := all_emotions |}
  | Raise _ => zero_all_stats          (* except Exception *)
  end.

(** An entry at which the loop of [get_predictions] raises an exception
    that its inner handler does not catch: the timestamp is not a string
    ([AttributeError]) or parses to a datetime with a UTC offset
    ([TypeError] when it is ordered against the naive cutoff). *)
Definition breaks_query `{IsoParser} (p : gmap string pyval) : bool :=
  match p !! "timestamp" with
  | None => false
  | Some (VStr s) =>
      match fromisoformat (str_replace_char "Z" "+00:00" s) with
      | Some d => bool_decide (is_Some (tzinfo d))
      | None => false
      end
  | Some _ => true
  end.

(** Non-increasing counts: every item counts at least as much as each of
    the items after it. *)
Definition counts_descending (l : list (pyval * Z)) : Prop :=
  StronglySorted (λ x y, snd y ≤ snd x) l.

(** Every label stored for any user can be a dictionary key. *)
Definition all_labels_hashable (st : state) : Prop :=
  ∀ u l p, predictions_store st !! u = Some l → p ∈ l →
           hashable (label_of p) = true.

Definition sample_prediction_null_timestamp : gmap string pyval :=
  <["emotion" := VStr "Sad"]> (<["timestamp" := VNone]> ∅).

Definition sample_prediction_list_label : gmap string pyval :=
  <["emotion" := VList [VStr "Happy"; VStr "Sad"]]> ∅.

End StorageGlobal.

(** ** The presentation tables of [app/services/preprocessing.py] *)

Module Presentation.
Import Preprocessing.

Record rgb := { r : Z; g : Z; b : Z }.

Definition color_map : gmap string rgb :=
  list_to_map
    [("Happy", {| r := 255; g := 215; b := 0 |});
     ("Sad", {| r := 70; g := 130; b := 180 |});
     ("Angry", {| r := 255; g := 0; b := 0 |});
     ("Disgust", {| r := 34; g := 139; b := 34 |});
     ("Fear", {| r := 128; g := 0; b := 128 |});
     ("Surprise", {| r := 255; g := 165; b := 0 |});
     ("Neutral", {| r := 169; g := 169; b := 169 |})].

Definition fallback_color : rgb := {| r := 128; g := 128; b := 128 |}.

Definition get_emotion_color (emotion : string) : rgb :=
  default fallback_color (color_map !! emotion).

(** The glyphs are character strings, given by their code points as the
    source file holds them. *)
Definition emoji_map : gmap string (list Z) :=
  list_to_map
    [("Happy", [287; 376; 732; 352]);
     ("Sad", [287; 376; 732; 162]);
     ("Angry", [287; 376; 732; 160]);
     ("Disgust", [287; 376; 164; 162]);
     ("Fear", [287; 376; 732; 168]);
     ("Surprise", [287; 376; 732; 178]);
     ("Neutral", [287; 376; 732])].

Definition fallback_emoji : list Z := [287; 376; 164; 8221].

Definition get_emotion_emoji (emotion : string) : list Z :=
  default fallback_emoji (emoji_map !! emotion).

End Presentation.

(** ** [app/services/inference.py] *)

Module Inference.
Import Config Base64 Preprocessing Postprocessing Presentation Datetime.

Definition f64_sub : float64 → float64 → float64 := SFsub 53 1024.
Definition f64_mul : float64 → float64 → float64 := SFmul 53 1024.

(** [confidence >= settings.CONFIDENCE_THRESHOLD] *)
Definition validate_confidence (confidence : float64) : bool :=
  SFleb (CONFIDENCE_THRESHOLD settings) confidence.

(** The dictionary returned by [predict_emotion]. *)
Record response := {
  resp_emotion : string;
  resp_confidence : float64;
  resp_timestamp : string;
  resp_processing_time_ms : float64;
  resp_all_emotions : list (string * float64);
  resp_color : rgb;
  resp_emoji : list Z;
  resp_user_id : option string
}.

(** What one call reads from the clocks: [time.time()] on entry and after
    post-processing, and [datetime.utcnow()]. *)
Record clock := {
  time_start : float64;
  time_end : float64;
  utcnow : datetime
}.

(** [timestamp or datetime.utcnow().isoformat() + "Z"]: [None] and the
    empty string are replaced. *)
Definition timestamp_or_now (timestamp : option string) (now : datetime) : string :=
  match timestamp with
  | Some (String c s) => String c s
  | _ => isoformat now +:+ "Z"
  end.

Section WithModel.

Variable Image_open : list byte → res Image.
Variable Image_convert : string → Image → res Image.
Variable Image_resize : Z * Z → Resampling → Image → res Image.

(** The loaded network, a function from the input tensor to the scores,
    the transfer of a tensor to the configured device, and the softmax of
    the tensor library. *)
Variable model : ndarray → res (list (list float32)).
Variable to_device : ndarray → res ndarray.
Context {library : Softmax}.

Definition predict_emotion (clk : clock) (frame_base64 : string)
    (user_id : option string) (timestamp : option string) : res response :=
  let start_time := time_start clk in
  img_tensor ← fst (run (preprocess_frame Image_open Image_convert Image_resize
                           frame_base64));
  img_tensor ← to_device img_tensor;
  logits ← model img_tensor;
  prediction ← postprocess_predictions logits;
  let processing_time :=
    f64_mul (f64_sub (time_end clk) start_time) (f64_of_Z 1000) in
  let emotion := emotion prediction in
  Ok {| resp_emotion := emotion;
        resp_confidence := py_round (confidence prediction) 4;
        resp_timestamp := timestamp_or_now timestamp (utcnow clk);
        resp_processing_time_ms := py_round processing_time 2;
        resp_all_emotions :=
          map (λ kv, (fst kv, py_round (snd kv) 4)) (all_emotions prediction);
        resp_color := get_emotion_color emotion;
        resp_emoji := get_emotion_emoji emotion;
        resp_user_id := user_id |}.

(** One element of [frames_list]: what [frame_data.get("frame")],
    [.get("user_id")] and [.get("timestamp")] give ([None] when absent). *)
Record frame_data := {
  fd_frame : option string;
  fd_user_id : option string;
  fd_timestamp : option string
}.

(** An element of the list returned by [batch_predict]: a response, or
    [{"error": str(e)}]. *)
Inductive batch_item :=
| ItemResponse (resp : response)
| ItemError (error : string).

(** [predict_emotion] on what [frame_data.get("frame")] gives: with no
    frame, decoding [None] raises inside [decode_base64_frame], whose
    handler turns it into the [ValueError] of every decoding failure. *)
Definition predict_frame (clk : clock) (fd : frame_data) : res response :=
  match fd_frame fd with
  | Some frame => predict_emotion clk frame (fd_user_id fd) (fd_timestamp fd)
  | None => raise ValueError "Invalid base64 image format"
  end.

(** [batch_predict]; the clocks are those read for each frame in turn. *)
Fixpoint batch_predict_loop (frames_list : list (clock * frame_data))
    (results : list batch_item) : list batch_item :=
  match frames_list with
  | [] => results
  | (clk, fd) :: rest =>
      let results :=
        match predict_frame clk fd with
        | Ok result => results ++ [ItemResponse result]
        | Raise e => results ++ [ItemError (exn_msg e)]
        end in
      batch_predict_loop rest results
  end.

Definition batch_predict (frames_list : list (clock * frame_data)) : list batch_item :=
  batch_predict_loop frames_list [].

End WithModel.

(** A model that answers seven equal scores, and one that fails. *)
Definition flat_model (t : ndarray) : res (list (list float32)) := Ok [zero_row].
Definition failing_model (t : ndarray) : res (list (list float32)) :=
  raise OSError "device error".

Definition sample_clock : clock :=
  {| time_start := f64_of_Z 1000; time_end := f64_of_Z 1001;
     utcnow := StorageSpec.sample_now |}.

End Inference.

(** ** Dates from positions on the time line ([datetime - timedelta]) *)

Module DatetimeArith.
Import Datetime.

(** [_ord2ymd]: the date of a proleptic Gregorian ordinal. *)
Definition ord2ymd (n : Z) : Z * Z * Z :=
  let n := n - 1 in
  let n400 := n / 146097 in
  let n := n mod 146097 in
  let n100 := n / 36524 in
  let n := n mod 36524 in
  let n4 := n / 1461 in
  let n := n mod 1461 in
  let n1 := n / 365 in
  let n := n mod 365 in
  let y := n400 * 400 + 1 + n100 * 100 + n4 * 4 + n1 in
  if (n1 =? 4) || (n100 =? 4) then (y - 1, 12, 31)
  else
    let leapyear := (n1 =? 3) && (negb (n4 =? 24) || (n100 =? 3)) in
    let before (m : Z) : Z :=
      days_before_month 1 m + (if (2 <? m) && leapyear then 1 else 0) in
    let month := Z.shiftr (n + 50) 5 in
    let month := if n <? before month then month - 1 else month in
    (y, month, n - before month + 1).

(** The naive datetime at a position of the time line. *)
Definition of_micros (t : Z) : datetime :=
  let days := t / 86400000000 in
  let rest := t mod 86400000000 in
  let '(y, m, d) := ord2ymd (days + 1) in
  {| year := y; month := m; day := d;
     hour := rest / 3600000000;
     minute := rest / 60000000 mod 60;
     second := rest / 1000000 mod 60;
     microsecond := rest mod 1000000;
     tzinfo := None |}.

(** [now - timedelta(hours=hours)] as a datetime. *)
Definition minus_hours (now : datetime) (hours : Z) : res datetime :=
  c ← sub_hours now hours; Ok (of_micros c).

End DatetimeArith.

(** ** What the endpoints of [app/routes] give to the framework *)

Module Http.
Import Datetime DatetimeArith.

(** [HTTPException(status_code, detail)] *)
Record http_exception := HTTPException { status_code : Z; detail : string }.

(** What the body of an endpoint's [try] can raise: a Python exception, or
    an [HTTPException], which is an [Exception] too. *)
Inductive raised :=
| PyExn (e : exn)
| HttpExn (e : http_exception).

Inductive outcome (A : Type) :=
| Return (a : A)
| Raised (r : raised).
Arguments Return {A} a.
Arguments Raised {A} r.

Definition of_res {A} (m : res A) : outcome A :=
  match m with
  | Ok a => Return a
  | Raise e => Raised (PyExn e)
  end.

(** An endpoint returns a value or raises an [HTTPException]. *)
Inductive reply (A : Type) :=
| Respond (a : A)
| Fail (e : http_exception).
Arguments Respond {A} a.
Arguments Fail {A} e.

(** [try: body except Exception: raise HTTPException(500, detail)] *)
Definition except_exception {A} (body : outcome A) (detail : string) : reply A :=
  match body with
  | Return a => Respond a
  | Raised _ => Fail (HTTPException 500 detail)
  end.

(** [HistoryResponse] of [app/schemas.py]. *)
Record HistoryResponse := {
  hr_predictions : list (gmap string pyval);
  hr_total : Z;
  hr_user_id : string;
  hr_start_time : string;
  hr_end_time : string
}.

(** The [HistoryResponse(...)] that both history endpoints build;
    [now_start] and [now_end] are the two clock readings of the
    expression. *)
Definition history_response (predictions : list (gmap string pyval))
    (user_id : string) (hours : Z) (now_start now_end : datetime)
  : res HistoryResponse :=
  start ← minus_hours now_start hours;
  Ok {| hr_predictions := predictions;
        hr_total := Z.of_nat (length predictions);
        hr_user_id := user_id;
        hr_start_time := isoformat start +:+ "Z";
        hr_end_time := isoformat now_end +:+ "Z" |}.

End Http.

(** ** [app/routes/health.py]: a history router over a store of its own *)

Module HealthRouter.
Import Datetime DatetimeArith Storage Http.

(** The module-level dictionary [_prediction_store]. *)
Definition store := gmap string (list (gmap string pyval)).

Definition store_prediction (st : store) (user_id : string)
    (prediction : gmap string pyval) : store :=
  let st := match st !! user_id with
            | None => <[user_id := []]> st
            | Some _ => st
            end in
  <[user_id := default [] (st !! user_id) ++ [prediction]]> st.

Section WithParser.
Context {parser : IsoParser}.

(** The three clock readings of [get_emotion_history]: in
    [get_predictions], for [start_time] and for [end_time]. *)
Record clocks := {
  now_query : datetime;
  now_start : datetime;
  now_end : datetime
}.

(** The list comprehension of [get_predictions]: the first entry whose
    test raises ends it. *)
Fixpoint comprehension (cutoff_time : Z) (predictions : list (gmap string pyval))
  : res (list (gmap string pyval)) :=
  match predictions with
  | [] => Ok []
  | p :: rest =>
      b ← entry_in_window cutoff_time p;
      filtered ← comprehension cutoff_time rest;
      Ok (if b : bool then p :: filtered else filtered)
  end.

Definition get_predictions (now : datetime) (st : store) (user_id : string)
    (limit hours : Z) : res (list (gmap string pyval)) :=
  match st !! user_id with
  | None => Ok []
  | Some predictions =>
      cutoff_time ← sub_hours now hours;
      filtered ← comprehension cutoff_time predictions;
      Ok (slice_from filtered (- limit))
  end.


Definition get_emotion_history (clk : clocks) (st : store) (user_id : string)
    (limit hours : Z) : reply HistoryResponse :=
  except_exception
    (of_res (predictions ← get_predictions (now_query clk) st user_id limit hours;
             history_response predictions user_id hours (now_start clk) (now_end clk)))
    "Error retrieving prediction history".

(** A Python number: [total_confidence] starts as the [int] 0 and becomes
    a [float] when a float is added. *)
Inductive number :=
| NInt (z : Z)
| NFloat (f : float64).

(** [acc += v] *)
Definition number_add (acc : number) (v : pyval) : res number :=
  match acc, v with
  | NInt a, VInt b => Ok (NInt (a + b))
  | NInt a, VFloat f => x ← float_of_int a; Ok (NFloat (f64_add x f))
  | NFloat x, VInt b => y ← float_of_int b; Ok (NFloat (f64_add x y))
  | NFloat x, VFloat f => Ok (NFloat (f64_add x f))
  | _, _ => raise TypeError "unsupported operand type(s) for +="
  end.

(** [a / n] for two [int]s, [n] positive: the quotient rounded to the
    nearest float. *)
Definition int_true_div (a : Z) (n : positive) : res float64 :=
  let quotient (s : bool) (m : positive) : res float64 :=
    match SFdiv 53 1024 (S754_finite s m 0) (S754_finite false n 0) with
    | S754_infinity _ =>
        raise OverflowError "integer division result too large for a float"
    | q => Ok q
    end in
  match a with
  | 0 => Ok f64_zero
  | Z.pos m => quotient false m
  | Z.neg m => quotient true m
  end.

(** [total / len(predictions)], the list being non-empty. *)
Definition number_div (total : number) (n : positive) : res float64 :=
  match total with
  | NInt a => int_true_div a n
  | NFloat x => y ← float_of_int (Z.pos n); Ok (f64_div x y)
  end.

(** The [for p in predictions] loop of the endpoint. *)
Fixpoint accumulate (predictions : list (gmap string pyval))
    (emotion_counts : list (pyval * Z)) (total_confidence : number)
  : res (list (pyval * Z) * number) :=
  match predictions with
  | [] => Ok (emotion_counts, total_confidence)
  | p :: rest =>
      emotion ← match p !! "emotion" with
                | Some v => Ok v
                | None => raise KeyError "emotion"
                end;
      _ ← (if hashable emotion then Ok tt else raise TypeError "unhashable type");
      let emotion_counts := counts_incr emotion_counts emotion in
      confidence ← match p !! "confidence" with
                   | Some v => Ok v
                   | None => raise KeyError "confidence"
                   end;
      total_confidence ← number_add total_confidence confidence;
      accumulate rest emotion_counts total_confidence
  end.

(** The dictionary returned by the statistics endpoint. *)
Record stats_reply := {
  sr_user_id : string;
  sr_total_predictions : Z;
  sr_emotion_counts : list (pyval * Z);
  sr_dominant_emotion : pyval;
  sr_average_confidence : number
}.

Definition zero_stats_reply (user_id : string) : stats_reply :=
  {| sr_user_id := user_id; sr_total_predictions := 0; sr_emotion_counts := [];
     sr_dominant_emotion := VNone; sr_average_confidence := NInt 0 |}.

Definition get_emotion_stats (now : datetime) (st : store) (user_id : string)
    (hours : Z) : reply stats_reply :=
  except_exception
    (of_res
       (predictions ← get_predictions now st user_id 10000 hours;
        match predictions with
        | [] => Ok (zero_stats_reply user_id)
        | _ :: rest =>
            '(emotion_counts, total_confidence) ← accumulate predictions [] (NInt 0);
            dominant ← match emotion_counts with
                       | [] => raise ValueError "max() arg is an empty sequence"
                       | it :: items => Ok (fst (max_by_count it items))
                       end;
            avg_confidence ← number_div total_confidence
                               (Pos.of_succ_nat (length rest));
            Ok {| sr_user_id := user_id;
                  sr_total_predictions := Z.of_nat (length predictions);
                  sr_emotion_counts := emotion_counts;
                  sr_dominant_emotion := dominant;
                  sr_average_confidence := NFloat (py_round avg_confidence 4) |}
        end))
    "Error calculating emotion statistics".

End WithParser.

(** [clear_history]: the message and the store afterwards. *)
Definition clear_history (st : store) (user_id : string) : reply string * store :=
  (Respond ("History cleared for user " +:+ user_id), delete user_id st).

(** A sequence of [store_prediction] calls. *)
Definition run_stores (st : store) (calls : list (string * gmap string pyval)) : store :=
  fold_left (λ st c, store_prediction st (fst c) (snd c)) calls st.

(** The predictions of the calls made for one user, in call order. *)
Definition entries_for (user_id : string) (calls : list (string * gmap string pyval))
  : list (gmap string pyval) :=
  map snd (filter (λ c, fst c = user_id) calls).

(** An entry at which the comprehension raises: no ["timestamp"] key, a
    value that is not a string, a string that [fromisoformat] rejects, or
    one that carries a UTC offset. *)
Definition raises_in_window `{IsoParser} (p : gmap string pyval) : bool :=
  match p !! "timestamp" with
  | Some (VStr s) =>
      match fromisoformat (str_replace_char "Z" "+00:00" s) with
      | Some d => bool_decide (is_Some (tzinfo d))
      | None => true
      end
  | _ => true
  end.

(** Sample data: one clock reading for the three reads, and a store
    holding the request example of [app/schemas.py]. *)
Definition sample_clocks : clocks :=
  {| now_query := StorageSpec.sample_now; now_start := StorageSpec.sample_now;
     now_end := StorageSpec.sample_now |}.

Definition sample_store : store :=
  store_prediction ∅ "user_123" StorageSpec.sample_prediction_naive.

Definition sample_store_utc : store :=
  store_prediction sample_store "user_123" StorageSpec.sample_prediction.

End HealthRouter.

(** ** [app/routes/history.py]: the router over [app/services/storage.py] *)

Module HistoryRouter.
Import Datetime DatetimeArith Storage StorageGlobal Http.

Section WithParser.
Context {parser : IsoParser}.

Definition get_emotion_history (clk : HealthRouter.clocks) (st : state)
    (user_id : string) (limit hours : Z) : reply HistoryResponse :=
  let predictions :=
    Storage.get_predictions (HealthRouter.now_query clk) st user_id limit hours in
  except_exception
    (of_res (history_response predictions user_id hours
               (HealthRouter.now_start clk) (HealthRouter.now_end clk)))
    "Error retrieving prediction history".

Definition get_emotion_stats (now : datetime) (st : state) (user_id : string)
    (hours : Z) : reply stats * state :=
  let '(stats, st) := Storage.get_emotion_stats now st user_id hours in
  (except_exception (Return stats) "Error calculating emotion statistics", st).

End WithParser.

Definition clear_history (st : state) (user_id : string) : reply string * state :=
  let '(success, st) := clear_predictions st user_id in
  (except_exception
     (if success : bool
      then Return ("History cleared for user " +:+ user_id)
      else Raised (HttpExn (HTTPException 500 "Failed to clear history")))
     "Error clearing history", st).

Definition get_global_stats (st : state) : reply all_stats :=
  except_exception (Return (get_all_stats st)) "Error getting global statistics".

(** [import_data].  The JSON reader [storage.import_user_data] is taken as
    it is called: it returns a flag and the store afterwards, and raises
    nothing since its own handler catches every exception. *)
Section ImportData.

Variable import_user_data : state → string → string → bool * state.

Definition import_data (st : state) (user_id data_json : string)
  : reply string * state :=
  let '(success, st) := import_user_data st user_id data_json in
  (except_exception
     (if success : bool
      then Return ("Data imported successfully for user " +:+ user_id)
      else Raised (HttpExn (HTTPException 400 "Invalid JSON format")))
     "Error importing data", st).

End ImportData.

End HistoryRouter.

(** * Properties *)

Section PreprocessingRun.
Import Config Base64 Preprocessing PreprocessingSpec.

Variable Image_open : list byte → res Image.
Variable Image_convert : string → Image → res Image.
Variable Image_resize : Z * Z → Resampling → Image → res Image.

Abbreviation decode := (decode_base64_frame Image_open).
Abbreviation preprocess := (preprocess_frame Image_open Image_convert Image_resize).

Lemma f32_scale_range (b : byte) :
  in_unit_interval (f32_div (f32_of_byte b) (f32_of_Z 255)) = true.
Proof. destruct b; vm_compute; reflexivity. Qed.

(** Decoding: what is returned and which calls were made. *)
Lemma decode_base64_frame_run frame log :
  decode frame log
  = match b64decode frame with
    | Raise _ =>
        (Raise (Exn ValueError "Invalid base64 image format"), log ++ [CallB64decode])
    | Ok image_data =>
        match Image_open image_data with
        | Raise _ =>
            (Raise (Exn ValueError "Invalid base64 image format"),
             log ++ [CallB64decode; CallImageOpen])
        | Ok image => (Ok image, log ++ [CallB64decode; CallImageOpen])
        end
    end.
Proof.
  unfold decode_base64_frame, try_except, mbind, M_bind, call, lift, mret, M_ret.
  destruct (b64decode frame) as [d|e]; [|done].
  rewrite <- app_assoc. by destruct (Image_open d).
Qed.

(** The pipeline after a successful decode. *)
Lemma preprocess_frame_run frame image_data image :
  b64decode frame = Ok image_data →
  Image_open image_data = Ok image →
  run (preprocess frame)
  = match validate_image_size image with
    | Raise e => (Raise e, [CallB64decode; CallImageOpen])
    | Ok _ =>
        match step_grayscale Image_convert image with
        | Raise e => (Raise e, [CallB64decode; CallImageOpen; CallConvert "L"])
        | Ok gray =>
            match Image_resize (48, 48) LANCZOS gray with
            | Raise e =>
                (Raise e,
                 [CallB64decode; CallImageOpen]
                 ++ (if bool_decide (mode image = "L") then [] else [CallConvert "L"])
                 ++ [CallResize (48, 48) LANCZOS])
            | Ok resized =>
                (Ok (unsqueeze 0 (unsqueeze 0
                       (from_numpy (divide (np_array_float32 resized) 255)))),
                 [CallB64decode; CallImageOpen] ++ normalize_calls image)
            end
        end
    end.
Proof.
  intros Hd Ho. unfold run, preprocess_frame, try_except.
  unfold mbind at 1. unfold M_bind at 1.
  rewrite decode_base64_frame_run, Hd, Ho. cbn [app].
  unfold mbind, M_bind, lift, call, mret, M_ret.
  destruct (validate_image_size image) as [?|e]; [|done].
  unfold step_grayscale, normalize_calls, TARGET_SIZE.
  destruct (decide (mode image = "L")) as [HL|HL].
  - rewrite (bool_decide_eq_false_2 (mode image ≠ "L")) by tauto.
    rewrite (bool_decide_eq_true_2 _ HL).
    destruct (Image_resize _ _ image); done.
  - rewrite (bool_decide_eq_true_2 (mode image ≠ "L")) by done.
    rewrite (bool_decide_eq_false_2 _ HL). cbn [app].
    destruct (Image_convert "L" image) as [gray|]; [|done].
    destruct (Image_resize _ _ gray); done.
Qed.

Lemma validate_image_size_ok image :
  width image * height image ≤ 262144 → validate_image_size image = Ok true.
Proof.
  intros H. unfold validate_image_size. cbn [MAX_FRAME_SIZE settings].
  destruct (Z.ltb_spec (512 * 512) (width image * height image)); [lia|done].
Qed.

Lemma validate_image_size_raise image :
  262144 < width image * height image →
  validate_image_size image
  = Raise (Exn ValueError
             ("Image too large: " +:+ pretty (width image * height image)
              +:+ " pixels > 262144 max")).
Proof.
  intros H. unfold validate_image_size. cbn [MAX_FRAME_SIZE settings].
  destruct (Z.ltb_spec (512 * 512) (width image * height image)); [|lia].
  reflexivity.
Qed.

(** C4. [validate_image_size] raises exactly when width times height is
    greater than 262144 (262145 pixels are refused, 262144 accepted), and
    when it raises inside [preprocess_frame] the only library calls made
    are the two of decoding: no conversion, no resize. *)
Theorem validate_image_size_guard :
  (∀ image, (∃ e, validate_image_size image = Raise e)
            ↔ 262144 < width image * height image)
  ∧ (∀ image, validate_image_size image = Ok true
              ↔ width image * height image ≤ 262144)
  ∧ (∀ m d,
       validate_image_size {| mode := m; width := 52429; height := 5; data := d |}
       = Raise (Exn ValueError "Image too large: 262145 pixels > 262144 max"))
  ∧ (∀ m d,
       validate_image_size {| mode := m; width := 512; height := 512; data := d |}
       = Ok true)
  ∧ (∀ frame image_data image,
       b64decode frame = Ok image_data →
       Image_open image_data = Ok image →
       262144 < width image * height image →
       run (preprocess_frame Image_open Image_convert Image_resize frame)
       = (Raise (Exn ValueError
                   ("Image too large: " +:+ pretty (width image * height image)
                    +:+ " pixels > 262144 max")),
          [CallB64decode; CallImageOpen])).
Proof.
  split; [|split; [|split; [|split]]].
  - intros image. split.
    + intros [e He]. destruct (Z.lt_ge_cases 262144 (width image * height image)); [done|].
      by rewrite validate_image_size_ok in He by lia.
    + intros H. rewrite validate_image_size_raise by done. eauto.
  - intros image. split.
    + intros He. destruct (Z.lt_ge_cases 262144 (width image * height image)); [|lia].
      by rewrite validate_image_size_raise in He by lia.
    + apply validate_image_size_ok.
  - intros m d. by rewrite validate_image_size_raise by (cbn; lia).
  - intros m d. by rewrite validate_image_size_ok by (cbn; lia).
  - intros frame image_data image Hd Ho Hsz.
    by rewrite (preprocess_frame_run _ _ _ Hd Ho), validate_image_size_raise by done.
Qed.

(** C6, as the code has it.  [decode_base64_frame] raises a [ValueError]
    with the one message ["Invalid base64 image format"] when base64
    decoding fails and when the codec rejects the decoded bytes: the class
    and the message are the same in the two cases.  Otherwise it returns
    the image. *)
Theorem decode_base64_frame_single_error (frame : string) :
  fst (run (decode_base64_frame Image_open frame))
  = match b64decode frame with
    | Raise _ => Raise (Exn ValueError "Invalid base64 image format")
    | Ok image_data =>
        match Image_open image_data with
        | Raise _ => Raise (Exn ValueError "Invalid base64 image format")
        | Ok image => Ok image
        end
    end.
Proof.
  unfold run. rewrite decode_base64_frame_run.
  destruct (b64decode frame) as [d|]; [|done]. by destruct (Image_open d).
Qed.

End PreprocessingRun.

Section PreprocessingProps.
Import Config Base64 Preprocessing PreprocessingSpec.

Variable Image_open : list byte → res Image.
Variable Image_convert : string → Image → res Image.
Variable Image_resize : Z * Z → Resampling → Image → res Image.
Variable readable : Image → Prop.

Abbreviation preprocess := (preprocess_frame Image_open Image_convert Image_resize).

Hypothesis PIL : pil_contract readable Image_convert Image_resize.

(** On a readable image the two library steps succeed and the result is a
    48x48 image of mode ["L"]. *)
Lemma grayscale_resize_ok image :
  readable image →
  ∃ gray resized,
    step_grayscale Image_convert image = Ok gray
    ∧ Image_resize (48, 48) LANCZOS gray = Ok resized
    ∧ mode resized = "L" ∧ width resized = 48 ∧ height resized = 48
    ∧ length (data resized) = 2304%nat.
Proof.
  intros Hr.
  assert (∃ gray, step_grayscale Image_convert image = Ok gray
                ∧ mode gray = "L" ∧ readable gray) as (gray & Hg & HL & Hrg).
  { unfold step_grayscale. case_bool_decide as HL; [by eauto|].
    destruct (convert_ok _ _ _ PIL image Hr) as (g & -> & ? & ?). eauto. }
  destruct (resize_ok _ _ _ PIL (48, 48) LANCZOS gray Hrg) as (r & Hres & Hm & Hw & Hh & Hlen);
    [done..|].
  exists gray, r. rewrite Hm, HL in *. repeat split; try done.
  by rewrite Hlen.
Qed.

(** C1. For a frame that decodes to a readable image within the size cap,
    [preprocess_frame] returns a tensor of shape (1, 1, 48, 48) all of whose
    48*48 values lie in [0, 1]. *)
Theorem preprocess_frame_shape_and_range
    (frame : string) (image_data : list byte) (image : Image) :
  b64decode frame = Ok image_data →
  Image_open image_data = Ok image →
  readable image →
  width image * height image ≤ MAX_FRAME_SIZE settings →
  ∃ t, fst (run (preprocess frame)) = Ok t
     ∧ shape t = [1; 1; 48; 48]
     ∧ length (values t) = 2304%nat
     ∧ Forall (λ v, in_unit_interval v = true) (values t).
Proof.
  intros Hd Ho Hr Hsz.
  rewrite (preprocess_frame_run _ _ _ _ _ _ Hd Ho), validate_image_size_ok by done.
  destruct (grayscale_resize_ok image Hr) as (gray & r & -> & -> & _ & Hw & Hh & Hlen).
  eexists. split; [done|]. cbn. rewrite Hw, Hh, !length_map.
  split; [done|]. split; [done|].
  apply Forall_map, Forall_map, Forall_forall. intros b _. apply f32_scale_range.
Qed.

(** C5. On a frame that decodes to a readable image within the size cap,
    the library calls are, in this order: grayscale conversion unless the
    mode is already ["L"], resize to 48x48 with the Lanczos filter,
    conversion to a float array, division by 255.0, and the two
    [unsqueeze(0)]; the tensor is the one the four steps of the
    specification give. *)
Theorem preprocess_frame_follows_pipeline
    (frame : string) (image_data : list byte) (image : Image) :
  b64decode frame = Ok image_data →
  Image_open image_data = Ok image →
  readable image →
  width image * height image ≤ MAX_FRAME_SIZE settings →
  ∃ t, normalize Image_convert Image_resize image = Ok t
     ∧ run (preprocess frame)
       = (Ok t, [CallB64decode; CallImageOpen] ++ normalize_calls image).
Proof.
  intros Hd Ho Hr Hsz.
  rewrite (preprocess_frame_run _ _ _ _ _ _ Hd Ho), validate_image_size_ok by done.
  destruct (grayscale_resize_ok image Hr) as (gray & r & Hg & Hres & _ & Hw & Hh & _).
  unfold normalize, step_resize, mbind, res_bind, bind. rewrite Hg, Hres.
  eexists. split; [done|]. f_equal. f_equal.
  unfold unsqueeze, from_numpy, divide, np_array_float32, step_reshape, step_rescale.
  cbn. rewrite Hw, Hh. f_equal. by rewrite map_map.
Qed.

End PreprocessingProps.

Section PreprocessingExamples.
Import Config Base64 Preprocessing PreprocessingSpec.

Lemma luma_length (l : list byte) :
  length (RawCodec.luma l) = (length l / 3)%nat.
Proof.
  assert (∀ n (l : list byte), (length l ≤ n)%nat →
            length (RawCodec.luma l) = (length l / 3)%nat) as H.
  { clear l. induction n as [|n IH]; intros [|r [|g [|b l]]] Hl; try done;
      cbn in Hl; try lia.
    cbn [RawCodec.luma length]. rewrite IH by lia.
    change (S (S (S (length l)))) with (3 + length l)%nat.
    replace (3 + length l)%nat with (length l + 1 * 3)%nat by lia.
    rewrite Nat.div_add by lia. lia. }
  by apply (H (length l)).
Qed.

Lemma concat_singletons_length {A B} (f : A → list B) (l : list A) :
  (∀ x, length (f x) = 1%nat) → length (concat (map f l)) = length l.
Proof.
  intros Hf. induction l as [|x l IH]; [done|].
  cbn. rewrite length_app, Hf, IH. done.
Qed.

(** The example library meets the contract. *)
Lemma RawCodec_contract :
  pil_contract RawCodec.readable RawCodec.Image_convert RawCodec.Image_resize.
Proof.
  split.
  - intros image Hr. unfold RawCodec.Image_convert.
    unfold RawCodec.readable in *. rewrite Hr. cbn [negb].
    eexists. split; [done|]. split; [done|].
    unfold RawCodec.readableb in *. cbn [mode width height data].
    apply andb_prop in Hr as [[[Hm Hw]%andb_prop Hh]%andb_prop Hlen].
    rewrite Hw, Hh. cbn. apply Z.eqb_eq in Hlen. apply Z.eqb_eq.
    unfold RawCodec.bands in *. cbn.
    rewrite (bool_decide_eq_true_2 ("L" = "L")) by done.
    case_bool_decide as HL; [lia|].
    rewrite luma_length, Nat2Z.inj_div, Hlen. cbn.
    rewrite Z.div_mul by lia. lia.
  - intros [w h] resample image Hr Hw Hh. cbn [fst snd] in *.
    unfold RawCodec.Image_resize. unfold RawCodec.readable in Hr. rewrite Hr.
    cbn [negb fst snd].
    apply Z.ltb_lt in Hw as Hw', Hh as Hh'. rewrite Hw', Hh'. cbn [andb negb].
    eexists. split; [done|]. cbn [mode width height data].
    repeat split. intros HL.
    rewrite concat_singletons_length, length_seq; [done|].
    intros i. unfold RawCodec.bands. rewrite bool_decide_eq_true_2 by done.
    cbn. done.
Qed.
End PreprocessingExamples.

Section PreprocessingWitnesses.
Import Config Base64 Preprocessing PreprocessingSpec.

Abbreviation raw_preprocess :=
  (preprocess_frame RawCodec.Image_open RawCodec.Image_convert RawCodec.Image_resize).

(** Witness of [preprocess_frame_shape_and_range]: a 2x1 gray image. *)
Lemma preprocess_frame_shape_and_range_witness :
  ∃ t, fst (run (raw_preprocess RawCodec.frame_2x1)) = Ok t
     ∧ shape t = [1; 1; 48; 48]
     ∧ length (values t) = 2304%nat
     ∧ Forall (λ v, in_unit_interval v = true) (values t).
Proof.
  eapply (preprocess_frame_shape_and_range RawCodec.Image_open _ _ RawCodec.readable
            RawCodec_contract RawCodec.frame_2x1).
  - vm_compute. reflexivity.
  - vm_compute. reflexivity.
  - vm_compute. reflexivity.
  - vm_compute. discriminate.
Defined.

(** Witness of [preprocess_frame_follows_pipeline]: the same image. *)
Lemma preprocess_frame_follows_pipeline_witness :
  ∃ t, snd (run (raw_preprocess RawCodec.frame_2x1))
       = [CallB64decode; CallImageOpen; CallResize (48, 48) LANCZOS; CallNpArray;
          CallDivide; CallFromNumpy; CallUnsqueeze 0; CallUnsqueeze 0]
     ∧ fst (run (raw_preprocess RawCodec.frame_2x1)) = Ok t.
Proof.
  destruct (preprocess_frame_follows_pipeline RawCodec.Image_open _ _ RawCodec.readable
              RawCodec_contract RawCodec.frame_2x1
              [x00; x02; x00; x01; x00; x00; xff]
              {| mode := "L"; width := 2; height := 1; data := [x00; xff] |})
    as (t & _ & Hrun).
  - vm_compute. reflexivity.
  - vm_compute. reflexivity.
  - vm_compute. reflexivity.
  - vm_compute. discriminate.
  - exists t. rewrite Hrun. split; reflexivity.
Defined.

(** A colour image goes through the grayscale conversion first; the one
    pixel is upsampled to the full 48x48 tensor. *)
Example preprocess_frame_rgb_1x1 :
  ∃ t, run (raw_preprocess RawCodec.frame_rgb_1x1)
       = (Ok t, [CallB64decode; CallImageOpen; CallConvert "L";
                 CallResize (48, 48) LANCZOS; CallNpArray; CallDivide;
                 CallFromNumpy; CallUnsqueeze 0; CallUnsqueeze 0])
     ∧ shape t = [1; 1; 48; 48]
     ∧ values t = replicate 2304 (f32_div (f32_of_Z 76) (f32_of_Z 255)).
Proof. eexists. split; [vm_compute; reflexivity|]. split; reflexivity. Qed.

(** Witness of [validate_image_size_guard]: the header of a 52429x5 image. *)
Lemma validate_image_size_guard_witness :
  run (raw_preprocess RawCodec.frame_oversize)
  = (Raise (Exn ValueError "Image too large: 262145 pixels > 262144 max"),
     [CallB64decode; CallImageOpen]).
Proof.
  destruct (validate_image_size_guard RawCodec.Image_open RawCodec.Image_convert
              RawCodec.Image_resize) as (_ & _ & _ & _ & H).
  apply (H RawCodec.frame_oversize [xcc; xcd; x00; x05; x00]
           {| mode := "L"; width := 52429; height := 5; data := [] |}).
  - vm_compute. reflexivity.
  - vm_compute. reflexivity.
  - vm_compute. reflexivity.
Defined.

(** The two failure cases do not come with the two messages of the
    specification: a text that is not base64 and a text that decodes to
    bytes that are no image raise an exception of the same class with the
    same message, which is neither of the two. *)
Lemma decode_failures_not_distinguished :
  fst (run (decode_base64_frame RawCodec.Image_open RawCodec.frame_bad_base64))
  = Raise (Exn ValueError "Invalid base64 image format")
  ∧ fst (run (decode_base64_frame RawCodec.Image_open RawCodec.frame_not_an_image))
    = Raise (Exn ValueError "Invalid base64 image format")
  ∧ ¬ decode_failures_distinguished RawCodec.Image_open.
Proof.
  split; [reflexivity|]. split; [reflexivity|]. intros H.
  destruct (H RawCodec.frame_bad_base64 RawCodec.frame_not_an_image []
              (Exn ValueError "Invalid base64 image format")
              (Exn ValueError "Invalid base64 image format")) as (Hmsg & _ & _).
  - eexists. vm_compute. reflexivity.
  - reflexivity.
  - eexists. reflexivity.
  - reflexivity.
  - reflexivity.
  - discriminate Hmsg.
Qed.

End PreprocessingWitnesses.

Section PostprocessingProps.
Import Preprocessing Postprocessing.

(** *** The order of floats *)

Lemma SFleb_trans (x y z : spec_float) :
  SFleb x y = true → SFleb y z = true → SFleb x z = true.
Proof.
  unfold SFleb, SFcompare.
  destruct x as [sx|sx| |sx mx ex], y as [sy|sy| |sy my ey], z as [sz|sz| |sz mz ez];
    try destruct sx; try destruct sy; try destruct sz; try done;
    change (Pos.compare_cont Eq) with Pos.compare;
    destruct (Z.compare_spec ex ey), (Z.compare_spec ey ez), (Z.compare_spec ex ez);
    try done; try lia; subst;
    destruct (Pos.compare_spec mx my), (Pos.compare_spec my mz),
      (Pos.compare_spec mx mz); try done; lia.
Qed.

Lemma SFleb_refl (x : spec_float) : is_finite x = true → SFleb x x = true.
Proof.
  unfold SFleb, SFcompare. destruct x as [s|s| |s m e]; try done.
  intros _. destruct s; rewrite Z.compare_refl;
    change (Pos.compare_cont Eq) with Pos.compare; by rewrite Pos.compare_refl.
Qed.

Lemma SFleb_total (x y : spec_float) :
  is_finite x = true → is_finite y = true → SFleb x y = false → SFleb y x = true.
Proof.
  unfold SFleb, SFcompare.
  destruct x as [sx|sx| |sx mx ex], y as [sy|sy| |sy my ey];
    try destruct sx; try destruct sy; try done; intros _ _;
    change (Pos.compare_cont Eq) with Pos.compare;
    destruct (Z.compare_spec ex ey), (Z.compare_spec ey ex); try done; try lia; subst;
    destruct (Pos.compare_spec mx my), (Pos.compare_spec my mx); try done; lia.
Qed.

(** *** Sums of real numbers *)

Local Open Scope R_scope.

Lemma Rsum_scaled (f : float32 → R) (t : R) (row : list float32) :
  Rsum (map (λ x, f x / t) row) = Rsum (map f row) / t.
Proof.
  unfold Rsum. induction row as [|x row IH]; cbn; [lra|]. rewrite IH. lra.
Qed.

Lemma weight_nonneg (x : float32) : 0 <= weight x.
Proof.
  unfold weight. destruct x as [| [|] | |]; try lra; left; apply exp_pos.
Qed.

Lemma Rsum_weight_nonneg (row : list float32) : 0 <= Rsum (map weight row).
Proof.
  unfold Rsum. induction row as [|x row IH]; cbn; [lra|].
  pose proof (weight_nonneg x). lra.
Qed.

Lemma Rsum_weight_pos (row : list float32) :
  Exists (λ x, is_finite x = true) row → 0 < Rsum (map weight row).
Proof.
  induction 1 as [x row Hx|x row _ IH]; cbn.
  - pose proof (Rsum_weight_nonneg row).
    assert (0 < weight x); [|unfold Rsum in *; lra].
    unfold weight. destruct x as [| | |]; try done; apply exp_pos.
  - pose proof (weight_nonneg x). unfold Rsum in *. lra.
Qed.

(** The exact softmax of a row with a finite score adds up to one. *)
Lemma softmax_exact_sum (row : list float32) :
  Exists (λ x, is_finite x = true) row → Rsum (softmax_exact row) = 1.
Proof.
  intros H%Rsum_weight_pos. unfold softmax_exact. cbv zeta.
  rewrite Rsum_scaled. field. lra.
Qed.

(** Entries that are each within [t] of their exact value add up to within
    [t] times their number of the exact sum. *)
Lemma Rsum_close (t : R) (ps : list float32) (ss : list R) :
  Forall2 (λ p s, Rabs (F2R p - s) <= t) ps ss →
  Rabs (Rsum (map F2R ps) - Rsum ss) <= INR (length ps) * t.
Proof.
  induction 1 as [|p s ps ss Hps _ IH].
  - cbn. rewrite Rminus_diag, Rabs_R0. lra.
  - cbn [map Rsum foldr length]. rewrite S_INR. fold (Rsum (map F2R ps)) (Rsum ss).
    replace (F2R p + Rsum (map F2R ps) - (s + Rsum ss))
      with ((F2R p - s) + (Rsum (map F2R ps) - Rsum ss)) by lra.
    eapply Rle_trans; [apply Rabs_triang|]. lra.
Qed.

Local Close Scope R_scope.

(** *** [torch.max] *)

(** The scan of [torch.max] on finite values returns the first maximum. *)
Lemma max_scan_first (pre items : list float32) (best : float32) (bi : nat) :
  Forall (λ v, is_finite v = true) (pre ++ items) →
  pre !! bi = Some best →
  (∀ j x, pre !! j = Some x →
     SFleb x best = true ∧ ((j < bi)%nat → SFleb best x = false)) →
  ∃ c ci, max_scan items (length pre) best bi = (c, ci)
        ∧ (pre ++ items) !! ci = Some c
        ∧ ∀ j x, (pre ++ items) !! j = Some x →
            SFleb x c = true ∧ ((j < ci)%nat → SFleb c x = false).
Proof.
  revert pre best bi. induction items as [|v items IH]; intros pre best bi Hfin Hb Hmax.
  { exists best, bi. rewrite app_nil_r. auto. }
  pose proof (lookup_lt_Some _ _ _ Hb) as Hbi.
  assert (is_finite best = true) as Hbest.
  { eapply Forall_forall in Hfin; [exact Hfin|].
    apply elem_of_app. left. by eapply list_elem_of_lookup_2. }
  assert (is_finite v = true) as Hv.
  { eapply Forall_forall in Hfin; [exact Hfin|].
    apply elem_of_app. right. apply elem_of_cons. by left. }
  replace (pre ++ v :: items) with ((pre ++ [v]) ++ items) in * by (by rewrite <- app_assoc).
  cbn [max_scan].
  assert (is_nan best = false) as -> by (by destruct best).
  replace (S (length pre)) with (length (pre ++ [v])) by (rewrite length_app; cbn; lia).
  destruct (SFleb v best) eqn:Hle.
  - apply IH; [done| |].
    + by rewrite lookup_app_l by lia.
    + intros j x Hj. destruct (decide (j < length pre)%nat).
      * rewrite lookup_app_l in Hj by lia. auto.
      * rewrite lookup_app_r in Hj by lia.
        destruct (j - length pre)%nat; [|by destruct n0].
        injection Hj as <-. split; [done|intros ?; lia].
  - apply IH; [done| |].
    + rewrite lookup_app_r by lia. by rewrite Nat.sub_diag.
    + intros j x Hj. destruct (decide (j < length pre)%nat).
      * rewrite lookup_app_l in Hj by lia. destruct (Hmax j x Hj) as [Hx _].
        split.
        -- eapply SFleb_trans; [exact Hx|]. by apply SFleb_total.
        -- intros _. destruct (SFleb v x) eqn:Hvx; [|done].
           by rewrite (SFleb_trans _ _ _ Hvx Hx) in Hle.
      * rewrite lookup_app_r in Hj by lia.
        destruct (j - length pre)%nat eqn:E; [|by destruct n0].
        injection Hj as <-. split; [by apply SFleb_refl|intros ?; lia].
Qed.

Lemma torch_max_first (ps : list float32) :
  ps ≠ [] → Forall (λ v, is_finite v = true) ps →
  ∃ c ci, torch_max ps = Ok (c, ci)
        ∧ ps !! ci = Some c
        ∧ ∀ j x, ps !! j = Some x →
            SFleb x c = true ∧ ((j < ci)%nat → SFleb c x = false).
Proof.
  destruct ps as [|p ps]; [done|]. intros _ Hfin.
  destruct (max_scan_first [p] ps p 0) as (c & ci & Hs & Hc & Hmax).
  - done.
  - done.
  - intros [|j] x Hj; [|done]. injection Hj as <-. split; [|intros ?; lia].
    apply SFleb_refl. by apply Forall_cons in Hfin as [? _].
  - exists c, ci. cbn in *. rewrite Hs. done.
Qed.

(** *** [postprocess_predictions] *)

Context {library : Softmax}.

Lemma all_emotions_zip (probs : list float32) :
  length probs = 7%nat →
  dict_comprehension
    (λ i, label ← index EMOTIONS i; p ← index probs i; Ok (label, item p))
    (seq 0 (length EMOTIONS))
  = Ok (zip EMOTIONS (map item probs)).
Proof.
  intros Hlen.
  destruct probs as [|p0 [|p1 [|p2 [|p3 [|p4 [|p5 [|p6 [|]]]]]]]]; try done.
Qed.

Lemma postprocess_predictions_run row c ci lbl :
  torch_max (softmax row) = Ok (c, ci) →
  EMOTIONS !! ci = Some lbl →
  length (softmax row) = 7%nat →
  postprocess_predictions [row]
  = Ok {| emotion := lbl; confidence := item c;
          all_emotions := zip EMOTIONS (map item (softmax row)) |}.
Proof.
  intros Htm Hlbl Hlen. unfold postprocess_predictions.
  change (index (softmax_dim1 [row]) 0) with (Ok (softmax row)).
  cbn [mbind res_bind bind]. rewrite Htm. cbn [mbind res_bind bind].
  assert (index EMOTIONS ci = Ok lbl) as -> by (unfold index; by rewrite Hlbl).
  cbn [mbind res_bind bind].
  rewrite (all_emotions_zip _ Hlen). reflexivity.
Qed.

(** A NaN in every entry of the softmax comes out as a dictionary of
    NaN. *)
Lemma postprocess_predictions_all_nan row :
  softmax row = replicate 7 S754_nan →
  ∃ r, postprocess_predictions [row] = Ok r
     ∧ map snd (all_emotions r) = replicate 7 S754_nan.
Proof.
  intros Hs. unfold postprocess_predictions.
  change (index (softmax_dim1 [row]) 0) with (Ok (softmax row)).
  rewrite Hs. eexists. split; [reflexivity|]. reflexivity.
Qed.

(** C2, as the code has it.  Take a (1, 7) input whose scores hold no NaN
    and no [+inf] and are not all [-inf], and a softmax whose seven
    entries for it are finite binary32 numbers, each within [t] of its
    exact value, where seven times [t] is at most 0.01.  Then the result
    maps the seven labels, in their fixed order, to these entries
    unchanged; their exact sum is within seven times [t] of 1, so within
    the 0.01 tolerance; [confidence] is the greatest of the entries, and
    [emotion] is the label of the first position holding it, every earlier
    position holding a smaller value. *)
Theorem postprocess_predictions_distribution (t : R) (row : list float32) :
  length row = 7%nat →
  well_scored row →
  softmax_accurate t row →
  (7 * t <= 1 / 100)%R →
  ∃ r, postprocess_predictions [row] = Ok r
     ∧ map fst (all_emotions r) = EMOTIONS
     ∧ map snd (all_emotions r) = map item (softmax row)
     ∧ (Rabs (exact_sum (map snd (all_emotions r)) - 1) <= 7 * t)%R
     ∧ sums_to_one (map snd (all_emotions r))
     ∧ (∀ k v, (k, v) ∈ all_emotions r → SFleb v (confidence r) = true)
     ∧ ∃ i, all_emotions r !! i = Some (emotion r, confidence r)
          ∧ EMOTIONS !! i = Some (emotion r)
          ∧ ∀ j k v, (j < i)%nat → all_emotions r !! j = Some (k, v) →
              SFleb (confidence r) v = false.
Proof.
  intros Hlen [_ Hfin] Hacc Ht.
  pose proof (Forall2_length _ _ _ Hacc) as Hlps.
  unfold softmax_exact in Hlps. cbv zeta in Hlps. rewrite length_map, Hlen in Hlps.
  assert (Forall (λ v, is_finite v = true) (softmax row)) as Hpfin.
  { eapply Forall2_Forall_l; [exact Hacc|]. apply Forall_forall. by intros s _ p (_ & ? & _). }
  assert (Forall2 (λ p s, (Rabs (F2R p - s) <= t)%R)
            (softmax row) (softmax_exact row)) as Hclose.
  { eapply Forall2_impl; [exact Hacc|]. by intros p s (_ & _ & ?). }
  destruct (torch_max_first (softmax row)) as (c & ci & Htm & Hci & Hmax).
  { intros E. by rewrite E in Hlps. }
  { done. }
  pose proof (lookup_lt_Some _ _ _ Hci) as Hlt. rewrite Hlps in Hlt.
  destruct (lookup_lt_is_Some_2 EMOTIONS ci) as [lbl Hlbl]; [cbn; lia|].
  rewrite (postprocess_predictions_run _ _ _ _ Htm Hlbl Hlps).
  eexists. split; [done|]. cbn [all_emotions emotion confidence].
  assert (map snd (zip EMOTIONS (map item (softmax row))) = map item (softmax row))
    as Hsnd by (apply snd_zip; rewrite length_map, Hlps; cbn; lia).
  assert (Rabs (exact_sum (map item (softmax row)) - 1) <= 7 * t)%R as Hsum.
  { unfold exact_sum. rewrite map_map. unfold item.
    rewrite <- (softmax_exact_sum row Hfin).
    pose proof (Rsum_close _ _ _ Hclose) as H. rewrite Hlps in H.
    replace (INR 7) with 7%R in H by (cbn; lra). exact H. }
  split; [by rewrite fst_zip by (rewrite length_map, Hlps; cbn; lia)|].
  split; [done|]. rewrite Hsnd. split; [done|]. split.
  { split.
    - unfold item. by rewrite map_id.
    - unfold Rabs in Hsum. destruct (Rcase_abs _) in Hsum; lra. }
  split.
  - intros k v [j Hj]%list_elem_of_lookup.
    apply lookup_zip_with_Some in Hj as (k' & v' & [= <- <-] & _ & Hv).
    rewrite list_lookup_fmap in Hv.
    destruct (softmax row !! j) as [x|] eqn:Hx; [|done]. injection Hv as <-.
    by destruct (Hmax j x Hx).
  - exists ci. split; [|split; [done|]].
    + apply lookup_zip_with_Some. exists lbl, (item c).
      by rewrite list_lookup_fmap, Hci.
    + intros j k v Hj Hjv.
      apply lookup_zip_with_Some in Hjv as (k' & v' & [= <- <-] & _ & Hv).
      rewrite list_lookup_fmap in Hv.
      destruct (softmax row !! j) as [x|] eqn:Hx; [|done]. injection Hv as <-.
      destruct (Hmax j x Hx) as [_ Hstrict]. by apply Hstrict.
Qed.

End PostprocessingProps.

Section PostprocessingExamples.
Import Preprocessing Postprocessing.
#[local] Existing Instance ref_softmax.

(** The reference softmax is accurate on seven zeros with one of them
    masked: a sixth for each zero, nothing for the masked score. *)
Lemma ref_softmax_accurate_masked_row :
  softmax_accurate binary32_tolerance masked_row.
Proof.
  unfold softmax_accurate.
  assert (softmax masked_row
          = [S754_finite false 11184811 (-26); S754_zero false;
             S754_finite false 11184811 (-26); S754_finite false 11184811 (-26);
             S754_finite false 11184811 (-26); S754_finite false 11184811 (-26);
             S754_finite false 11184811 (-26)]) as -> by (vm_compute; reflexivity).
  unfold softmax_exact, masked_row, binary32_tolerance, Rsum.
  cbn [map foldr weight F2R]. rewrite exp_0.
  repeat (apply List.Forall2_cons;
          [split; [vm_compute; reflexivity|split; [reflexivity|]]|]);
    [..|apply List.Forall2_nil];
    cbn [F2R]; unfold powerRZ; apply Rabs_le; simpl; lra.
Qed.

(** A NaN among the scores spreads to the whole result, which is then no
    distribution: the values do not add up to anything near 1. *)
Lemma postprocess_predictions_nan_row :
  length nan_row = 7%nat
  ∧ ∃ r, postprocess_predictions [nan_row] = Ok r
       ∧ map snd (all_emotions r) = replicate 7 S754_nan
       ∧ ¬ sums_to_one (map snd (all_emotions r)).
Proof.
  split; [done|].
  destruct (postprocess_predictions_all_nan nan_row) as (r & Hr & Hv).
  { vm_compute. reflexivity. }
  exists r. split; [exact Hr|]. split; [exact Hv|].
  rewrite Hv. intros [Hfin _]. by apply Forall_cons in Hfin as [? _].
Qed.

(** Witness of [postprocess_predictions_distribution]: six zeros and one
    [-inf]. *)
Lemma postprocess_predictions_distribution_witness :
  well_scored masked_row
  ∧ ∃ r, postprocess_predictions [masked_row] = Ok r
       ∧ emotion r = "Angry"
       ∧ sums_to_one (map snd (all_emotions r)).
Proof.
  assert (well_scored masked_row) as Hw.
  { split; [repeat constructor; discriminate|]. by constructor. }
  split; [exact Hw|].
  destruct (postprocess_predictions_distribution binary32_tolerance masked_row
              eq_refl Hw ref_softmax_accurate_masked_row)
    as (r & Hr & _ & _ & _ & Hs & _).
  { unfold binary32_tolerance. lra. }
  exists r. split; [exact Hr|]. split; [|exact Hs].
  vm_compute in Hr. by injection Hr as <-.
Defined.

End PostprocessingExamples.

Section StorageCap.
Import Datetime Storage StorageSpec.

Lemma slice_from_neg_lastn {A} (l : list A) (n : nat) :
  (0 < n)%nat → slice_from l (- Z.of_nat n) = lastn n l.
Proof.
  intros Hn. unfold slice_from, lastn.
  destruct (Z.ltb_spec (- Z.of_nat n) 0) as [_|?]; [|lia].
  f_equal. lia.
Qed.

Lemma lastn_length {A} (n : nat) (l : list A) :
  length (lastn n l) = Nat.min n (length l).
Proof. unfold lastn. rewrite length_drop. lia. Qed.

Lemma lastn_app_lastn {A} (n : nat) (a b : list A) :
  lastn n (lastn n a ++ b) = lastn n (a ++ b).
Proof.
  unfold lastn. rewrite !length_app, length_drop.
  destruct (Nat.le_gt_cases (length a) n) as [Hle|Hgt].
  - replace (length a - n)%nat with 0%nat by lia. rewrite drop_0.
    f_equal. lia.
  - rewrite <- (drop_app_le a b (length a - n)) by lia.
    rewrite drop_drop. f_equal. lia.
Qed.

Lemma lastn_app_ge {A} (n : nat) (a b : list A) :
  (n ≤ length b)%nat → lastn n (a ++ b) = lastn n b.
Proof.
  intros Hn. unfold lastn. rewrite length_app.
  rewrite drop_app_ge by lia. f_equal. lia.
Qed.

Lemma store_prediction_lookup now st u p :
  predictions_store (store_prediction now st u p) !! u
  = Some (lastn 1000 (default [] (predictions_store st !! u) ++ [stored_entry now p])).
Proof.
  unfold store_prediction. cbn [predictions_store].
  rewrite lookup_insert_eq. f_equal.
  set (l := _ ++ [_]).
  destruct (Z.ltb_spec 1000 (Z.of_nat (length l))) as [H|H].
  - apply (slice_from_neg_lastn l 1000). lia.
  - unfold lastn. replace (length l - 1000)%nat with 0%nat by lia. by rewrite drop_0.
Qed.

Lemma store_prediction_lookup_ne now st u u' p :
  u ≠ u' →
  predictions_store (store_prediction now st u p) !! u'
  = predictions_store st !! u'.
Proof. intros Hne. unfold store_prediction. cbn. by rewrite lookup_insert_ne. Qed.

Lemma run_stores_snoc st calls c :
  run_stores st (calls ++ [c])
  = store_prediction (call_now c) (run_stores st calls) (call_user c) (call_prediction c).
Proof. unfold run_stores. by rewrite fold_left_app. Qed.

Lemma entries_for_snoc u calls c :
  entries_for u (calls ++ [c])
  = entries_for u calls ++
    (if decide (call_user c = u) then [stored_entry (call_now c) (call_prediction c)] else []).
Proof.
  unfold entries_for. rewrite filter_app, map_app. f_equal.
  rewrite filter_cons, filter_nil. by destruct (decide _).
Qed.

(** After any calls, the list of a user is the capped concatenation of
    what was there and what was appended for that user. *)
Lemma run_stores_lookup st u calls :
  entries_for u calls ≠ [] →
  predictions_store (run_stores st calls) !! u
  = Some (lastn 1000 (default [] (predictions_store st !! u) ++ entries_for u calls)).
Proof.
  induction calls as [|c calls IH] using rev_ind; [done|].
  rewrite run_stores_snoc, entries_for_snoc.
  destruct (decide (call_user c = u)) as [<-|Hne].
  - intros _. rewrite store_prediction_lookup.
    destruct (decide (entries_for (call_user c) calls = [])) as [He|He].
    + rewrite He, app_nil_l.
      assert (predictions_store (run_stores st calls) !! call_user c
              = predictions_store st !! call_user c) as ->; [|done].
      clear IH. induction calls as [|c' calls IH'] using rev_ind; [done|].
      rewrite entries_for_snoc in He.
      destruct (decide (call_user c' = call_user c)) as [|Hne'].
      { by destruct (entries_for (call_user c) calls). }
      rewrite app_nil_r in He.
      rewrite run_stores_snoc, store_prediction_lookup_ne by done. auto.
    + rewrite IH by done. change (default [] (Some ?x)) with x.
      rewrite lastn_app_lastn. by rewrite app_assoc.
  - rewrite app_nil_r. intros He.
    rewrite store_prediction_lookup_ne by done. auto.
Qed.

(** C7. More than 1000 [store_prediction] calls for one user leave exactly
    the 1000 most recently appended entries of that user, oldest first;
    and after any single append the user's list has at most 1000 entries. *)
Theorem store_prediction_retains_last_1000 (st : state) (u : string)
    (calls : list store_call) :
  (1000 < length (entries_for u calls))%nat →
  predictions_store (run_stores st calls) !! u
    = Some (lastn 1000 (entries_for u calls))
  ∧ length (lastn 1000 (entries_for u calls)) = 1000%nat
  ∧ (∀ now st' u' p, ∃ l,
        predictions_store (store_prediction now st' u' p) !! u' = Some l
        ∧ (length l ≤ 1000)%nat
        ∧ last l = Some (stored_entry now p)).
Proof.
  intros Hlen. split; [|split].
  - rewrite run_stores_lookup by (intros E; rewrite E in Hlen; simpl in Hlen; lia).
    f_equal. apply lastn_app_ge. lia.
  - rewrite lastn_length. lia.
  - intros now st' u' p. eexists. split; [apply store_prediction_lookup|].
    split; [rewrite lastn_length; lia|].
    unfold lastn. rewrite length_app. cbn [length].
    rewrite drop_app_le by lia. apply last_snoc.
Qed.
End StorageCap.

Section StorageQuery.
Import Datetime Storage StorageSpec.
Context {parser : IsoParser}.

Lemma filter_window_acc c l acc :
  filter_window c l acc
  = match filter_window c l [] with
    | Ok f => Ok (acc ++ f)
    | Raise e => Raise e
    end.
Proof.
  revert acc. induction l as [|p l IH]; intros acc; cbn [filter_window].
  { by rewrite app_nil_r. }
  destruct (entry_in_window c p) as [[|]|[cls msg]]; cbn.
  - rewrite (IH (acc ++ [p])), (IH [p]).
    destruct (filter_window c l []); [|done]. by rewrite <- app_assoc.
  - apply IH.
  - destruct cls; cbn; try done; apply IH.
Qed.

Lemma filter_window_app c l1 l2 acc :
  filter_window c (l1 ++ l2) acc
  = f ← filter_window c l1 acc; filter_window c l2 f.
Proof.
  revert acc. induction l1 as [|p l1 IH]; intros acc; [done|].
  cbn [app filter_window].
  destruct (catch _ _) as [f'|e]; cbn; [apply IH|done].
Qed.



(** Everything the loop keeps has passed the window test. *)
Lemma filter_window_kept c l acc f q :
  filter_window c l acc = Ok f → q ∈ f →
  q ∈ acc ∨ entry_in_window c q = Ok true.
Proof.
  revert acc. induction l as [|p l IH]; intros acc; cbn [filter_window].
  { intros [= <-]; auto. }
  destruct (entry_in_window c p) as [[|]|[cls msg]] eqn:Hp; cbn.
  - intros Hf Hq. destruct (IH _ Hf Hq) as [Hin|]; [|by right].
    apply elem_of_app in Hin as [|Hin]; [by left|].
    apply list_elem_of_singleton in Hin as ->. by right.
  - apply IH.
  - destruct cls; cbn; try done; apply IH.
Qed.

Lemma elem_of_slice_from {A} (l : list A) z x : x ∈ slice_from l z → x ∈ l.
Proof.
  unfold slice_from. intros H.
  apply list_elem_of_lookup in H as [i Hi]. rewrite lookup_drop in Hi.
  by eapply list_elem_of_lookup_2.
Qed.

Lemma get_predictions_kept now st u limit hours q :
  q ∈ get_predictions now st u limit hours →
  ∃ c, sub_hours now hours = Ok c ∧ entry_in_window c q = Ok true.
Proof.
  unfold get_predictions.
  destruct (predictions_store st !! u) as [l|]; [|by intros ?%elem_of_nil].
  destruct (sub_hours now hours) as [c|e]; cbn; [|by intros ?%elem_of_nil].
  destruct (filter_window c l []) as [f|e] eqn:Hf; cbn; [|by intros ?%elem_of_nil].
  intros Hq%elem_of_slice_from. exists c. split; [done|].
  destruct (filter_window_kept _ _ _ _ _ Hf Hq) as [?%elem_of_nil|]; done.
Qed.

Lemma entry_in_window_parsed c q :
  entry_in_window c q = Ok true →
  ∃ s d, q !! "timestamp" = Some (VStr s)
       ∧ fromisoformat (str_replace_char "Z" "+00:00" s) = Some d
       ∧ tzinfo d = None ∧ c < to_micros d.
Proof.
  unfold entry_in_window.
  destruct (q !! "timestamp") as [[| | |s|]|]; try done. cbn.
  destruct (fromisoformat _) as [d|] eqn:Hd; [|done]. cbn. unfold gt_naive.
  destruct (tzinfo d) eqn:Htz; [done|].
  intros [= H%Z.ltb_lt]. exists s, d. done.
Qed.


Lemma get_predictions_set_user now st u l limit hours :
  predictions_store st !! u = Some l →
  get_predictions now (set_user st u l) u limit hours
  = get_predictions now st u limit hours.
Proof.
  intros H. unfold get_predictions, set_user. cbn.
  by rewrite lookup_insert_eq, H.
Qed.

Lemma stored_entry_timestamp now p :
  stored_entry now p !! "timestamp" = p !! "timestamp".
Proof. unfold stored_entry. by rewrite lookup_insert_ne. Qed.


End StorageQuery.

Section StorageStats.
Import Datetime Storage StorageSpec.
Context {parser : IsoParser}.

Lemma sum_counts_incr counts k :
  sum_counts (counts_incr counts k) = sum_counts counts + 1.
Proof.
  induction counts as [|[k' c] counts IH]; cbn; [lia|].
  destruct (key_eqb k' k); cbn; [lia|]. fold (sum_counts (counts_incr counts k)).
  fold (sum_counts counts). lia.
Qed.

Lemma keys_counts_incr counts k :
  map fst (counts_incr counts k)
  = if existsb (λ k', key_eqb k' k) (map fst counts)
    then map fst counts else map fst counts ++ [k].
Proof.
  induction counts as [|[k' c] counts IH]; cbn; [done|].
  destruct (key_eqb k' k); cbn; [done|].
  rewrite IH. by destruct (existsb _ _).
Qed.

Lemma accumulate_ok preds counts tc counts' tc' :
  accumulate preds counts tc = Ok (counts', tc') →
  counts' = fold_left counts_incr (map label_of preds) counts
  ∧ sum_counts counts' = sum_counts counts + Z.of_nat (length preds).
Proof.
  revert counts tc. induction preds as [|p preds IH]; intros counts tc; cbn.
  { intros [= <- <-]. split; [done|lia]. }
  fold (label_of p).
  destruct (hashable (label_of p)); cbn; [|done].
  destruct (float_add_val tc _) as [tc1|]; cbn; [|done].
  intros [-> Hs]%IH. split; [done|].
  rewrite Hs, sum_counts_incr. lia.
Qed.

Lemma keys_fold_counts_incr labels counts :
  map fst (fold_left counts_incr labels counts)
  = fold_left (λ acc k, if existsb (λ k', key_eqb k' k) acc then acc else acc ++ [k])
              labels (map fst counts).
Proof.
  revert counts. induction labels as [|k labels IH]; intros counts; cbn; [done|].
  by rewrite IH, keys_counts_incr.
Qed.

Lemma key_eqb_str k s : key_eqb k (VStr s) = true ↔ k = VStr s.
Proof.
  destruct k as [| | |s'|]; cbn [key_eqb]; try (split; [done|congruence]).
  split; [by intros ->%String.eqb_eq|intros [= ->]; apply String.eqb_refl].
Qed.

Lemma key_eqb_str_l l s : key_eqb (VStr s) l = true → l = VStr s.
Proof.
  destruct l as [| | |s'|]; cbn [key_eqb]; try done.
  by intros ->%String.eqb_eq.
Qed.

Lemma counts_get_incr counts l s :
  counts_get (counts_incr counts l) (VStr s)
  = counts_get counts (VStr s) + (if key_eqb l (VStr s) then 1 else 0).
Proof.
  unfold counts_get.
  induction counts as [|[k c] counts IH]; cbn [counts_incr find fst snd].
  { destruct (key_eqb l (VStr s)); cbn; lia. }
  destruct (key_eqb k l) eqn:Hkl; cbn [find fst snd].
  - destruct (key_eqb k (VStr s)) eqn:Hks; cbn [snd].
    + apply key_eqb_str in Hks as ->.
      apply key_eqb_str_l in Hkl as ->.
      by rewrite (proj2 (key_eqb_str (VStr s) s) eq_refl).
    + destruct (key_eqb l (VStr s)) eqn:Hls; [|lia].
      apply key_eqb_str in Hls as ->. congruence.
  - destruct (key_eqb k (VStr s)) eqn:Hks; cbn [snd]; [|apply IH].
    destruct (key_eqb l (VStr s)) eqn:Hls; [|lia].
    apply key_eqb_str in Hks as ->. apply key_eqb_str in Hls as ->.
    by rewrite (proj2 (key_eqb_str (VStr s) s) eq_refl) in Hkl.
Qed.

Lemma counts_get_fold labels counts s :
  counts_get (fold_left counts_incr labels counts) (VStr s)
  = counts_get counts (VStr s) + occurrences s labels.
Proof.
  revert counts. induction labels as [|l labels IH]; intros counts; cbn; [lia|].
  rewrite IH, counts_get_incr. fold (occurrences s labels). lia.
Qed.

(** [max] returns the first item whose count is maximal. *)
Lemma max_by_count_first pre items best i0 :
  pre !! i0 = Some best →
  (∀ j x, pre !! j = Some x → snd x ≤ snd best ∧ ((j < i0)%nat → snd x < snd best)) →
  ∃ i, (pre ++ items) !! i = Some (max_by_count best items)
     ∧ ∀ j x, (pre ++ items) !! j = Some x →
         snd x ≤ snd (max_by_count best items)
         ∧ ((j < i)%nat → snd x < snd (max_by_count best items)).
Proof.
  revert pre best i0. induction items as [|it items IH]; intros pre best i0 Hb Hmax; cbn.
  { exists i0. rewrite app_nil_r. auto. }
  replace (pre ++ it :: items) with ((pre ++ [it]) ++ items) by (by rewrite <- app_assoc).
  pose proof (lookup_lt_Some _ _ _ Hb) as Hi0.
  destruct (Z.ltb_spec (snd best) (snd it)) as [Hlt|Hge].
  - apply (IH (pre ++ [it]) it (length pre)).
    + rewrite lookup_app_r by lia. by rewrite Nat.sub_diag.
    + intros j x Hj. destruct (decide (j < length pre)%nat) as [Hjl|Hjl].
      * rewrite lookup_app_l in Hj by lia. destruct (Hmax j x Hj). lia.
      * rewrite lookup_app_r in Hj by lia.
        destruct (j - length pre)%nat eqn:E; [|by destruct n].
        injection Hj as <-. lia.
  - apply (IH (pre ++ [it]) best i0).
    + by rewrite lookup_app_l by lia.
    + intros j x Hj. destruct (decide (j < length pre)%nat) as [Hjl|Hjl].
      * rewrite lookup_app_l in Hj by lia. auto.
      * rewrite lookup_app_r in Hj by lia.
        destruct (j - length pre)%nat eqn:E; [|by destruct n].
        injection Hj as <-. lia.
Qed.

Lemma dominant_of_first counts :
  counts ≠ [] →
  ∃ i c, counts !! i = Some (dominant_of counts, c)
       ∧ ∀ j k' c', counts !! j = Some (k', c') →
           c' ≤ c ∧ ((j < i)%nat → c' < c).
Proof.
  destruct counts as [|it rest]; [done|]. intros _.
  destruct (max_by_count_first [it] rest it 0) as (i & Hi & Hmax).
  - done.
  - intros [|j] x Hj; [|done]. injection Hj as <-. lia.
  - cbn [app] in Hi, Hmax. unfold dominant_of.
    destruct (max_by_count it rest) as [k c] eqn:E. cbn [fst snd] in *.
    exists i, c. split; [done|]. intros j k' c' Hj. apply (Hmax j (k', c') Hj).
Qed.

(** C8. In the statistics returned for any user and window, the counts add
    up to [total]; [dominant_emotion] is the label whose count is maximal,
    and among labels of equal maximal count the one met first in the
    matching entries, which is the order of [emotion_counts].  The count of
    a string label is the number of matching entries that carry it. *)
Theorem get_emotion_stats_counts_and_dominant
    (now : datetime) (st : state) (u : string) (hours : Z) :
  let s := fst (get_emotion_stats now st u hours) in
  sum_counts (st_emotion_counts s) = st_total s
  ∧ ((st_emotion_counts s = [] ∧ st_dominant_emotion s = VNone)
     ∨ (map fst (st_emotion_counts s)
          = first_seen (map label_of (get_predictions now st u 10000 hours))
        ∧ (∀ l, counts_get (st_emotion_counts s) (VStr l)
                = occurrences l (map label_of (get_predictions now st u 10000 hours)))
        ∧ ∃ i c, st_emotion_counts s !! i = Some (st_dominant_emotion s, c)
            ∧ ∀ j k' c', st_emotion_counts s !! j = Some (k', c') →
                c' ≤ c ∧ ((j < i)%nat → c' < c))).
Proof.
  unfold get_emotion_stats.
  destruct (get_predictions now st u 10000 hours) as [|p preds] eqn:Hg.
  { cbn. auto. }
  destruct (accumulate (p :: preds) [] f64_zero) as [[counts tc]|e] eqn:Hacc.
  2:{ cbn. auto. }
  cbn [fst st_emotion_counts st_total st_dominant_emotion].
  destruct (accumulate_ok _ _ _ _ _ Hacc) as [Hc Hs].
  split; [rewrite Hs; cbn; lia|]. right. split; [|split].
  - rewrite Hc, keys_fold_counts_incr. done.
  - intros l. rewrite Hc, counts_get_fold. done.
  - apply dominant_of_first. intros ->. cbn in Hs. lia.
Qed.

(** C9. For a user that has no entry (never seen, or an empty list) every
    window gives the zeroed statistics; the function is total, so there is
    no error to report. *)
Theorem get_emotion_stats_no_entries
    (now : datetime) (st : state) (u : string) (hours : Z) :
  predictions_store st !! u = None ∨ predictions_store st !! u = Some [] →
  get_emotion_stats now st u hours = (zero_stats u, st)
  ∧ st_total (zero_stats u) = 0
  ∧ st_dominant_emotion (zero_stats u) = VNone
  ∧ st_average_confidence (zero_stats u) = S754_zero false
  ∧ st_emotion_counts (zero_stats u) = [].
Proof.
  intros H. split; [|done].
  unfold get_emotion_stats, get_predictions.
  destruct H as [-> | ->]; [done|].
  destruct (sub_hours now hours); done.
Qed.

End StorageStats.

Section Py37Parser.
Import Datetime.

(** *** The parser of Python 3.7 to 3.10 reads what [isoformat] writes *)

Lemma digit_of_digit_char (e : Z) :
  digit_of (digit_char (e mod 10)) = Some (e mod 10).
Proof.
  pose proof (Z.mod_pos_bound e 10 ltac:(lia)) as Hb.
  assert (e mod 10 = 0 ∨ e mod 10 = 1 ∨ e mod 10 = 2 ∨ e mod 10 = 3 ∨ e mod 10 = 4
          ∨ e mod 10 = 5 ∨ e mod 10 = 6 ∨ e mod 10 = 7 ∨ e mod 10 = 8 ∨ e mod 10 = 9)
    as H by lia.
  repeat (destruct H as [->|H]); try rewrite H; reflexivity.
Qed.

Lemma digit_eqb (a c : ascii) v :
  digit_of a = Some v → digit_of c = None → Ascii.eqb a c = false.
Proof.
  intros Ha Hc. destruct (Ascii.eqb_spec a c) as [<-|]; [congruence|done].
Qed.

Lemma replace_Z_digit a v s :
  digit_of a = Some v →
  str_replace_char "Z" "+00:00" (String a s)
  = String a (str_replace_char "Z" "+00:00" s).
Proof. intros Ha. cbn [str_replace_char]. by rewrite (digit_eqb a "Z" v). Qed.

Lemma str_find_digit c a v s :
  digit_of a = Some v → digit_of c = None →
  str_find c (String a s) = S <$> str_find c s.
Proof. intros Ha Hc. cbn [str_find]. by rewrite (digit_eqb a c v). Qed.

Lemma parse_digits_acc_digit a v s acc :
  digit_of a = Some v →
  parse_digits_acc (String a s) acc = parse_digits_acc s (acc * 10 + v).
Proof. intros Ha. cbn [parse_digits_acc]. by rewrite Ha. Qed.

Lemma parse_int_2 a b va vb :
  digit_of a = Some va → digit_of b = Some vb →
  parse_int (String a (String b "")) = Some (va * 10 + vb).
Proof.
  intros Ha Hb. unfold parse_int.
  rewrite (parse_digits_acc_digit a va), (parse_digits_acc_digit b vb) by done.
  cbn. f_equal.
Qed.

Lemma parse_int_4 a b c d va vb vc vd :
  digit_of a = Some va → digit_of b = Some vb →
  digit_of c = Some vc → digit_of d = Some vd →
  parse_int (String a (String b (String c (String d ""))))
  = Some (((va * 10 + vb) * 10 + vc) * 10 + vd).
Proof.
  intros Ha Hb Hc Hd. unfold parse_int.
  rewrite (parse_digits_acc_digit a va), (parse_digits_acc_digit b vb),
    (parse_digits_acc_digit c vc), (parse_digits_acc_digit d vd) by done.
  cbn. f_equal.
Qed.

Lemma parse_int_6 a b c d e f va vb vc vd ve vf :
  digit_of a = Some va → digit_of b = Some vb → digit_of c = Some vc →
  digit_of d = Some vd → digit_of e = Some ve → digit_of f = Some vf →
  parse_int (String a (String b (String c (String d (String e (String f ""))))))
  = Some (((((va * 10 + vb) * 10 + vc) * 10 + vd) * 10 + ve) * 10 + vf).
Proof.
  intros Ha Hb Hc Hd He Hf. unfold parse_int.
  rewrite (parse_digits_acc_digit a va), (parse_digits_acc_digit b vb),
    (parse_digits_acc_digit c vc), (parse_digits_acc_digit d vd),
    (parse_digits_acc_digit e ve), (parse_digits_acc_digit f vf) by done.
  cbn. f_equal.
Qed.

Lemma parse_date_digits y3 y2 y1 y0 m1 m0 d1 d0 vy3 vy2 vy1 vy0 vm1 vm0 vd1 vd0 :
  digit_of y3 = Some vy3 → digit_of y2 = Some vy2 →
  digit_of y1 = Some vy1 → digit_of y0 = Some vy0 →
  digit_of m1 = Some vm1 → digit_of m0 = Some vm0 →
  digit_of d1 = Some vd1 → digit_of d0 = Some vd0 →
  parse_isoformat_date
    (String y3 (String y2 (String y1 (String y0 (String "-"
       (String m1 (String m0 (String "-" (String d1 (String d0 ""))))))))))
  = Some (((vy3 * 10 + vy2) * 10 + vy1) * 10 + vy0, vm1 * 10 + vm0, vd1 * 10 + vd0).
Proof.
  intros. unfold parse_isoformat_date, str_len, str_sub.
  cbn [String.length substring Nat.eqb negb].
  rewrite (parse_int_4 y3 y2 y1 y0 vy3 vy2 vy1 vy0) by done.
  rewrite (parse_int_2 m1 m0 vm1 vm0), (parse_int_2 d1 d0 vd1 vd0) by done.
  reflexivity.
Qed.

Lemma parse_hms_digits h1 h0 m1 m0 s1 s0 vh1 vh0 vm1 vm0 vs1 vs0 :
  digit_of h1 = Some vh1 → digit_of h0 = Some vh0 →
  digit_of m1 = Some vm1 → digit_of m0 = Some vm0 →
  digit_of s1 = Some vs1 → digit_of s0 = Some vs0 →
  parse_hh_mm_ss_ff
    (String h1 (String h0 (String ":" (String m1 (String m0 (String ":"
       (String s1 (String s0 ""))))))))
  = Some (vh1 * 10 + vh0, vm1 * 10 + vm0, vs1 * 10 + vs0, 0).
Proof.
  intros. unfold parse_hh_mm_ss_ff, str_len, str_sub.
  cbn [String.length substring].
  rewrite (parse_int_2 h1 h0 vh1 vh0), (parse_int_2 m1 m0 vm1 vm0),
    (parse_int_2 s1 s0 vs1 vs0) by done.
  reflexivity.
Qed.

Lemma parse_hmsf_digits h1 h0 m1 m0 s1 s0 f5 f4 f3 f2 f1 f0
    vh1 vh0 vm1 vm0 vs1 vs0 vf5 vf4 vf3 vf2 vf1 vf0 :
  digit_of h1 = Some vh1 → digit_of h0 = Some vh0 →
  digit_of m1 = Some vm1 → digit_of m0 = Some vm0 →
  digit_of s1 = Some vs1 → digit_of s0 = Some vs0 →
  digit_of f5 = Some vf5 → digit_of f4 = Some vf4 → digit_of f3 = Some vf3 →
  digit_of f2 = Some vf2 → digit_of f1 = Some vf1 → digit_of f0 = Some vf0 →
  parse_hh_mm_ss_ff
    (String h1 (String h0 (String ":" (String m1 (String m0 (String ":"
       (String s1 (String s0 (String "."
          (String f5 (String f4 (String f3 (String f2 (String f1
             (String f0 "")))))))))))))))
  = Some (vh1 * 10 + vh0, vm1 * 10 + vm0, vs1 * 10 + vs0,
          ((((vf5 * 10 + vf4) * 10 + vf3) * 10 + vf2) * 10 + vf1) * 10 + vf0).
Proof.
  intros. unfold parse_hh_mm_ss_ff, str_from, str_sub, str_len.
  cbn [String.length substring Nat.sub].
  rewrite (parse_int_2 h1 h0 vh1 vh0), (parse_int_2 m1 m0 vm1 vm0),
    (parse_int_2 s1 s0 vs1 vs0) by done.
  rewrite (parse_int_6 f5 f4 f3 f2 f1 f0 vf5 vf4 vf3 vf2 vf1 vf0) by done.
  reflexivity.
Qed.

Lemma str_find_colon c s :
  digit_of c = None → c ≠ ":"%char →
  str_find c (String ":" s) = S <$> str_find c s.
Proof.
  intros _ Hc. cbn [str_find].
  destruct (Ascii.eqb_spec ":" c) as [<-|]; done.
Qed.

Lemma str_find_dot c s :
  digit_of c = None → c ≠ "."%char →
  str_find c (String "." s) = S <$> str_find c s.
Proof.
  intros _ Hc. cbn [str_find].
  destruct (Ascii.eqb_spec "." c) as [<-|]; done.
Qed.

Lemma parse_time_utc_hms h1 h0 m1 m0 s1 s0 vh1 vh0 vm1 vm0 vs1 vs0 :
  digit_of h1 = Some vh1 → digit_of h0 = Some vh0 →
  digit_of m1 = Some vm1 → digit_of m0 = Some vm0 →
  digit_of s1 = Some vs1 → digit_of s0 = Some vs0 →
  parse_isoformat_time
    (String h1 (String h0 (String ":" (String m1 (String m0 (String ":"
       (String s1 (String s0 "+00:00"))))))))
  = Some (vh1 * 10 + vh0, vm1 * 10 + vm0, vs1 * 10 + vs0, 0, Some 0).
Proof.
  intros. unfold parse_isoformat_time.
  assert (∀ c, digit_of c = None → c ≠ ":"%char →
            str_find c (String h1 (String h0 (String ":" (String m1 (String m0
              (String ":" (String s1 (String s0 "+00:00"))))))))
            = (λ n, 8 + n)%nat <$> str_find c "+00:00") as Hfind.
  { intros c Hc Hcc.
    rewrite (str_find_digit c h1 vh1), (str_find_digit c h0 vh0) by done.
    rewrite str_find_colon by done.
    rewrite (str_find_digit c m1 vm1), (str_find_digit c m0 vm0) by done.
    rewrite str_find_colon by done.
    rewrite (str_find_digit c s1 vs1), (str_find_digit c s0 vs0) by done.
    by destruct (str_find c "+00:00"). }
  rewrite !Hfind by done.
  change (str_find "-" "+00:00") with (@None nat).
  change (str_find "+" "+00:00") with (Some 0%nat).
  unfold str_from, str_sub, str_len.
  cbn [String.length substring Nat.sub fmap option_fmap option_map Nat.add].
  rewrite (parse_hms_digits h1 h0 m1 m0 s1 s0 vh1 vh0 vm1 vm0 vs1 vs0) by done.
  reflexivity.
Qed.

Lemma parse_time_utc_hmsf h1 h0 m1 m0 s1 s0 f5 f4 f3 f2 f1 f0
    vh1 vh0 vm1 vm0 vs1 vs0 vf5 vf4 vf3 vf2 vf1 vf0 :
  digit_of h1 = Some vh1 → digit_of h0 = Some vh0 →
  digit_of m1 = Some vm1 → digit_of m0 = Some vm0 →
  digit_of s1 = Some vs1 → digit_of s0 = Some vs0 →
  digit_of f5 = Some vf5 → digit_of f4 = Some vf4 → digit_of f3 = Some vf3 →
  digit_of f2 = Some vf2 → digit_of f1 = Some vf1 → digit_of f0 = Some vf0 →
  parse_isoformat_time
    (String h1 (String h0 (String ":" (String m1 (String m0 (String ":"
       (String s1 (String s0 (String "."
          (String f5 (String f4 (String f3 (String f2 (String f1
             (String f0 "+00:00")))))))))))))))
  = Some (vh1 * 10 + vh0, vm1 * 10 + vm0, vs1 * 10 + vs0,
          ((((vf5 * 10 + vf4) * 10 + vf3) * 10 + vf2) * 10 + vf1) * 10 + vf0,
          Some 0).
Proof.
  intros. unfold parse_isoformat_time.
  assert (∀ c, digit_of c = None → c ≠ ":"%char → c ≠ "."%char →
            str_find c (String h1 (String h0 (String ":" (String m1 (String m0
              (String ":" (String s1 (String s0 (String "."
                (String f5 (String f4 (String f3 (String f2 (String f1
                   (String f0 "+00:00")))))))))))))))
            = (λ n, 15 + n)%nat <$> str_find c "+00:00") as Hfind.
  { intros c Hc Hcc Hcd.
    rewrite (str_find_digit c h1 vh1), (str_find_digit c h0 vh0) by done.
    rewrite str_find_colon by done.
    rewrite (str_find_digit c m1 vm1), (str_find_digit c m0 vm0) by done.
    rewrite str_find_colon by done.
    rewrite (str_find_digit c s1 vs1), (str_find_digit c s0 vs0) by done.
    rewrite str_find_dot by done.
    rewrite (str_find_digit c f5 vf5), (str_find_digit c f4 vf4),
      (str_find_digit c f3 vf3), (str_find_digit c f2 vf2),
      (str_find_digit c f1 vf1), (str_find_digit c f0 vf0) by done.
    by destruct (str_find c "+00:00"). }
  rewrite !Hfind by done.
  change (str_find "-" "+00:00") with (@None nat).
  change (str_find "+" "+00:00") with (Some 0%nat).
  unfold str_from, str_sub, str_len.
  cbn [String.length substring Nat.sub fmap option_fmap option_map Nat.add].
  rewrite (parse_hmsf_digits h1 h0 m1 m0 s1 s0 f5 f4 f3 f2 f1 f0
             vh1 vh0 vm1 vm0 vs1 vs0 vf5 vf4 vf3 vf2 vf1 vf0) by done.
  reflexivity.
Qed.

Lemma replace_Z_sep c s :
  c ≠ "Z"%char →
  str_replace_char "Z" "+00:00" (String c s)
  = String c (str_replace_char "Z" "+00:00" s).
Proof.
  intros Hc. cbn [str_replace_char].
  destruct (Ascii.eqb_spec c "Z"); done.
Qed.

Lemma parse_time_naive_hms h1 h0 m1 m0 s1 s0 vh1 vh0 vm1 vm0 vs1 vs0 :
  digit_of h1 = Some vh1 → digit_of h0 = Some vh0 →
  digit_of m1 = Some vm1 → digit_of m0 = Some vm0 →
  digit_of s1 = Some vs1 → digit_of s0 = Some vs0 →
  parse_isoformat_time
    (String h1 (String h0 (String ":" (String m1 (String m0 (String ":"
       (String s1 (String s0 ""))))))))
  = Some (vh1 * 10 + vh0, vm1 * 10 + vm0, vs1 * 10 + vs0, 0, None).
Proof.
  intros. unfold parse_isoformat_time.
  assert (∀ c, digit_of c = None → c ≠ ":"%char →
            str_find c (String h1 (String h0 (String ":" (String m1 (String m0
              (String ":" (String s1 (String s0 ""))))))))
            = None) as Hfind.
  { intros c Hc Hcc.
    rewrite (str_find_digit c h1 vh1), (str_find_digit c h0 vh0) by done.
    rewrite str_find_colon by done.
    rewrite (str_find_digit c m1 vm1), (str_find_digit c m0 vm0) by done.
    rewrite str_find_colon by done.
    rewrite (str_find_digit c s1 vs1), (str_find_digit c s0 vs0) by done.
    done. }
  rewrite !Hfind by done.
  unfold str_len. cbn [String.length].
  rewrite (parse_hms_digits h1 h0 m1 m0 s1 s0 vh1 vh0 vm1 vm0 vs1 vs0) by done.
  reflexivity.
Qed.

Lemma parse_time_naive_hmsf h1 h0 m1 m0 s1 s0 f5 f4 f3 f2 f1 f0
    vh1 vh0 vm1 vm0 vs1 vs0 vf5 vf4 vf3 vf2 vf1 vf0 :
  digit_of h1 = Some vh1 → digit_of h0 = Some vh0 →
  digit_of m1 = Some vm1 → digit_of m0 = Some vm0 →
  digit_of s1 = Some vs1 → digit_of s0 = Some vs0 →
  digit_of f5 = Some vf5 → digit_of f4 = Some vf4 → digit_of f3 = Some vf3 →
  digit_of f2 = Some vf2 → digit_of f1 = Some vf1 → digit_of f0 = Some vf0 →
  parse_isoformat_time
    (String h1 (String h0 (String ":" (String m1 (String m0 (String ":"
       (String s1 (String s0 (String "."
          (String f5 (String f4 (String f3 (String f2 (String f1
             (String f0 "")))))))))))))))
  = Some (vh1 * 10 + vh0, vm1 * 10 + vm0, vs1 * 10 + vs0,
          ((((vf5 * 10 + vf4) * 10 + vf3) * 10 + vf2) * 10 + vf1) * 10 + vf0,
          None).
Proof.
  intros. unfold parse_isoformat_time.
  assert (∀ c, digit_of c = None → c ≠ ":"%char → c ≠ "."%char →
            str_find c (String h1 (String h0 (String ":" (String m1 (String m0
              (String ":" (String s1 (String s0 (String "."
                (String f5 (String f4 (String f3 (String f2 (String f1
                   (String f0 "")))))))))))))))
            = None) as Hfind.
  { intros c Hc Hcc Hcd.
    rewrite (str_find_digit c h1 vh1), (str_find_digit c h0 vh0) by done.
    rewrite str_find_colon by done.
    rewrite (str_find_digit c m1 vm1), (str_find_digit c m0 vm0) by done.
    rewrite str_find_colon by done.
    rewrite (str_find_digit c s1 vs1), (str_find_digit c s0 vs0) by done.
    rewrite str_find_dot by done.
    rewrite (str_find_digit c f5 vf5), (str_find_digit c f4 vf4),
      (str_find_digit c f3 vf3), (str_find_digit c f2 vf2),
      (str_find_digit c f1 vf1), (str_find_digit c f0 vf0) by done.
    done. }
  rewrite !Hfind by done.
  unfold str_len. cbn [String.length].
  rewrite (parse_hmsf_digits h1 h0 m1 m0 s1 s0 f5 f4 f3 f2 f1 f0
             vh1 vh0 vm1 vm0 vs1 vs0 vf5 vf4 vf3 vf2 vf1 vf0) by done.
  reflexivity.
Qed.

Ltac name_digits :=
  repeat match goal with
  | |- context [digit_char (?e mod 10)] =>
      let a := fresh "a" in
      pose proof (digit_of_digit_char e);
      generalize dependent (digit_char (e mod 10)); intros a ?
  end.

Ltac fields_back y mo dd h mi s us :=
  match goal with
  | |- context [valid_fields (Build_datetime ?ey ?emo ?edd ?eh ?emi ?es ?eus _)] =>
      replace ey with y by (Z.div_mod_to_equations; lia);
      replace emo with mo by (Z.div_mod_to_equations; lia);
      replace edd with dd by (Z.div_mod_to_equations; lia);
      replace eh with h by (Z.div_mod_to_equations; lia);
      replace emi with mi by (Z.div_mod_to_equations; lia);
      replace es with s by (Z.div_mod_to_equations; lia);
      try (replace eus with us by (Z.div_mod_to_equations; lia))
  end.

(** The rewriting done by [get_predictions] turns the ["Z"] that the
    backend appends into the offset of UTC and leaves the rest as it is. *)
Lemma replace_Z_utc_stamp (d : datetime) :
  str_replace_char "Z" "+00:00" (isoformat d +:+ "Z") = isoformat d +:+ "+00:00".
Proof.
  destruct d as [y mo dd h mi s us tz].
  unfold isoformat. cbn [year month day hour minute second microsecond].
  destruct (us =? 0); cbn [zero_pad]; cbv [String.append]; name_digits;
    repeat first [ rewrite replace_Z_sep by done
                 | erewrite replace_Z_digit by eassumption ];
    reflexivity.
Qed.

Lemma valid_fields_bounds y mo dd h mi s us tz :
  valid_fields {| year := y; month := mo; day := dd; hour := h; minute := mi;
                  second := s; microsecond := us; tzinfo := tz |} = true →
  1 ≤ y ≤ 9999 ∧ 1 ≤ mo ≤ 12 ∧ 1 ≤ dd ≤ 31 ∧ 0 ≤ h ≤ 23 ∧ 0 ≤ mi ≤ 59
  ∧ 0 ≤ s ≤ 59 ∧ 0 ≤ us ≤ 999999.
Proof.
  intros Hv. unfold valid_fields in Hv. cbn in Hv.
  repeat (apply andb_prop in Hv as [Hv ?]).
  assert (days_in_month y mo ≤ 31).
  { unfold days_in_month. repeat (destruct (_ =? _) || destruct (is_leap _) || cbn); lia. }
  lia.
Qed.

Lemma py37_reads_utc (d : datetime) :
  valid_fields d = true → tzinfo d = None →
  fromisoformat_py37 (isoformat d +:+ "+00:00") = Some (as_utc d).
Proof.
  destruct d as [y mo dd h mi s us tz]. cbn [tzinfo].
  intros Hv ->. pose proof (valid_fields_bounds _ _ _ _ _ _ _ _ Hv) as Hb.
  unfold as_utc. cbn [year month day hour minute second microsecond].
  unfold isoformat. cbn [year month day hour minute second microsecond].
  destruct (Z.eqb_spec us 0) as [->|Hus].
  - cbn [zero_pad]. cbv [String.append]. name_digits.
    unfold fromisoformat_py37, str_from, str_sub, str_len.
    cbn [String.length substring Nat.sub Nat.leb].
    erewrite parse_date_digits by eassumption.
    erewrite parse_time_utc_hms by eassumption.
    cbn [mbind option_bind].
    fields_back y mo dd h mi s 0.
    change (valid_fields _) with (valid_fields
      {| year := y; month := mo; day := dd; hour := h; minute := mi;
         second := s; microsecond := 0; tzinfo := None |}).
    by rewrite Hv.
  - cbn [zero_pad]. cbv [String.append]. name_digits.
    unfold fromisoformat_py37, str_from, str_sub, str_len.
    cbn [String.length substring Nat.sub Nat.leb].
    erewrite parse_date_digits by eassumption.
    erewrite parse_time_utc_hmsf by eassumption.
    cbn [mbind option_bind].
    fields_back y mo dd h mi s us.
    change (valid_fields _) with (valid_fields
      {| year := y; month := mo; day := dd; hour := h; minute := mi;
         second := s; microsecond := us; tzinfo := None |}).
    by rewrite Hv.
Qed.

Lemma py37_reads_naive (d : datetime) :
  valid_fields d = true → tzinfo d = None →
  fromisoformat_py37 (isoformat d) = Some d.
Proof.
  destruct d as [y mo dd h mi s us tz]. cbn [tzinfo].
  intros Hv ->. pose proof (valid_fields_bounds _ _ _ _ _ _ _ _ Hv) as Hb.
  unfold isoformat. cbn [year month day hour minute second microsecond].
  destruct (Z.eqb_spec us 0) as [->|Hus].
  - cbn [zero_pad]. cbv [String.append]. name_digits.
    unfold fromisoformat_py37, str_from, str_sub, str_len.
    cbn [String.length substring Nat.sub Nat.leb].
    erewrite parse_date_digits by eassumption.
    erewrite parse_time_naive_hms by eassumption.
    cbn [mbind option_bind].
    fields_back y mo dd h mi s 0.
    by rewrite Hv.
  - cbn [zero_pad]. cbv [String.append]. name_digits.
    unfold fromisoformat_py37, str_from, str_sub, str_len.
    cbn [String.length substring Nat.sub Nat.leb].
    erewrite parse_date_digits by eassumption.
    erewrite parse_time_naive_hmsf by eassumption.
    cbn [mbind option_bind].
    fields_back y mo dd h mi s us.
    by rewrite Hv.
Qed.

(** The parser of Python 3.7 to 3.10 is one of those that read what
    [isoformat] writes. *)
Lemma py37_reads_isoformat : @reads_isoformat py37_parser.
Proof.
  intros d Hv Htz. split.
  - by apply py37_reads_naive.
  - by apply py37_reads_utc.
Qed.

End Py37Parser.

Section StorageRoundTrip.
Import Datetime Storage StorageSpec.
Context {parser : IsoParser}.

(** A stored entry whose timestamp parses to a naive datetime inside the
    window is what a query with [limit = 1] returns, provided the loop
    gets through the older entries of that user. *)
Lemma get_after_store_naive now now' st u p hours c s d older :
  p !! "timestamp" = Some (VStr s) →
  fromisoformat (str_replace_char "Z" "+00:00" s) = Some d →
  tzinfo d = None →
  sub_hours now hours = Ok c → c < to_micros d →
  filter_window c (default [] (predictions_store st !! u)) [] = Ok older →
  get_predictions now (store_prediction now' st u p) u 1 hours
  = [stored_entry now' p].
Proof.
  intros Hts Hd Htz Hc Hlt Holder.
  unfold get_predictions. rewrite store_prediction_lookup, Hc. cbn.
  set (l := default [] _) in *. set (e := stored_entry now' p).
  assert (entry_in_window c e = Ok true) as He.
  { unfold entry_in_window, e. rewrite stored_entry_timestamp, Hts. cbn.
    rewrite Hd. cbn. unfold gt_naive. rewrite Htz.
    by apply Z.ltb_lt in Hlt as ->. }
  assert (∃ f, filter_window c (lastn 1000 (l ++ [e])) [] = Ok (f ++ [e])) as [f ->].
  { unfold lastn. rewrite length_app. cbn [length].
    rewrite drop_app_le by lia.
    rewrite filter_window_app.
    assert (∃ f, filter_window c (drop (length l + 1 - 1000) l) [] = Ok f) as [f ->].
    { rewrite <- (take_drop (length l + 1 - 1000) l) in Holder at 1.
      rewrite filter_window_app in Holder.
      destruct (filter_window c (take _ l) []) as [f0|]; [|done].
      cbn in Holder. change (mbind ?k ?m) with (bind m k) in Holder. cbn in Holder.
      rewrite filter_window_acc in Holder.
      destruct (filter_window c (drop _ l) []); [eauto|done]. }
    exists f. cbn. change (mbind ?k ?m) with (bind m k). cbn.
    rewrite He. done. }
  unfold mbind, res_bind, bind.
  change (Z.opp 1) with (Z.opp (Z.of_nat 1)).
  rewrite (slice_from_neg_lastn (f ++ [e]) 1) by lia.
  by rewrite lastn_app_ge by (cbn; lia).
Qed.

(** A stored entry whose timestamp carries a UTC offset (or the ["Z"]
    suffix that [get_predictions] rewrites to one) makes every later query
    of that user come back empty: ordering it against the naive cutoff
    raises [TypeError], which only the outer handler catches. *)
Lemma get_after_store_aware now now' st u p limit hours s d off :
  p !! "timestamp" = Some (VStr s) →
  fromisoformat (str_replace_char "Z" "+00:00" s) = Some d →
  tzinfo d = Some off →
  get_predictions now (store_prediction now' st u p) u limit hours = [].
Proof.
  intros Hts Hd Htz.
  unfold get_predictions. rewrite store_prediction_lookup.
  destruct (sub_hours now hours) as [c|]; cbn; [|done].
  unfold lastn. rewrite length_app. cbn [length].
  rewrite drop_app_le by lia. rewrite filter_window_app.
  destruct (filter_window c _ []) as [f|]; cbn; [|done].
  change (mbind ?k ?m) with (bind m k). cbn.
  unfold entry_in_window. rewrite stored_entry_timestamp, Hts. cbn.
  rewrite Hd. cbn. unfold gt_naive. rewrite Htz. done.
Qed.

(** C3, evaluated on the prediction of the API example (timestamp
    ["2025-10-18T12:34:56Z"], stored and queried four seconds after that
    time with [limit = 1] and a one-year window), for every
    [fromisoformat] that reads what [isoformat] writes: the query returns
    the empty list, not the entry that was just appended.  With the same
    timestamp written without the ["Z"] the entry comes back. *)
Theorem get_predictions_after_store_utc_timestamp :
  reads_isoformat →
  get_predictions sample_now
    (store_prediction sample_now empty_state "user_123" sample_prediction)
    "user_123" 1 8760 = []
  ∧ get_predictions sample_now
      (store_prediction sample_now empty_state "user_123" sample_prediction_naive)
      "user_123" 1 8760 = [stored_entry sample_now sample_prediction_naive].
Proof.
  intros Hiso.
  destruct (Hiso {| year := 2025; month := 10; day := 18; hour := 12; minute := 34;
                    second := 56; microsecond := 0; tzinfo := None |}
              eq_refl eq_refl) as [Hnaive Hutc].
  split.
  - eapply (get_after_store_aware _ _ _ _ _ _ _ "2025-10-18T12:34:56Z");
      [reflexivity|exact Hutc|reflexivity].
  - eapply (get_after_store_naive _ _ _ _ _ _ _ "2025-10-18T12:34:56");
      [reflexivity|exact Hnaive|reflexivity|reflexivity|reflexivity|reflexivity].
Qed.

End StorageRoundTrip.

Section StorageWitnesses.
Import Datetime Storage StorageSpec.
#[local] Existing Instance py37_parser.

(** Witness of [get_predictions_after_store_utc_timestamp]: the parser of
    Python 3.7 to 3.10. *)
Lemma get_predictions_after_store_utc_timestamp_witness :
  get_predictions sample_now
    (store_prediction sample_now empty_state "user_123" sample_prediction)
    "user_123" 1 8760 = []
  ∧ get_predictions sample_now
      (store_prediction sample_now empty_state "user_123" sample_prediction_naive)
      "user_123" 1 8760 = [stored_entry sample_now sample_prediction_naive].
Proof.
  apply (get_predictions_after_store_utc_timestamp (parser := py37_parser)).
  exact py37_reads_isoformat.
Defined.

(** Witness of [store_prediction_retains_last_1000]: 1001 calls. *)
Lemma store_prediction_retains_last_1000_witness :
  (1000 < length (entries_for "user_123" sample_calls))%nat
  ∧ predictions_store (run_stores empty_state sample_calls) !! "user_123"
    = Some (lastn 1000 (entries_for "user_123" sample_calls)).
Proof.
  assert (1000 < length (entries_for "user_123" sample_calls))%nat as H.
  { assert (length (entries_for "user_123" sample_calls) = 1001%nat) as ->
      by (vm_compute; reflexivity).
    lia. }
  split; [exact H|].
  apply (store_prediction_retains_last_1000 empty_state "user_123" sample_calls H).
Defined.

(** Witness of [get_emotion_stats_no_entries]: a user never seen. *)
Lemma get_emotion_stats_no_entries_witness :
  predictions_store empty_state !! "nobody" = None
  ∧ get_emotion_stats sample_now empty_state "nobody" 24
    = (zero_stats "nobody", empty_state).
Proof.
  split; [reflexivity|].
  apply (get_emotion_stats_no_entries sample_now empty_state "nobody" 24).
  left. reflexivity.
Defined.


End StorageWitnesses.

Section StorageExtras.
Import Datetime Storage StorageSpec StorageGlobal.
Context {parser : IsoParser}.

Lemma get_predictions_unknown now st u limit hours :
  predictions_store st !! u = None → get_predictions now st u limit hours = [].
Proof. intros H. unfold get_predictions. by rewrite H. Qed.

(** X1. [clear_predictions] always succeeds; afterwards every query and the
    statistics of that user are empty and nothing is cached for the user;
    cleaning a second time changes nothing. *)
Theorem clear_predictions_then_query (now : datetime) (st : state) (u : string)
    (limit hours : Z) :
  let st' := snd (clear_predictions st u) in
  fst (clear_predictions st u) = true
  ∧ get_predictions now st' u limit hours = []
  ∧ get_emotion_stats now st' u hours = (zero_stats u, st')
  ∧ stats_cache st' !! u = None
  ∧ clear_predictions st' u = (true, st').
Proof.
  cbn. split; [done|].
  assert (get_predictions now
            {| predictions_store := delete u (predictions_store st);
               stats_cache := delete u (stats_cache st) |} u limit hours = []) as Hq.
  { apply get_predictions_unknown. cbn. apply lookup_delete_eq. }
  split; [done|]. split.
  - unfold get_emotion_stats. rewrite get_predictions_unknown; [done|].
    cbn. apply lookup_delete_eq.
  - split; [apply lookup_delete_eq|].
    unfold clear_predictions. cbn. by rewrite !delete_delete_eq.
Qed.

Lemma get_predictions_same_list now st st' u limit hours :
  predictions_store st !! u = predictions_store st' !! u →
  get_predictions now st u limit hours = get_predictions now st' u limit hours.
Proof. intros H. unfold get_predictions. by rewrite H. Qed.

Lemma get_emotion_stats_same_list now st st' u hours :
  predictions_store st !! u = predictions_store st' !! u →
  fst (get_emotion_stats now st u hours) = fst (get_emotion_stats now st' u hours).
Proof.
  intros H. unfold get_emotion_stats.
  rewrite (get_predictions_same_list now st st' u 10000 hours H).
  destruct (get_predictions now st' u 10000 hours); [done|].
  destruct (accumulate _ _ _) as [[? ?]|]; done.
Qed.

(** X2. Storing or clearing for one user leaves what every other user reads
    unchanged. *)
Theorem other_users_unaffected (now now' : datetime) (st : state) (u u' : string)
    (p : gmap string pyval) (limit hours : Z) :
  u ≠ u' →
  get_predictions now (store_prediction now' st u p) u' limit hours
    = get_predictions now st u' limit hours
  ∧ fst (get_emotion_stats now (store_prediction now' st u p) u' hours)
    = fst (get_emotion_stats now st u' hours)
  ∧ get_predictions now (snd (clear_predictions st u)) u' limit hours
    = get_predictions now st u' limit hours
  ∧ fst (get_emotion_stats now (snd (clear_predictions st u)) u' hours)
    = fst (get_emotion_stats now st u' hours).
Proof.
  intros Hne.
  assert (predictions_store (store_prediction now' st u p) !! u'
          = predictions_store st !! u') as Hs
    by (by apply store_prediction_lookup_ne).
  assert (predictions_store (snd (clear_predictions st u)) !! u'
          = predictions_store st !! u') as Hc
    by (cbn; by apply lookup_delete_ne).
  split; [by apply get_predictions_same_list|].
  split; [by apply get_emotion_stats_same_list|].
  split; [by apply get_predictions_same_list|].
  by apply get_emotion_stats_same_list.
Qed.

Lemma filter_window_sublist c l f :
  filter_window c l [] = Ok f → f `sublist_of` l.
Proof.
  revert f. induction l as [|p l IH]; intros f; cbn [filter_window].
  { by intros [= <-]. }
  destruct (entry_in_window c p) as [[|]|[cls msg]]; cbn.
  - rewrite filter_window_acc.
    destruct (filter_window c l []) as [f0|]; [|done].
    intros [= <-]. apply sublist_skip. by apply IH.
  - intros H. apply sublist_cons. by apply IH.
  - destruct cls; cbn; try done; intros H; apply sublist_cons; by apply IH.
Qed.

Lemma slice_from_sublist {A} (l : list A) z : slice_from l z `sublist_of` l.
Proof. unfold slice_from. apply sublist_drop. Qed.

Lemma slice_from_neg_length {A} (l : list A) (n : Z) :
  0 < n → Z.of_nat (length (slice_from l (- n))) ≤ n.
Proof.
  intros Hn. unfold slice_from.
  destruct (Z.ltb_spec (- n) 0); [|lia]. rewrite length_drop. lia.
Qed.

(** X3. What a query returns: entries of the user's list, in the order in
    which they are stored, each with a timestamp that parses to a naive
    datetime after the cutoff, and no more than [limit] of them when
    [limit] is positive. *)
Theorem get_predictions_result_shape (now : datetime) (st : state) (u : string)
    (limit hours : Z) :
  get_predictions now st u limit hours
    `sublist_of` default [] (predictions_store st !! u)
  ∧ (0 < limit → Z.of_nat (length (get_predictions now st u limit hours)) ≤ limit)
  ∧ (∀ q, q ∈ get_predictions now st u limit hours →
       ∃ c s d, sub_hours now hours = Ok c
              ∧ q !! "timestamp" = Some (VStr s)
              ∧ fromisoformat (str_replace_char "Z" "+00:00" s) = Some d
              ∧ tzinfo d = None ∧ c < to_micros d).
Proof.
  split; [|split].
  - unfold get_predictions.
    destruct (predictions_store st !! u) as [l|]; [|done]. cbn.
    destruct (sub_hours now hours) as [c|]; cbn; [|apply sublist_nil_l].
    destruct (filter_window c l []) as [f|] eqn:Hf; cbn; [|apply sublist_nil_l].
    etrans; [apply slice_from_sublist|].
    by apply (filter_window_sublist c).
  - intros Hl. unfold get_predictions.
    destruct (predictions_store st !! u) as [l|]; [|cbn; lia]. cbn.
    destruct (sub_hours now hours) as [c|]; cbn; [|lia].
    destruct (filter_window c l []) as [f|]; cbn; [|lia].
    by apply slice_from_neg_length.
  - intros q (c & Hc & Hw)%get_predictions_kept.
    apply entry_in_window_parsed in Hw as (s & d & ? & ? & ? & ?).
    eauto 10.
Qed.

Lemma slice_from_0 {A} (l : list A) : slice_from l (- 0) = l.
Proof.
  unfold slice_from. change (- 0) with 0. change (0 <? 0) with false. cbv iota.
  replace (Z.to_nat (0 `min` Z.of_nat (length l))) with 0%nat by lia. apply drop_0.
Qed.

(** X4. How [limit] acts: a positive [limit] keeps the last [limit] entries of
    what [limit = 0] returns, which is every entry in the window, and a
    negative [limit] drops the first [-limit] of them. *)
Theorem get_predictions_limit (now : datetime) (st : state) (u : string)
    (limit hours : Z) :
  get_predictions now st u limit hours
  = if 0 <? limit
    then lastn (Z.to_nat limit) (get_predictions now st u 0 hours)
    else drop (Z.to_nat (- limit)) (get_predictions now st u 0 hours).
Proof.
  unfold get_predictions.
  destruct (predictions_store st !! u) as [l|]; cbn.
  2:{ destruct (0 <? limit); [done|]. by rewrite drop_nil. }
  destruct (sub_hours now hours) as [c|]; cbn.
  2:{ destruct (0 <? limit); [done|]. by rewrite drop_nil. }
  destruct (filter_window c l []) as [f|]; cbn.
  2:{ destruct (0 <? limit); [done|]. by rewrite drop_nil. }
  rewrite slice_from_0.
  destruct (Z.ltb_spec 0 limit) as [Hl|Hl].
  - rewrite <- (Z2Nat.id limit) at 1 by lia.
    apply slice_from_neg_lastn. lia.
  - unfold slice_from. destruct (Z.ltb_spec (- limit) 0); [lia|].
    destruct (Z.min_spec (- limit) (Z.of_nat (length f))) as [[_ ->]|[? ->]]; [done|].
    rewrite Nat2Z.id. rewrite !drop_ge by lia. done.
Qed.

Lemma breaks_query_raises c p :
  breaks_query p = true →
  ∃ e, entry_in_window c p = Raise e
     ∧ (exn_cls e = TypeError ∨ exn_cls e = AttributeError).
Proof.
  unfold breaks_query, entry_in_window.
  destruct (p !! "timestamp") as [[| | |s|]|]; try done;
    try (intros _; eexists; split; [reflexivity|by right]).
  cbn. destruct (fromisoformat _) as [d|]; [|done]. cbn. unfold gt_naive.
  intros [off Hoff]%bool_decide_eq_true. rewrite Hoff.
  eexists. split; [reflexivity|by left].
Qed.

Lemma filter_window_breaks c l1 p l2 acc :
  breaks_query p = true →
  ∃ e, filter_window c (l1 ++ p :: l2) acc = Raise e.
Proof.
  intros (e & He & Hcls)%(breaks_query_raises c).
  rewrite filter_window_app.
  destruct (filter_window c l1 acc) as [f|e']; cbn; [|by eauto].
  change (mbind ?k ?m) with (bind m k). cbn. rewrite He. cbn.
  destruct Hcls as [-> | ->]; cbn; eauto.
Qed.

(** X5. One stored entry whose timestamp is not a string, or carries a UTC
    offset (also as a ["Z"] suffix), hides the whole history of its user:
    every query returns the empty list and the statistics are the zeroed
    ones, whatever else is stored. *)
Theorem one_entry_hides_history (now : datetime) (st : state) (u : string)
    (l1 l2 : list (gmap string pyval)) (p : gmap string pyval) (limit hours : Z) :
  predictions_store st !! u = Some (l1 ++ p :: l2) →
  breaks_query p = true →
  get_predictions now st u limit hours = []
  ∧ get_emotion_stats now st u hours = (zero_stats u, st).
Proof.
  intros Hst Hp.
  assert (∀ lim, get_predictions now st u lim hours = []) as Hq.
  { intros lim. unfold get_predictions. rewrite Hst.
    destruct (sub_hours now hours) as [c|]; cbn; [|done].
    destruct (filter_window_breaks c l1 p l2 [] Hp) as [e ->]. done. }
  split; [apply Hq|]. unfold get_emotion_stats. by rewrite Hq.
Qed.

Lemma entry_in_window_mono c c' p :
  c' ≤ c →
  match entry_in_window c p with
  | Ok b => ∃ b', entry_in_window c' p = Ok b' ∧ (b = true → b' = true)
  | Raise e => entry_in_window c' p = Raise e
  end.
Proof.
  intros Hc. unfold entry_in_window.
  destruct (p !! "timestamp") as [[| | |s|]|]; try done. cbn.
  destruct (fromisoformat _) as [d|]; [|done]. cbn. unfold gt_naive.
  destruct (tzinfo d); [done|].
  eexists. split; [done|]. intros H%Z.ltb_lt. apply Z.ltb_lt. lia.
Qed.

Lemma filter_window_mono c c' l :
  c' ≤ c →
  match filter_window c l [] with
  | Ok f => ∃ f', filter_window c' l [] = Ok f' ∧ f `sublist_of` f'
  | Raise e => filter_window c' l [] = Raise e
  end.
Proof.
  intros Hc. induction l as [|p l IH]; cbn [filter_window].
  { by exists []. }
  pose proof (entry_in_window_mono c c' p Hc) as Hp.
  assert (∀ acc acc', acc `sublist_of` acc' →
            match filter_window c l acc with
            | Ok f => ∃ f', filter_window c' l acc' = Ok f' ∧ f `sublist_of` f'
            | Raise e => filter_window c' l acc' = Raise e
            end) as Hacc.
  { intros acc acc' Hsub.
    rewrite (filter_window_acc c l acc), (filter_window_acc c' l acc').
    destruct (filter_window c l []) as [f|].
    - destruct IH as (f' & -> & Hf). eexists. split; [done|]. by apply sublist_app.
    - by rewrite IH. }
  destruct (entry_in_window c p) as [b|[cls msg]].
  - destruct Hp as (b' & -> & Hb). cbn.
    destruct b, b'; cbn; apply Hacc; try done.
    + by specialize (Hb eq_refl).
    + apply sublist_nil_l.
  - rewrite Hp. cbn.
    destruct cls; cbn; try done; by apply Hacc.
Qed.

(** X6. Widening the window never loses an entry, as long as the cutoff of
    the wider window can be computed: with [limit = 0] (no limit) what a
    shorter look-back returns is then, in order, part of what the longer
    one returns.  When that cutoff is out of the range of dates, the longer
    look-back returns nothing. *)
Theorem get_predictions_window_monotone (now : datetime) (st : state) (u : string)
    (hours hours' : Z) :
  hours ≤ hours' →
  match sub_hours now hours' with
  | Ok _ =>
      get_predictions now st u 0 hours `sublist_of` get_predictions now st u 0 hours'
  | Raise _ => get_predictions now st u 0 hours' = []
  end.
Proof.
  intros Hh.
  destruct (sub_hours now hours') as [c'|e'] eqn:Hc'.
  2:{ unfold get_predictions. rewrite Hc'. by destruct (predictions_store st !! u). }
  unfold get_predictions.
  destruct (predictions_store st !! u) as [l|]; [|done].
  destruct (sub_hours now hours) as [c|e] eqn:Hc; [|apply sublist_nil_l].
  assert (∀ h x, sub_hours now h = Ok x → x = to_micros now - h * 3600 * 1000000)
    as Hsub.
  { intros h x. unfold sub_hours.
    destruct (_ >? _); [done|]. destruct (_ || _); [done|]. by intros [= <-]. }
  assert (c' ≤ c) as Hle.
  { rewrite (Hsub _ _ Hc), (Hsub _ _ Hc'). lia. }
  rewrite Hc'. cbn.
  pose proof (filter_window_mono c c' l Hle) as H.
  destruct (filter_window c l []) as [f|].
  - destruct H as (f' & -> & Hff'). cbn [mbind res_bind bind].
    by rewrite !slice_from_0.
  - rewrite H. done.
Qed.

End StorageExtras.

Section StorageStatsExtras.
Import Datetime Storage StorageSpec StorageGlobal.
Context {parser : IsoParser}.

Lemma insert_desc_perm x l : insert_desc x l ≡ₚ x :: l.
Proof.
  induction l as [|y l IH]; cbn; [done|].
  destruct (snd y <? snd x); [done|].
  rewrite IH. apply Permutation_swap.
Qed.

Lemma insert_desc_sorted x l :
  counts_descending l → counts_descending (insert_desc x l).
Proof.
  unfold counts_descending. induction 1 as [|y l Hl IH Hy]; cbn.
  { repeat constructor. }
  destruct (Z.ltb_spec (snd y) (snd x)) as [Hlt|Hge].
  - constructor; [by constructor|].
    constructor; [lia|]. eapply Forall_impl; [exact Hy|]. cbn. intros; lia.
  - constructor; [done|].
    rewrite insert_desc_perm. by constructor.
Qed.

Lemma sorted_desc_fold l acc :
  counts_descending acc →
  fold_left (λ acc x, insert_desc x acc) l acc ≡ₚ acc ++ l
  ∧ counts_descending (fold_left (λ acc x, insert_desc x acc) l acc).
Proof.
  revert acc. induction l as [|x l IH]; intros acc Hacc; cbn.
  { by rewrite app_nil_r. }
  destruct (IH (insert_desc x acc) (insert_desc_sorted x acc Hacc)) as [Hp Hs].
  split; [|done]. rewrite Hp, insert_desc_perm. cbn [app].
  apply Permutation_middle.
Qed.

(** The head of the sorted list is what [max] picks. *)
Lemma sorted_desc_head h rest l :
  head (fold_left (λ acc x, insert_desc x acc) l (h :: rest))
  = Some (max_by_count h l).
Proof.
  revert h rest. induction l as [|x l IH]; intros h rest; cbn; [done|].
  destruct (snd h <? snd x); apply IH.
Qed.

(** X7. [by_emotion] lists the items of [emotion_counts], each once, by
    non-increasing count, and its first item is the dominant emotion. *)
Theorem by_emotion_sorted (now : datetime) (st : state) (u : string) (hours : Z) :
  let s := fst (get_emotion_stats now st u hours) in
  match st_by_emotion s with
  | None => s = zero_stats u
  | Some by_emotion =>
      by_emotion ≡ₚ st_emotion_counts s
      ∧ counts_descending by_emotion
      ∧ ∃ c, head by_emotion = Some (st_dominant_emotion s, c)
  end.
Proof.
  unfold get_emotion_stats.
  destruct (get_predictions now st u 10000 hours) as [|p preds]; [done|].
  destruct (accumulate (p :: preds) [] f64_zero) as [[counts tc]|e] eqn:Hacc; [|done].
  cbn [fst st_by_emotion st_emotion_counts st_dominant_emotion].
  destruct (sorted_desc_fold counts []) as [Hp Hs]; [constructor|].
  split; [done|]. split; [done|].
  destruct counts as [|it rest].
  { apply accumulate_ok in Hacc as [_ Hsum]. cbn in Hsum. lia. }
  unfold sorted_desc, dominant_of. cbn [fold_left insert_desc].
  rewrite sorted_desc_head.
  destruct (max_by_count it rest) as [k c]. by exists c.
Qed.

Lemma count_labels_ok preds acc :
  Forall (λ p, hashable (label_of p) = true) preds →
  ∃ acc', count_labels preds acc = Ok acc'
        ∧ sum_counts acc' = sum_counts acc + Z.of_nat (length preds).
Proof.
  revert acc. induction preds as [|p preds IH]; intros acc Hh; cbn.
  { eexists. split; [done|]. lia. }
  apply Forall_cons in Hh as [Hp Hh]. fold (label_of p). rewrite Hp. cbn.
  destruct (IH (counts_incr acc (label_of p)) Hh) as (acc' & -> & Hs).
  eexists. split; [done|]. rewrite Hs, sum_counts_incr. lia.
Qed.

Lemma count_all_ok lists acc :
  Forall (Forall (λ p, hashable (label_of p) = true)) lists →
  ∃ acc', count_all lists acc = Ok acc'
        ∧ sum_counts acc'
          = sum_counts acc + foldr (λ preds s, Z.of_nat (length preds) + s) 0 lists.
Proof.
  revert acc. induction lists as [|preds lists IH]; intros acc Hh; cbn.
  { eexists. split; [done|]. lia. }
  apply Forall_cons in Hh as [Hp Hh].
  destruct (count_labels_ok preds acc Hp) as (acc1 & -> & Hs1). cbn.
  destruct (IH acc1 Hh) as (acc' & -> & Hs).
  eexists. split; [done|]. rewrite Hs, Hs1. lia.
Qed.

Lemma count_labels_raise preds acc :
  Exists (λ p, hashable (label_of p) = false) preds →
  ∃ e, count_labels preds acc = Raise e.
Proof.
  revert acc. induction preds as [|p preds IH]; intros acc; [by intros ?%Exists_nil|].
  cbn. fold (label_of p). destruct (hashable (label_of p)) eqn:Hp; cbn.
  - intros [Hq|Hq]%Exists_cons; [congruence|]. by apply IH.
  - eauto.
Qed.

Lemma count_all_raise lists acc :
  Exists (Exists (λ p, hashable (label_of p) = false)) lists →
  ∃ e, count_all lists acc = Raise e.
Proof.
  revert acc. induction lists as [|preds lists IH]; intros acc; [by intros ?%Exists_nil|].
  cbn. intros [Hq|Hq]%Exists_cons.
  - destruct (count_labels_raise preds acc Hq) as [e ->]. eauto.
  - destruct (count_labels preds acc); cbn; [by apply IH|eauto].
Qed.

(** X8. When every stored label can be a dictionary key, the global statistics
    count every user and every stored entry, and the values of
    [emotion_distribution] add up to [total_predictions]. *)
Theorem get_all_stats_consistent (st : state) :
  all_labels_hashable st →
  total_users (get_all_stats st) = Z.of_nat (size (predictions_store st))
  ∧ total_predictions (get_all_stats st)
    = foldr (λ kv s, Z.of_nat (length (snd kv)) + s) 0
            (map_to_list (predictions_store st))
  ∧ sum_counts (emotion_distribution (get_all_stats st))
    = total_predictions (get_all_stats st).
Proof.
  intros Hh. unfold get_all_stats.
  destruct (count_all_ok (map snd (map_to_list (predictions_store st))) [])
    as (acc & -> & Hs).
  { apply Forall_map, Forall_forall. intros [u l] Hul%elem_of_map_to_list.
    apply Forall_forall. intros p Hp. by apply (Hh u l p). }
  cbn [total_users total_predictions emotion_distribution].
  split; [done|]. split; [by rewrite foldr_fmap|].
  rewrite Hs. cbn [sum_counts foldr]. lia.
Qed.

(** X9. One stored entry whose ["emotion"] is a list or a dictionary makes the
    global statistics come back all zero: no users, no predictions. *)
Theorem get_all_stats_unhashable_label (st : state) (u : string)
    (l : list (gmap string pyval)) (p : gmap string pyval) :
  predictions_store st !! u = Some l → p ∈ l →
  hashable (label_of p) = false →
  get_all_stats st = zero_all_stats.
Proof.
  intros Hu Hp Hh. unfold get_all_stats.
  destruct (count_all_raise (map snd (map_to_list (predictions_store st))) [])
    as [e ->]; [|done].
  apply Exists_exists. exists l. split.
  - apply list_elem_of_fmap. exists (u, l). split; [done|].
    by apply elem_of_map_to_list.
  - apply Exists_exists. eauto.
Qed.

End StorageStatsExtras.

Section PresentationExtras.
Import Config Base64 Preprocessing Postprocessing Presentation.

Lemma elem_of_EMOTIONS (e : string) :
  e ∈ EMOTIONS ↔
  e = "Angry" ∨ e = "Disgust" ∨ e = "Fear" ∨ e = "Happy" ∨ e = "Neutral"
  ∨ e = "Sad" ∨ e = "Surprise".
Proof.
  unfold EMOTIONS. rewrite !elem_of_cons, elem_of_nil. tauto.
Qed.

Lemma tables_outside_labels (e : string) :
  e ∉ EMOTIONS → color_map !! e = None ∧ emoji_map !! e = None.
Proof.
  intros He. split; apply not_elem_of_list_to_map; intros Hin; apply He;
    apply elem_of_EMOTIONS; cbn in Hin; rewrite !elem_of_cons, elem_of_nil in Hin;
    tauto.
Qed.

Lemma tables_on_labels (e : string) :
  e ∈ EMOTIONS →
  get_emotion_color e ≠ fallback_color
  ∧ get_emotion_emoji e ≠ fallback_emoji
  ∧ 0 ≤ r (get_emotion_color e) ≤ 255
  ∧ 0 ≤ g (get_emotion_color e) ≤ 255
  ∧ 0 ≤ b (get_emotion_color e) ≤ 255.
Proof.
  intros He. apply elem_of_EMOTIONS in He.
  repeat (destruct He as [->|He]); try subst e; vm_compute;
    (repeat split; congruence).
Qed.

(** X10. Each of the seven labels has a colour and a glyph of its own in the
    tables, with colour components between 0 and 255; any other string
    gets the gray fallback colour and the fallback glyph. *)
Theorem emotion_tables_cover_labels :
  (∀ e, e ∈ EMOTIONS →
     get_emotion_color e ≠ fallback_color
     ∧ get_emotion_emoji e ≠ fallback_emoji
     ∧ 0 ≤ r (get_emotion_color e) ≤ 255
     ∧ 0 ≤ g (get_emotion_color e) ≤ 255
     ∧ 0 ≤ b (get_emotion_color e) ≤ 255)
  ∧ (∀ e1 e2, e1 ∈ EMOTIONS → e2 ∈ EMOTIONS →
       get_emotion_color e1 = get_emotion_color e2
       ∨ get_emotion_emoji e1 = get_emotion_emoji e2 → e1 = e2)
  ∧ (∀ e, e ∉ EMOTIONS →
       get_emotion_color e = fallback_color
       ∧ get_emotion_emoji e = fallback_emoji).
Proof.
  split; [|split].
  - apply tables_on_labels.
  - intros e1 e2 He1 He2. apply elem_of_EMOTIONS in He1, He2.
    repeat (destruct He1 as [->|He1]); try subst e1;
      repeat (destruct He2 as [->|He2]); try subst e2;
      try reflexivity; vm_compute; intros [H|H]; discriminate H.
  - intros e [Hc Hm]%tables_outside_labels.
    unfold get_emotion_color, get_emotion_emoji. by rewrite Hc, Hm.
Qed.

Context {library : Softmax}.

Lemma dict_comprehension_keys (probs : list float32) d :
  dict_comprehension
    (λ i, label ← index EMOTIONS i; p ← index probs i; Ok (label, item p))
    (seq 0 (length EMOTIONS)) = Ok d →
  map fst d = EMOTIONS ∧ (7 ≤ length probs)%nat.
Proof.
  destruct probs as [|p0 [|p1 [|p2 [|p3 [|p4 [|p5 [|p6 rest]]]]]]]; try done.
  cbn. intros [= <-]. split; [done|]. lia.
Qed.

Lemma postprocess_predictions_cases (logits : list (list float32)) :
  match postprocess_predictions logits with
  | Ok pred =>
      (∃ row rest, logits = row :: rest ∧ (7 ≤ length (softmax row))%nat)
      ∧ emotion pred ∈ EMOTIONS
      ∧ map fst (all_emotions pred) = EMOTIONS
  | Raise e => exn_cls e = IndexError
  end.
Proof.
  unfold postprocess_predictions.
  destruct logits as [|row rest]; [done|].
  change (index (softmax_dim1 (row :: rest)) 0) with (Ok (softmax row)).
  cbn [mbind res_bind bind].
  destruct (torch_max (softmax row)) as [[c ci]|e] eqn:Htm.
  2:{ unfold torch_max in Htm. destruct (softmax row); [|done].
      by injection Htm as <-. }
  cbn [mbind res_bind bind].
  destruct (index EMOTIONS ci) as [lbl|e] eqn:Hidx.
  2:{ cbn. unfold index in Hidx. destruct (EMOTIONS !! ci); [done|].
      by injection Hidx as <-. }
  assert (EMOTIONS !! ci = Some lbl) as Hlbl.
  { unfold index in Hidx. destruct (EMOTIONS !! ci); [|done]. by injection Hidx as ->. }
  cbn [mbind res_bind bind].
  destruct (dict_comprehension _ _) as [d|e] eqn:Hd.
  - cbn. apply dict_comprehension_keys in Hd as [Hk Hlen]. split; [|split].
    + by exists row, rest.
    + by eapply list_elem_of_lookup_2.
    + done.
  - cbn. revert Hd. generalize (softmax row). intros probs.
    destruct probs as [|p0 [|p1 [|p2 [|p3 [|p4 [|p5 [|p6 ?]]]]]]]; cbn;
      by intros [= <-].
Qed.

(** X11. Whatever the scores, finite or not, and for every softmax that keeps
    the length of a row: when [postprocess_predictions] returns, the input
    had a first row of at least seven scores, the label is one of the seven
    and the distribution has exactly the seven labels as keys; in every
    other case the exception is an [IndexError]. *)
Theorem postprocess_predictions_outcomes (logits : list (list float32)) :
  (∀ row, length (softmax row) = length row) →
  match postprocess_predictions logits with
  | Ok pred =>
      (∃ row rest, logits = row :: rest ∧ (7 ≤ length row)%nat)
      ∧ emotion pred ∈ EMOTIONS
      ∧ map fst (all_emotions pred) = EMOTIONS
  | Raise e => exn_cls e = IndexError
  end.
Proof.
  intros Hlen. pose proof (postprocess_predictions_cases logits) as H.
  destruct (postprocess_predictions logits) as [pred|e]; [|done].
  destruct H as ((row & rest & -> & Hrow) & He & Hk).
  split; [|done]. exists row, rest. by rewrite <- Hlen.
Qed.

End PresentationExtras.

Section InferenceExtras.
Import Config Base64 Preprocessing PreprocessingSpec Postprocessing Presentation
  Datetime Inference.

(** X12. The threshold test is monotone: a confidence at least as great as one
    that passes also passes; NaN never passes. *)
Theorem validate_confidence_monotone (c c' : float64) :
  validate_confidence c = true → SFleb c c' = true →
  validate_confidence c' = true ∧ validate_confidence S754_nan = false.
Proof.
  unfold validate_confidence. intros H1 H2. split; [|done].
  by eapply SFleb_trans.
Qed.

Variable Image_open : list byte → res Image.
Variable Image_convert : string → Image → res Image.
Variable Image_resize : Z * Z → Resampling → Image → res Image.
Variable model : ndarray → res (list (list float32)).
Variable to_device : ndarray → res ndarray.
Context {library : Softmax}.

Abbreviation predict :=
  (predict_emotion Image_open Image_convert Image_resize model to_device).

(** X13. A frame that cannot be decoded, or whose image is too large, makes
    [predict_emotion] raise the [ValueError] of preprocessing whatever the
    network and the device are: they are not reached. *)
Theorem predict_emotion_rejects_bad_frame (clk : clock) (frame : string)
    (user_id timestamp : option string) :
  ((∃ e, b64decode frame = Raise e)
   ∨ (∃ image_data e, b64decode frame = Ok image_data
                     ∧ Image_open image_data = Raise e) →
   predict clk frame user_id timestamp
   = Raise (Exn ValueError "Invalid base64 image format"))
  ∧ (∀ image_data image,
       b64decode frame = Ok image_data → Image_open image_data = Ok image →
       262144 < width image * height image →
       predict clk frame user_id timestamp
       = Raise (Exn ValueError
                  ("Image too large: " +:+ pretty (width image * height image)
                   +:+ " pixels > 262144 max"))).
Proof.
  split.
  - intros H. unfold predict_emotion, preprocess_frame, try_except, run.
    unfold mbind at 5. unfold M_bind at 1.
    rewrite decode_base64_frame_run.
    destruct H as [[e ->]|(d & e & -> & ->)]; done.
  - intros d image Hd Ho Hsz. unfold predict_emotion.
    rewrite (preprocess_frame_run _ _ _ _ _ _ Hd Ho).
    by rewrite validate_image_size_raise.
Qed.

(** X14. What a successful call returns: the label is one of the seven, colour
    and glyph are its table entries and not the fallbacks, the
    distribution has the seven labels as keys, the caller's timestamp is
    kept when it is a non-empty string and is otherwise the clock reading
    in ISO form followed by ["Z"]. *)
Theorem predict_emotion_response (clk : clock) (frame : string)
    (user_id timestamp : option string) (resp : response) :
  predict clk frame user_id timestamp = Ok resp →
  resp_emotion resp ∈ EMOTIONS
  ∧ map fst (resp_all_emotions resp) = EMOTIONS
  ∧ resp_color resp = get_emotion_color (resp_emotion resp)
  ∧ resp_color resp ≠ fallback_color
  ∧ resp_emoji resp ≠ fallback_emoji
  ∧ resp_user_id resp = user_id
  ∧ (∀ c s, timestamp = Some (String c s) → resp_timestamp resp = String c s)
  ∧ (timestamp = None ∨ timestamp = Some "" →
     resp_timestamp resp = isoformat (utcnow clk) +:+ "Z").
Proof.
  unfold predict_emotion.
  destruct (fst (run _)) as [t|]; [|done]. cbn [mbind res_bind bind].
  destruct (to_device t) as [t'|]; [|done]. cbn [mbind res_bind bind].
  destruct (model t') as [logits|]; [|done]. cbn [mbind res_bind bind].
  pose proof (postprocess_predictions_cases logits) as Hp.
  destruct (postprocess_predictions logits) as [pred|]; [|done].
  cbn [mbind res_bind bind]. intros [= <-].
  destruct Hp as (_ & He & Hk).
  cbn [resp_emotion resp_all_emotions resp_color resp_emoji resp_user_id
       resp_timestamp].
  destruct (tables_on_labels _ He) as (Hc & Hm & _).
  split; [done|]. split.
  { rewrite <- Hk, map_map. by apply map_ext. }
  repeat split; try done.
  - by intros c s ->.
  - by intros [-> | ->].
Qed.

(** X15. [batch_predict] never raises and answers frame by frame, in order: the
    item at each position is the response of [predict_emotion] for that
    frame, or the message of the exception it raised; an element without a
    ["frame"] is reported as a decoding failure. *)
Theorem batch_predict_items (frames_list : list (clock * frame_data)) :
  batch_predict Image_open Image_convert Image_resize model to_device frames_list
  = map (λ cf,
           match predict_frame Image_open Image_convert Image_resize model to_device
                   (fst cf) (snd cf) with
           | Ok resp => ItemResponse resp
           | Raise e => ItemError (exn_msg e)
           end) frames_list
  ∧ length (batch_predict Image_open Image_convert Image_resize model to_device
              frames_list) = length frames_list
  ∧ (∀ i clk fd, frames_list !! i = Some (clk, fd) → fd_frame fd = None →
       batch_predict Image_open Image_convert Image_resize model to_device
         frames_list !! i = Some (ItemError "Invalid base64 image format")).
Proof.
  assert (∀ l acc,
    batch_predict_loop Image_open Image_convert Image_resize model to_device l acc
    = acc ++ map (λ cf,
           match predict_frame Image_open Image_convert Image_resize model to_device
                   (fst cf) (snd cf) with
           | Ok resp => ItemResponse resp
           | Raise e => ItemError (exn_msg e)
           end) l) as Hloop.
  { induction l as [|[clk fd] l IH]; intros acc; cbn [batch_predict_loop map fst snd].
    - by rewrite app_nil_r.
    - rewrite IH. destruct (predict_frame _ _ _ _ _ clk fd);
        by rewrite <- app_assoc. }
  assert (batch_predict Image_open Image_convert Image_resize model to_device frames_list
          = map (λ cf,
           match predict_frame Image_open Image_convert Image_resize model to_device
                   (fst cf) (snd cf) with
           | Ok resp => ItemResponse resp
           | Raise e => ItemError (exn_msg e)
           end) frames_list) as Heq by apply Hloop.
  split; [done|]. rewrite Heq. split; [by rewrite length_map|].
  intros i clk fd Hi Hf. rewrite list_lookup_fmap, Hi. cbn.
  unfold predict_frame. by rewrite Hf.
Qed.

(** X16. Failures of [preprocess_frame]: while decoding they come back as the
    one [ValueError] of [decode_base64_frame], with nothing called after
    the step that failed; an exception raised later by the grayscale
    conversion or the resize comes back as it is. *)
Theorem preprocess_frame_failures (frame : string) :
  ((∃ e, b64decode frame = Raise e) →
   run (preprocess_frame Image_open Image_convert Image_resize frame)
   = (Raise (Exn ValueError "Invalid base64 image format"), [CallB64decode]))
  ∧ (∀ image_data e,
       b64decode frame = Ok image_data → Image_open image_data = Raise e →
       run (preprocess_frame Image_open Image_convert Image_resize frame)
       = (Raise (Exn ValueError "Invalid base64 image format"),
          [CallB64decode; CallImageOpen]))
  ∧ (∀ image_data image e,
       b64decode frame = Ok image_data → Image_open image_data = Ok image →
       width image * height image ≤ 262144 →
       mode image ≠ "L" → Image_convert "L" image = Raise e →
       run (preprocess_frame Image_open Image_convert Image_resize frame)
       = (Raise e, [CallB64decode; CallImageOpen; CallConvert "L"]))
  ∧ (∀ image_data image gray e,
       b64decode frame = Ok image_data → Image_open image_data = Ok image →
       width image * height image ≤ 262144 →
       step_grayscale Image_convert image = Ok gray →
       Image_resize (48, 48) LANCZOS gray = Raise e →
       fst (run (preprocess_frame Image_open Image_convert Image_resize frame))
       = Raise e).
Proof.
  split; [|split; [|split]].
  - intros [e He]. unfold preprocess_frame, try_except, run.
    unfold mbind at 1. unfold M_bind at 1.
    rewrite decode_base64_frame_run, He. done.
  - intros d e Hd Ho. unfold preprocess_frame, try_except, run.
    unfold mbind at 1. unfold M_bind at 1.
    rewrite decode_base64_frame_run, Hd, Ho. done.
  - intros d image e Hd Ho Hsz HL Hc.
    rewrite (preprocess_frame_run _ _ _ _ _ _ Hd Ho), validate_image_size_ok by done.
    unfold step_grayscale. rewrite bool_decide_eq_false_2 by done. by rewrite Hc.
  - intros d image gray e Hd Ho Hsz Hg Hr.
    rewrite (preprocess_frame_run _ _ _ _ _ _ Hd Ho), validate_image_size_ok by done.
    by rewrite Hg, Hr.
Qed.

End InferenceExtras.

Section TimestampExtras.
Import Datetime Storage StorageSpec StorageGlobal Inference.
Context {parser : IsoParser}.

(** X17. Whatever the clock reading, and for every [fromisoformat] that reads
    what [isoformat] writes: a prediction that carries the timestamp the
    backend writes for the reading, [utcnow().isoformat() + "Z"], cannot be
    read back once stored: every query of that user is empty and the
    statistics are the zeroed ones. *)
Theorem utc_stamp_never_read_back (stamp now_store now_query : datetime)
    (st : state) (u : string) (p : gmap string pyval) (limit hours : Z) :
  reads_isoformat →
  valid_fields stamp = true → tzinfo stamp = None →
  p !! "timestamp" = Some (VStr (isoformat stamp +:+ "Z")) →
  get_predictions now_query (store_prediction now_store st u p) u limit hours = []
  ∧ fst (get_emotion_stats now_query (store_prediction now_store st u p) u hours)
    = zero_stats u.
Proof.
  intros Hiso Hv Htz Hp.
  assert (∀ lim, get_predictions now_query (store_prediction now_store st u p)
                   u lim hours = []) as Hq.
  { intros lim.
    eapply (get_after_store_aware _ _ _ _ _ _ _ _ (as_utc stamp) 0);
      [exact Hp| |done].
    rewrite replace_Z_utc_stamp. by apply Hiso. }
  split; [apply Hq|]. unfold get_emotion_stats. by rewrite Hq.
Qed.

Variable Image_open : list byte → res Preprocessing.Image.
Variable Image_convert : string → Preprocessing.Image → res Preprocessing.Image.
Variable Image_resize :
  Z * Z → Preprocessing.Resampling → Preprocessing.Image → res Preprocessing.Image.
Variable model : Preprocessing.ndarray → res (list (list float32)).
Variable to_device : Preprocessing.ndarray → res Preprocessing.ndarray.
Context {library : Postprocessing.Softmax}.

(** X18. End to end, for every [fromisoformat] that reads what [isoformat]
    writes: the response of [predict_emotion] for a request without
    timestamp, stored under its own ["timestamp"], is never returned by a
    later query. *)
Theorem predicted_entry_never_read_back (clk : clock) (frame : string)
    (user_id timestamp : option string) (resp : response)
    (now_store now_query : datetime) (st : state) (u : string)
    (p : gmap string pyval) (limit hours : Z) :
  reads_isoformat →
  predict_emotion Image_open Image_convert Image_resize model to_device
    clk frame user_id timestamp = Ok resp →
  timestamp = None ∨ timestamp = Some "" →
  valid_fields (utcnow clk) = true → tzinfo (utcnow clk) = None →
  p !! "timestamp" = Some (VStr (resp_timestamp resp)) →
  get_predictions now_query (store_prediction now_store st u p) u limit hours = [].
Proof.
  intros Hiso Hresp Hts Hv Htz Hp.
  assert (resp_timestamp resp = isoformat (utcnow clk) +:+ "Z") as Hstamp.
  { unfold predict_emotion in Hresp.
    destruct (fst (Preprocessing.run _)) as [t|]; [|done]. cbn in Hresp.
    destruct (to_device t) as [t'|]; [|done]. cbn in Hresp.
    destruct (model t') as [logits|]; [|done]. cbn in Hresp.
    destruct (Postprocessing.postprocess_predictions logits); [|done].
    cbn in Hresp. injection Hresp as <-. cbn [resp_timestamp].
    by destruct Hts as [-> | ->]. }
  rewrite Hstamp in Hp.
  eapply (get_after_store_aware _ _ _ _ _ _ _ _ (as_utc (utcnow clk)) 0);
    [exact Hp| |done].
  rewrite replace_Z_utc_stamp. by apply Hiso.
Qed.

End TimestampExtras.

Section StorageExtrasWitnesses.
Import Datetime Storage StorageSpec StorageGlobal.
#[local] Existing Instance py37_parser.

(** Witness of [other_users_unaffected]: a second user stores and clears. *)
Lemma other_users_unaffected_witness :
  let st := store_prediction sample_now empty_state "user_123" sample_prediction_naive in
  "user_456" ≠ "user_123"
  ∧ get_predictions sample_now
      (store_prediction sample_now st "user_456" sample_prediction_naive)
      "user_123" 100 24
    = get_predictions sample_now st "user_123" 100 24
  ∧ get_predictions sample_now (snd (clear_predictions st "user_456")) "user_123" 100 24
    = get_predictions sample_now st "user_123" 100 24.
Proof.
  intros st.
  assert ("user_456" ≠ "user_123") as Hne by discriminate.
  split; [exact Hne|].
  destruct (other_users_unaffected sample_now sample_now st "user_456" "user_123"
              sample_prediction_naive 100 24 Hne) as (H1 & _ & H2 & _).
  split; [exact H1|exact H2].
Defined.

(** Witness of [one_entry_hides_history]: a null timestamp after a regular
    entry. *)
Lemma one_entry_hides_history_witness :
  let st := set_user empty_state "user_123"
              [sample_prediction_naive; sample_prediction_null_timestamp] in
  breaks_query sample_prediction_null_timestamp = true
  ∧ get_predictions sample_now st "user_123" 100 24 = []
  ∧ get_emotion_stats sample_now st "user_123" 24 = (zero_stats "user_123", st).
Proof.
  intros st. split; [reflexivity|].
  apply (one_entry_hides_history sample_now st "user_123" [sample_prediction_naive] []
           sample_prediction_null_timestamp 100 24).
  - reflexivity.
  - reflexivity.
Defined.

(** Witness of [get_predictions_window_monotone]: one hour against a day. *)
Lemma get_predictions_window_monotone_witness :
  let st := set_user empty_state "user_123" [sample_prediction_naive] in
  get_predictions sample_now st "user_123" 0 1
    `sublist_of` get_predictions sample_now st "user_123" 0 24.
Proof.
  intros st.
  assert (1 ≤ 24) as Hh by lia.
  pose proof (get_predictions_window_monotone sample_now st "user_123" 1 24 Hh) as H.
  destruct (sub_hours sample_now 24) as [c|e] eqn:Hc in H; [exact H|].
  vm_compute in Hc. discriminate Hc.
Defined.

(** Witness of [get_all_stats_consistent]: one user with two entries. *)
Lemma get_all_stats_consistent_witness :
  let st := set_user empty_state "user_123"
              [sample_prediction_naive; sample_prediction_no_timestamp] in
  total_users (get_all_stats st) = 1
  ∧ total_predictions (get_all_stats st) = 2
  ∧ sum_counts (emotion_distribution (get_all_stats st)) = 2.
Proof.
  intros st.
  destruct (get_all_stats_consistent st) as (H1 & H2 & H3).
  - intros u l p Hl Hp. unfold st, set_user in Hl. cbn in Hl.
    apply lookup_insert_Some in Hl as [[_ <-]|[_ Hl]]; [|by rewrite lookup_empty in Hl].
    apply elem_of_cons in Hp as [->|Hp]; [reflexivity|].
    apply elem_of_cons in Hp as [->|Hp]; [reflexivity|].
    by apply elem_of_nil in Hp.
  - split; [exact H1|]. split; [exact H2|]. rewrite H3. exact H2.
Defined.

(** Witness of [get_all_stats_unhashable_label]: a list as label. *)
Lemma get_all_stats_unhashable_label_witness :
  let st := set_user (set_user empty_state "user_123" [sample_prediction_naive])
              "user_456" [sample_prediction_list_label] in
  hashable (label_of sample_prediction_list_label) = false
  ∧ get_all_stats st = zero_all_stats.
Proof.
  intros st. split; [reflexivity|].
  apply (get_all_stats_unhashable_label st "user_456" [sample_prediction_list_label]
           sample_prediction_list_label).
  - reflexivity.
  - apply elem_of_cons. by left.
  - reflexivity.
Defined.

(** Witness of [utc_stamp_never_read_back]: the clock reading of the
    sample, stored and queried at that very time. *)
Lemma utc_stamp_never_read_back_witness :
  let p := sample_prediction_at (isoformat sample_now +:+ "Z") in
  p !! "timestamp" = Some (VStr "2025-10-18T12:35:00Z")
  ∧ get_predictions sample_now (store_prediction sample_now empty_state "user_123" p)
      "user_123" 100 24 = [].
Proof.
  intros p. split; [vm_compute; reflexivity|].
  apply (utc_stamp_never_read_back sample_now sample_now sample_now empty_state
           "user_123" p 100 24).
  - exact py37_reads_isoformat.
  - reflexivity.
  - reflexivity.
  - vm_compute. reflexivity.
Defined.

End StorageExtrasWitnesses.

Section InferenceExtrasWitnesses.
Import Config Base64 Preprocessing Postprocessing Presentation Inference.
Import Datetime Storage StorageSpec.
#[local] Existing Instance py37_parser.
#[local] Existing Instance ref_softmax.

Abbreviation raw_predict model :=
  (predict_emotion RawCodec.Image_open RawCodec.Image_convert RawCodec.Image_resize
     model Ok).

(** Witness of [validate_confidence_monotone]: the threshold and 1. *)
Lemma validate_confidence_monotone_witness :
  validate_confidence (CONFIDENCE_THRESHOLD settings) = true
  ∧ validate_confidence (f64_of_Z 1) = true.
Proof.
  assert (validate_confidence (CONFIDENCE_THRESHOLD settings) = true) as H
    by (vm_compute; reflexivity).
  split; [exact H|].
  apply (validate_confidence_monotone (CONFIDENCE_THRESHOLD settings) (f64_of_Z 1) H).
  vm_compute. reflexivity.
Defined.

Lemma ref_softmax_length (row : list float32) :
  length (RefSoftmax.softmax row) = length row.
Proof.
  unfold RefSoftmax.softmax. destruct row as [|x rest]; [done|].
  cbv zeta. destruct (_ || _); by rewrite length_map.
Qed.

(** Witness of [postprocess_predictions_outcomes]: seven equal scores. *)
Lemma postprocess_predictions_outcomes_witness :
  ∃ pred, postprocess_predictions [zero_row] = Ok pred
        ∧ emotion pred ∈ EMOTIONS
        ∧ map fst (all_emotions pred) = EMOTIONS.
Proof.
  pose proof (postprocess_predictions_outcomes [zero_row] ref_softmax_length) as H.
  destruct (postprocess_predictions [zero_row]) as [pred|e] eqn:Hp.
  - exists pred. destruct H as (_ & He & Hk). split; [reflexivity|]. split; [exact He|exact Hk].
  - vm_compute in Hp. discriminate Hp.
Defined.

(** The sample frame through a network that answers seven equal scores. *)
Lemma raw_predict_flat_model user_id timestamp :
  ∃ resp, raw_predict flat_model sample_clock RawCodec.frame_2x1 user_id timestamp
          = Ok resp.
Proof.
  unfold predict_emotion.
  destruct (fst (run (preprocess_frame RawCodec.Image_open RawCodec.Image_convert
                        RawCodec.Image_resize RawCodec.frame_2x1))) as [t|e] eqn:Ht.
  2:{ vm_compute in Ht. discriminate Ht. }
  cbn [mbind res_bind bind]. unfold flat_model at 1. cbn [mbind res_bind bind].
  destruct (postprocess_predictions [zero_row]) as [pred|e] eqn:Hp.
  2:{ vm_compute in Hp. discriminate Hp. }
  cbn [mbind res_bind bind]. eauto.
Qed.

(** Witness of [predict_emotion_response]: the sample frame, no timestamp. *)
Lemma predict_emotion_response_witness :
  ∃ resp, raw_predict flat_model sample_clock RawCodec.frame_2x1
            (Some "user_123") None = Ok resp
        ∧ resp_emotion resp ∈ EMOTIONS
        ∧ resp_user_id resp = Some "user_123"
        ∧ resp_timestamp resp = "2025-10-18T12:35:00Z".
Proof.
  destruct (raw_predict_flat_model (Some "user_123") None) as [resp Hresp].
  exists resp. split; [exact Hresp|].
  destruct (predict_emotion_response RawCodec.Image_open RawCodec.Image_convert
              RawCodec.Image_resize flat_model Ok sample_clock RawCodec.frame_2x1
              (Some "user_123") None resp Hresp)
    as (He & _ & _ & _ & _ & Hu & _ & Hts).
  split; [exact He|]. split; [exact Hu|].
  rewrite Hts by (left; reflexivity). vm_compute. reflexivity.
Defined.

(** Witness of [predict_emotion_rejects_bad_frame]: a text that is not
    base64, bytes that are no image, and an image over the size cap. *)
Lemma predict_emotion_rejects_bad_frame_witness :
  raw_predict flat_model sample_clock RawCodec.frame_bad_base64 None None
  = Raise (Exn ValueError "Invalid base64 image format")
  ∧ raw_predict flat_model sample_clock RawCodec.frame_not_an_image None None
    = Raise (Exn ValueError "Invalid base64 image format")
  ∧ raw_predict flat_model sample_clock RawCodec.frame_oversize None None
    = Raise (Exn ValueError "Image too large: 262145 pixels > 262144 max").
Proof.
  split; [|split].
  - apply (predict_emotion_rejects_bad_frame RawCodec.Image_open RawCodec.Image_convert
             RawCodec.Image_resize flat_model Ok sample_clock RawCodec.frame_bad_base64).
    left. eexists. vm_compute. reflexivity.
  - apply (predict_emotion_rejects_bad_frame RawCodec.Image_open RawCodec.Image_convert
             RawCodec.Image_resize flat_model Ok sample_clock RawCodec.frame_not_an_image).
    right. eexists _, _. split; vm_compute; reflexivity.
  - destruct (predict_emotion_rejects_bad_frame RawCodec.Image_open
                RawCodec.Image_convert RawCodec.Image_resize flat_model Ok sample_clock
                RawCodec.frame_oversize None None) as [_ H].
    apply (H [xcc; xcd; x00; x05; x00]
             {| mode := "L"; width := 52429; height := 5; data := [] |}).
    + vm_compute. reflexivity.
    + vm_compute. reflexivity.
    + vm_compute. reflexivity.
Defined.

(** Witness of [preprocess_frame_failures]: the two decoding failures. *)
Lemma preprocess_frame_failures_witness :
  run (preprocess_frame RawCodec.Image_open RawCodec.Image_convert
         RawCodec.Image_resize RawCodec.frame_bad_base64)
  = (Raise (Exn ValueError "Invalid base64 image format"), [CallB64decode])
  ∧ run (preprocess_frame RawCodec.Image_open RawCodec.Image_convert
           RawCodec.Image_resize RawCodec.frame_not_an_image)
    = (Raise (Exn ValueError "Invalid base64 image format"),
       [CallB64decode; CallImageOpen]).
Proof.
  split.
  - apply (preprocess_frame_failures RawCodec.Image_open RawCodec.Image_convert
             RawCodec.Image_resize RawCodec.frame_bad_base64).
    eexists. vm_compute. reflexivity.
  - eapply (preprocess_frame_failures RawCodec.Image_open RawCodec.Image_convert
              RawCodec.Image_resize RawCodec.frame_not_an_image).
    + vm_compute. reflexivity.
    + vm_compute. reflexivity.
Defined.

(** Witness of [predicted_entry_never_read_back]: the response for the
    sample frame, stored with its own timestamp. *)
Lemma predicted_entry_never_read_back_witness :
  ∃ resp, raw_predict flat_model sample_clock RawCodec.frame_2x1
            (Some "user_123") None = Ok resp
        ∧ get_predictions sample_now
            (store_prediction sample_now empty_state "user_123"
               (<["timestamp" := VStr (resp_timestamp resp)]> ∅))
            "user_123" 100 24 = [].
Proof.
  destruct (raw_predict_flat_model (Some "user_123") None) as [resp Hresp].
  exists resp. split; [exact Hresp|].
  apply (predicted_entry_never_read_back RawCodec.Image_open RawCodec.Image_convert
           RawCodec.Image_resize flat_model Ok sample_clock RawCodec.frame_2x1
           (Some "user_123") None resp sample_now sample_now empty_state "user_123"
           _ 100 24 py37_reads_isoformat Hresp).
  - left. reflexivity.
  - reflexivity.
  - reflexivity.
  - apply lookup_insert_eq.
Defined.

End InferenceExtrasWitnesses.

Section RouterExtras.
Import Datetime DatetimeArith Storage StorageSpec StorageGlobal Http.
Context {parser : IsoParser}.

(** *** The clock arithmetic of the endpoints *)

Lemma days_before_month_nonneg y m : 0 ≤ days_before_month y m.
Proof.
  unfold days_before_month.
  induction (map Z.of_nat (seq 1 (Z.to_nat (m - 1)))) as [|k l IH]; cbn; [lia|].
  assert (28 ≤ days_in_month y k).
  { unfold days_in_month.
    destruct (k =? 2); [destruct (is_leap y); lia|]. destruct (_ || _); lia. }
  lia.
Qed.

Lemma days_before_month_day y m d :
  1 ≤ m ≤ 12 → 1 ≤ d ≤ days_in_month y m →
  days_before_month y m + d ≤ (if is_leap y then 366 else 365).
Proof.
  intros Hm Hd.
  assert (m = 1 ∨ m = 2 ∨ m = 3 ∨ m = 4 ∨ m = 5 ∨ m = 6 ∨ m = 7 ∨ m = 8 ∨ m = 9
          ∨ m = 10 ∨ m = 11 ∨ m = 12) as Hcases by lia.
  unfold days_before_month.
  repeat (destruct Hcases as [->|Hcases]); try subst m;
    unfold days_in_month in Hd |- *; cbn in Hd;
    destruct (is_leap y);
    match goal with |- ?s + d ≤ _ => let v := eval vm_compute in s in change s with v end;
    lia.
Qed.

Lemma to_micros_bounds (d : datetime) :
  valid_fields d = true →
  (days_before_year (year d)) * 86400000000 ≤ to_micros d ≤ max_micros.
Proof.
  intros Hv. unfold valid_fields in Hv.
  repeat (apply andb_prop in Hv as [Hv ?]).
  repeat match goal with H : (_ <=? _) = true |- _ => apply Z.leb_le in H end.
  pose proof (days_before_month_nonneg (year d) (month d)).
  pose proof (days_before_month_day (year d) (month d) (day d)).
  assert (days_before_year (year d) + days_before_month (year d) (month d) + day d
          ≤ 3652059) as Hord.
  { destruct (decide (year d = 9999)) as [Hy|Hy].
    - rewrite Hy in *. change (is_leap 9999) with false in *.
      change (days_before_year 9999) with 3651694. lia.
    - assert (days_before_year (year d) ≤ 3651400).
      { unfold days_before_year. cbv zeta. Z.div_mod_to_equations. lia. }
      destruct (is_leap (year d)); lia. }
  unfold to_micros, toordinal, max_micros. lia.
Qed.

(** A look-back within the validated range can be computed at every clock
    reading from year 2 on. *)
Lemma sub_hours_ok (now : datetime) (hours : Z) :
  valid_fields now = true → 2 ≤ year now → 0 ≤ hours ≤ 168 →
  ∃ c, sub_hours now hours = Ok c.
Proof.
  intros Hv Hy Hh. unfold sub_hours.
  pose proof (to_micros_bounds now Hv).
  assert (365 ≤ days_before_year (year now)).
  { unfold days_before_year. cbv zeta. Z.div_mod_to_equations. lia. }
  destruct (Z.gtb_spec (Z.abs (hours / 24)) 999999999) as [Hgt|_].
  { exfalso. Z.div_mod_to_equations. lia. }
  destruct (Z.ltb_spec (to_micros now - hours * 3600 * 1000000) 0); [lia|].
  destruct (Z.ltb_spec max_micros (to_micros now - hours * 3600 * 1000000)); [lia|].
  cbn. eauto.
Qed.

Lemma history_response_ok predictions u hours now_start now_end :
  valid_fields now_start = true → 2 ≤ year now_start → 0 ≤ hours ≤ 168 →
  ∃ start,
    history_response predictions u hours now_start now_end
    = Ok {| hr_predictions := predictions;
            hr_total := Z.of_nat (length predictions);
            hr_user_id := u;
            hr_start_time := start;
            hr_end_time := isoformat now_end +:+ "Z" |}.
Proof.
  intros Hv Hy Hh. unfold history_response, minus_hours.
  destruct (sub_hours_ok now_start hours Hv Hy Hh) as [c ->]. cbn. eauto.
Qed.

(** *** [app/routes/health.py] *)

Lemma raises_in_window_raise c p :
  HealthRouter.raises_in_window p = true → ∃ e, entry_in_window c p = Raise e.
Proof.
  unfold HealthRouter.raises_in_window, entry_in_window.
  destruct (p !! "timestamp") as [[| | |s|]|]; cbn; eauto.
  destruct (fromisoformat _) as [d|]; cbn; [|by eauto].
  unfold gt_naive. destruct (tzinfo d); cbn; [by eauto|done].
Qed.

Lemma raises_in_window_ok c p :
  HealthRouter.raises_in_window p = false → ∃ b, entry_in_window c p = Ok b.
Proof.
  unfold HealthRouter.raises_in_window, entry_in_window.
  destruct (p !! "timestamp") as [[| | |s|]|]; cbn; try done.
  destruct (fromisoformat _) as [d|]; cbn; [|done].
  unfold gt_naive. destruct (tzinfo d); cbn; [done|by eauto].
Qed.

Lemma comprehension_raise c l1 p l2 :
  HealthRouter.raises_in_window p = true →
  ∃ e, HealthRouter.comprehension c (l1 ++ p :: l2) = Raise e.
Proof.
  intros Hp. induction l1 as [|q l1 [e IH]]; cbn [app HealthRouter.comprehension].
  - destruct (raises_in_window_raise c p Hp) as [e ->]. cbn. eauto.
  - destruct (entry_in_window c q); cbn; [|by eauto]. rewrite IH. cbn. eauto.
Qed.

Lemma comprehension_ok c l :
  Forall (λ p, HealthRouter.raises_in_window p = false) l →
  ∃ f, HealthRouter.comprehension c l = Ok f ∧ f `sublist_of` l.
Proof.
  induction 1 as [|p l Hp _ (f & IH & Hsub)]; cbn [HealthRouter.comprehension].
  - exists []. done.
  - destruct (raises_in_window_ok c p Hp) as [b ->]. cbn. rewrite IH. cbn.
    destruct b; eexists; (split; [done|]).
    + by apply sublist_skip.
    + by apply sublist_cons.
Qed.

(** X19. One stored entry without a usable timestamp (none, not a string, not in
    ISO form, or with a UTC offset such as a ["Z"] suffix) makes both
    endpoints of this router answer 500 for its user, whatever else is
    stored and whatever [limit] and [hours] are. *)
Theorem health_router_fails_on_one_entry (clk : HealthRouter.clocks) (now : datetime)
    (st : HealthRouter.store) (u : string) (l1 l2 : list (gmap string pyval))
    (p : gmap string pyval) (limit hours : Z) :
  st !! u = Some (l1 ++ p :: l2) →
  HealthRouter.raises_in_window p = true →
  HealthRouter.get_emotion_history clk st u limit hours
  = Fail (HTTPException 500 "Error retrieving prediction history")
  ∧ HealthRouter.get_emotion_stats now st u hours
    = Fail (HTTPException 500 "Error calculating emotion statistics").
Proof.
  intros Hst Hp.
  assert (∀ now' lim, ∃ e, HealthRouter.get_predictions now' st u lim hours = Raise e)
    as Hq.
  { intros now' lim. unfold HealthRouter.get_predictions. rewrite Hst.
    destruct (sub_hours now' hours) as [c|e]; cbn; [|by eauto].
    destruct (comprehension_raise c l1 p l2 Hp) as [e ->]. cbn. eauto. }
  split.
  - unfold HealthRouter.get_emotion_history.
    destruct (Hq (HealthRouter.now_query clk) limit) as [e ->]. done.
  - unfold HealthRouter.get_emotion_stats.
    destruct (Hq now 10000) as [e ->]. done.
Qed.

(** X20. When every entry stored for the user has a timestamp in ISO form
    without UTC offset, the history endpoint answers, for a look-back in
    the validated range and clock readings from year 2 on: the predictions
    are entries of the user's list in stored order, [total] is their
    number, at most [limit] when [limit] is positive, and an unknown user
    gets an empty history. *)
Theorem health_router_history_ok (clk : HealthRouter.clocks)
    (st : HealthRouter.store) (u : string) (limit hours : Z) :
  valid_fields (HealthRouter.now_query clk) = true →
  2 ≤ year (HealthRouter.now_query clk) →
  valid_fields (HealthRouter.now_start clk) = true →
  2 ≤ year (HealthRouter.now_start clk) →
  0 ≤ hours ≤ 168 →
  Forall (λ p, HealthRouter.raises_in_window p = false) (default [] (st !! u)) →
  ∃ r, HealthRouter.get_emotion_history clk st u limit hours = Respond r
     ∧ hr_predictions r `sublist_of` default [] (st !! u)
     ∧ hr_total r = Z.of_nat (length (hr_predictions r))
     ∧ (0 < limit → hr_total r ≤ limit)
     ∧ hr_user_id r = u
     ∧ hr_end_time r = isoformat (HealthRouter.now_end clk) +:+ "Z".
Proof.
  intros Hvq Hyq Hvs Hys Hh Hall.
  assert (∃ preds, HealthRouter.get_predictions (HealthRouter.now_query clk) st u
                     limit hours = Ok preds
                   ∧ preds `sublist_of` default [] (st !! u)
                   ∧ (0 < limit → Z.of_nat (length preds) ≤ limit))
    as (preds & Hq & Hsub & Hlim).
  { unfold HealthRouter.get_predictions.
    destruct (st !! u) as [l|]; cbn in Hall |- *.
    2:{ exists []. split; [done|]. split; [done|]. cbn. lia. }
    destruct (sub_hours_ok _ hours Hvq Hyq Hh) as [c ->]. cbn.
    destruct (comprehension_ok c l Hall) as (f & -> & Hsub). cbn.
    eexists. split; [done|]. split.
    - etrans; [apply slice_from_sublist|done].
    - apply slice_from_neg_length. }
  unfold HealthRouter.get_emotion_history. rewrite Hq. cbn.
  destruct (history_response_ok preds u hours _ (HealthRouter.now_end clk) Hvs Hys Hh)
    as [start ->].
  cbn. eexists. split; [done|]. cbn. auto.
Qed.

Lemma health_accumulate_ok preds counts tc counts' tc' :
  HealthRouter.accumulate preds counts tc = Ok (counts', tc') →
  sum_counts counts' = sum_counts counts + Z.of_nat (length preds)
  ∧ Forall (λ p, is_Some (p !! "emotion") ∧ is_Some (p !! "confidence")) preds.
Proof.
  revert counts tc. induction preds as [|p preds IH]; intros counts tc; cbn.
  { intros [= <- <-]. split; [lia|done]. }
  destruct (p !! "emotion") as [e|] eqn:He; cbn; [|done].
  destruct (hashable e); cbn; [|done].
  destruct (p !! "confidence") as [v|] eqn:Hv; cbn; [|done].
  destruct (HealthRouter.number_add tc v) as [tc1|]; cbn; [|done].
  intros [Hs Hk]%IH. rewrite sum_counts_incr in Hs. split; [lia|].
  constructor; [|done]. rewrite He, Hv. split; eauto.
Qed.

(** X21. What the statistics endpoint of this router answers when it answers:
    at most 10000 entries are counted, each of them has an ["emotion"] and
    a ["confidence"], the counts add up to [total_predictions], and with at
    least one entry the average is a float and [dominant_emotion] is the
    first label of [emotion_counts] whose count is the greatest. *)
Theorem health_router_stats_consistent (now : datetime) (st : HealthRouter.store)
    (u : string) (hours : Z) (r : HealthRouter.stats_reply) :
  HealthRouter.get_emotion_stats now st u hours = Respond r →
  ∃ preds, HealthRouter.get_predictions now st u 10000 hours = Ok preds
    ∧ HealthRouter.sr_total_predictions r = Z.of_nat (length preds)
    ∧ HealthRouter.sr_total_predictions r ≤ 10000
    ∧ Forall (λ p, is_Some (p !! "emotion") ∧ is_Some (p !! "confidence")) preds
    ∧ sum_counts (HealthRouter.sr_emotion_counts r)
      = HealthRouter.sr_total_predictions r
    ∧ (preds = [] → r = HealthRouter.zero_stats_reply u)
    ∧ (preds ≠ [] →
       (∃ f, HealthRouter.sr_average_confidence r = HealthRouter.NFloat f)
       ∧ ∃ i c, HealthRouter.sr_emotion_counts r !! i
                = Some (HealthRouter.sr_dominant_emotion r, c)
              ∧ ∀ j k' c', HealthRouter.sr_emotion_counts r !! j = Some (k', c') →
                  c' ≤ c ∧ ((j < i)%nat → c' < c)).
Proof.
  unfold HealthRouter.get_emotion_stats.
  destruct (HealthRouter.get_predictions now st u 10000 hours) as [preds|e] eqn:Hq;
    [|done].
  assert (Z.of_nat (length preds) ≤ 10000) as Hlen.
  { unfold HealthRouter.get_predictions in Hq.
    destruct (st !! u); [|injection Hq as <-; cbn; lia].
    destruct (sub_hours now hours); cbn in Hq; [|done].
    destruct (HealthRouter.comprehension _ _); cbn in Hq; [|done].
    injection Hq as <-. by apply slice_from_neg_length. }
  cbn [mbind res_bind bind].
  destruct preds as [|p rest].
  { cbn. intros [= <-]. exists []. cbn. repeat split; done. }
  destruct (HealthRouter.accumulate (p :: rest) [] (HealthRouter.NInt 0))
    as [[counts tc]|e] eqn:Hacc; [|done].
  destruct (health_accumulate_ok _ _ _ _ _ Hacc) as [Hs Hk].
  cbn [mbind res_bind bind].
  destruct counts as [|it items]; [cbn in Hs; lia|].
  cbn [mbind res_bind bind].
  destruct (HealthRouter.number_div tc _) as [avg|e]; [|done].
  cbn. intros [= <-]. exists (p :: rest).
  cbn [HealthRouter.sr_total_predictions HealthRouter.sr_emotion_counts
       HealthRouter.sr_dominant_emotion HealthRouter.sr_average_confidence].
  split; [done|]. split; [done|]. split; [done|]. split; [done|].
  split; [rewrite Hs; cbn; lia|]. split; [done|]. intros _.
  split; [by eauto|].
  apply (dominant_of_first (it :: items)). done.
Qed.

Lemma health_store_prediction_lookup st u u' p :
  default [] (HealthRouter.store_prediction st u p !! u')
  = default [] (st !! u') ++ (if decide (u = u') then [p] else []).
Proof.
  unfold HealthRouter.store_prediction, HealthRouter.store in *. cbv zeta.
  destruct (decide (u = u')) as [<-|Hne].
  - rewrite lookup_insert_eq. destruct (st !! u) as [l|] eqn:E; cbn.
    + by rewrite E.
    + by rewrite lookup_insert_eq.
  - rewrite lookup_insert_ne by done. rewrite app_nil_r.
    destruct (st !! u); [done|]. by rewrite lookup_insert_ne.
Qed.

(** X22. This router's store keeps whatever it is given: after any sequence of
    [store_prediction] calls a user's list is the earlier list followed by
    every prediction stored for that user, unchanged and in call order,
    however many there are. *)
Theorem health_router_store_keeps_all (st : HealthRouter.store)
    (calls : list (string * gmap string pyval)) (u : string) :
  default [] (HealthRouter.run_stores st calls !! u)
  = default [] (st !! u) ++ HealthRouter.entries_for u calls.
Proof.
  revert st. unfold HealthRouter.run_stores, HealthRouter.entries_for.
  induction calls as [|[u0 p] calls IH]; intros st; cbn [fold_left].
  { by rewrite app_nil_r. }
  rewrite IH, health_store_prediction_lookup. cbn [fst snd].
  rewrite filter_cons. cbn [fst]. rewrite <- app_assoc.
  destruct (decide (u0 = u)); done.
Qed.

(** X23. [clear_history] of this router always answers; afterwards the user is
    unknown, so both queries come back empty at any clock reading and for
    any [hours], and the other users keep their lists. *)
Theorem health_router_clear_history (now : datetime) (st : HealthRouter.store)
    (u : string) (limit hours : Z) :
  let st' := snd (HealthRouter.clear_history st u) in
  fst (HealthRouter.clear_history st u) = Respond ("History cleared for user " +:+ u)
  ∧ HealthRouter.get_predictions now st' u limit hours = Ok []
  ∧ HealthRouter.get_emotion_stats now st' u hours
    = Respond (HealthRouter.zero_stats_reply u)
  ∧ ∀ u', u' ≠ u → st' !! u' = st !! u'.
Proof.
  cbn. unfold HealthRouter.store in *.
  assert (∀ lim, HealthRouter.get_predictions now (delete u st) u lim hours = Ok [])
    as Hq.
  { intros lim. unfold HealthRouter.get_predictions, HealthRouter.store.
    by rewrite lookup_delete_eq. }
  split; [done|]. split; [apply Hq|]. split.
  - unfold HealthRouter.get_emotion_stats. by rewrite Hq.
  - intros u' Hne. by rewrite lookup_delete_ne.
Qed.

(** *** [app/routes/history.py] *)

(** X24. The endpoints over the storage service cannot answer 500 for a
    look-back in the validated range and a clock reading from year 2 on,
    whatever is stored: the history is what [get_predictions] returns, with
    [total] its length, and statistics, clearing and global statistics
    always answer. *)
Theorem history_router_never_fails (clk : HealthRouter.clocks) (st : state)
    (u : string) (limit hours : Z) :
  valid_fields (HealthRouter.now_start clk) = true →
  2 ≤ year (HealthRouter.now_start clk) →
  0 ≤ hours ≤ 168 →
  (∃ r, HistoryRouter.get_emotion_history clk st u limit hours = Respond r
      ∧ hr_predictions r
        = Storage.get_predictions (HealthRouter.now_query clk) st u limit hours
      ∧ hr_total r = Z.of_nat (length (hr_predictions r))
      ∧ (0 < limit → hr_total r ≤ limit))
  ∧ fst (HistoryRouter.get_emotion_stats (HealthRouter.now_query clk) st u hours)
    = Respond (fst (Storage.get_emotion_stats (HealthRouter.now_query clk) st u hours))
  ∧ fst (HistoryRouter.clear_history st u)
    = Respond ("History cleared for user " +:+ u)
  ∧ HistoryRouter.get_global_stats st = Respond (get_all_stats st).
Proof.
  intros Hv Hy Hh. split; [|split; [|split]].
  - unfold HistoryRouter.get_emotion_history.
    destruct (history_response_ok
                (Storage.get_predictions (HealthRouter.now_query clk) st u limit hours)
                u hours _ (HealthRouter.now_end clk) Hv Hy Hh) as [start ->].
    cbn. eexists. split; [done|]. cbn. split; [done|]. split; [done|].
    intros Hl. unfold Storage.get_predictions.
    destruct (predictions_store st !! u); [|cbn; lia].
    destruct (sub_hours _ _); cbn; [|lia].
    destruct (filter_window _ _ _); cbn; [|lia].
    by apply slice_from_neg_length.
  - unfold HistoryRouter.get_emotion_stats.
    by destruct (Storage.get_emotion_stats _ _ _ _).
  - done.
  - done.
Qed.

(** X25. [import_data] never answers 400: when the storage service reports a
    failure, the [HTTPException] with status 400 and detail
    ["Invalid JSON format"] is caught by the handler of the same [try], and
    the client gets 500 with ["Error importing data"]. *)
Theorem import_data_never_400
    (import_user_data : state → string → string → bool * state)
    (st : state) (u data_json : string) :
  fst (HistoryRouter.import_data import_user_data st u data_json)
  = (if fst (import_user_data st u data_json)
     then Respond ("Data imported successfully for user " +:+ u)
     else Fail (HTTPException 500 "Error importing data"))
  ∧ snd (HistoryRouter.import_data import_user_data st u data_json)
    = snd (import_user_data st u data_json)
  ∧ ∀ e, fst (HistoryRouter.import_data import_user_data st u data_json) = Fail e →
         status_code e ≠ 400 ∧ detail e ≠ "Invalid JSON format".
Proof.
  unfold HistoryRouter.import_data.
  destruct (import_user_data st u data_json) as [[|] st']; cbn.
  - split; [done|]. split; [done|]. intros e [=].
  - split; [done|]. split; [done|]. intros e [= <-]. split; done.
Qed.

End RouterExtras.

Section RouterExtrasWitnesses.
Import Datetime DatetimeArith Storage StorageSpec StorageGlobal Http.
#[local] Existing Instance py37_parser.

(** Witness of [health_router_fails_on_one_entry]: the request example,
    whose timestamp ends in ["Z"], stored after a regular entry. *)
Lemma health_router_fails_on_one_entry_witness :
  HealthRouter.raises_in_window sample_prediction = true
  ∧ HealthRouter.get_emotion_history HealthRouter.sample_clocks
      HealthRouter.sample_store_utc "user_123" 100 24
    = Fail (HTTPException 500 "Error retrieving prediction history")
  ∧ HealthRouter.get_emotion_stats sample_now HealthRouter.sample_store_utc
      "user_123" 24
    = Fail (HTTPException 500 "Error calculating emotion statistics").
Proof.
  split; [vm_compute; reflexivity|].
  apply (health_router_fails_on_one_entry HealthRouter.sample_clocks sample_now
           HealthRouter.sample_store_utc "user_123" [sample_prediction_naive] []
           sample_prediction 100 24).
  - vm_compute. reflexivity.
  - vm_compute. reflexivity.
Defined.

(** Witness of [health_router_history_ok]: one regular entry. *)
Lemma health_router_history_ok_witness :
  ∃ r, HealthRouter.get_emotion_history HealthRouter.sample_clocks
         HealthRouter.sample_store "user_123" 100 24 = Respond r
     ∧ hr_total r = Z.of_nat (length (hr_predictions r))
     ∧ hr_total r ≤ 100.
Proof.
  destruct (health_router_history_ok HealthRouter.sample_clocks
              HealthRouter.sample_store "user_123" 100 24)
    as (r & Hr & _ & Ht & Hl & _).
  - reflexivity.
  - vm_compute. discriminate.
  - reflexivity.
  - vm_compute. discriminate.
  - lia.
  - assert (HealthRouter.sample_store !! "user_123" = Some [sample_prediction_naive])
      as -> by (vm_compute; reflexivity).
    constructor; [vm_compute; reflexivity|constructor].
  - exists r. split; [exact Hr|]. split; [exact Ht|]. apply Hl. lia.
Defined.

(** Witness of [health_router_stats_consistent]: one regular entry. *)
Lemma health_router_stats_consistent_witness :
  ∃ r, HealthRouter.get_emotion_stats sample_now HealthRouter.sample_store
         "user_123" 24 = Respond r
     ∧ sum_counts (HealthRouter.sr_emotion_counts r)
       = HealthRouter.sr_total_predictions r.
Proof.
  destruct (HealthRouter.get_emotion_stats sample_now HealthRouter.sample_store
              "user_123" 24) as [r|e] eqn:Hr.
  2:{ vm_compute in Hr. discriminate Hr. }
  exists r. split; [reflexivity|].
  destruct (health_router_stats_consistent sample_now HealthRouter.sample_store
              "user_123" 24 r Hr) as (_ & _ & _ & _ & _ & Hs & _).
  exact Hs.
Defined.

(** Witness of [history_router_never_fails]: the request example in the
    storage service. *)
Lemma history_router_never_fails_witness :
  ∃ r, HistoryRouter.get_emotion_history HealthRouter.sample_clocks
         (Storage.store_prediction sample_now empty_state "user_123" sample_prediction)
         "user_123" 100 24 = Respond r
     ∧ hr_total r = Z.of_nat (length (hr_predictions r)).
Proof.
  destruct (history_router_never_fails HealthRouter.sample_clocks
              (Storage.store_prediction sample_now empty_state "user_123"
                 sample_prediction)
              "user_123" 100 24) as ((r & Hr & _ & Ht & _) & _).
  - reflexivity.
  - vm_compute. discriminate.
  - lia.
  - exists r. split; [exact Hr|exact Ht].
Defined.

End RouterExtrasWitnesses.
